(** * BikeRacerGame: session / reward state machine and client reconciliation

    A shallow embedding of the on-chain game contract
    ([contracts/RaceToken.sol], contract [BikeRacerGame]) and of the client
    service that drives it ([services/CircleService.ts], [context/GameContext.tsx]),
    followed by the properties of the specification that concern them.

    Contract side: storage is a record of finite maps, every external
    function is a computation in a state-and-revert monad, [uint256]
    values are integers with Solidity 0.8 checked arithmetic written out.
    Client side: asynchronous functions are computations over a log of
    observable effects, with the answers of the chain and of the relay
    supplied by an oracle. *)

From Stdlib Require Import ZArith Lia String Ascii List.
From stdpp Require Import gmap strings list fin_maps.
Import ListNotations.

Local Open Scope Z_scope.

(** ** Solidity preliminaries *)

Module Sol.

Definition address := N.

Definition MAX_UINT256 : Z := 2 ^ 256 - 1.

Definition is_uint256 (z : Z) : Prop := 0 <= z <= MAX_UINT256.

(** Why a call reverted. *)
Inductive Failure : Type :=
| RequireFailed (reason : string)
| Panic (code : Z)
| CustomError (name : string).

Inductive result (A : Type) : Type :=
| Ok (a : A)
| Revert (f : Failure).

Arguments Ok {A} a.
Arguments Revert {A} f.

End Sol.

Import Sol.

(** ** The game contract *)

Module BikeRacerGame.

(** *** Constants *)

Definition PRACTICE_FEE : Z := 0.
Definition RANKED_ENTRY_FEE : Z := 5 * 10 ^ 6.
Definition SPORTS_BIKE_PRICE : Z := 1 * 10 ^ 6.
Definition LADY_BIKE_PRICE : Z := 3 * 10 ^ 6.
Definition CHOPPER_BIKE_PRICE : Z := 5 * 10 ^ 6.

(** *** Structs and enums *)

Inductive BikeType : Type := SPORTS | LADY | CHOPPER.

Inductive GameMode : Type := PRACTICE | RANKED | DAILY_CHALLENGE.

Record BikeNFT : Type := mkBikeNFT {
  bikeType : BikeType;
  speed : Z;
  acceleration : Z;
  handling : Z;
  mintTime : Z;
  totalRaces : Z;
  totalWins : Z;
  name : string
}.

Record GameSession : Type := mkGameSession {
  player : address;
  bikeTokenId : Z;
  score : Z;
  distance : Z;
  vehiclesDodged : Z;
  timestamp : Z;
  completed : bool;
  rewardsClaimed : Z;
  gameMode : GameMode
}.

Record DailyChallenge : Type := mkDailyChallenge {
  challengeDate : Z;
  targetScore : Z;
  rewardAmount : Z;
  active : bool
}.

#[global] Instance BikeType_eq_dec : EqDecision BikeType.
Proof. solve_decision. Defined.

#[global] Instance GameMode_eq_dec : EqDecision GameMode.
Proof. solve_decision. Defined.

(** Values read from storage slots never written. *)
Definition BikeNFT_zero : BikeNFT := mkBikeNFT SPORTS 0 0 0 0 0 0 EmptyString.
Definition GameSession_zero : GameSession := mkGameSession 0%N 0 0 0 0 0 false 0 PRACTICE.
Definition DailyChallenge_zero : DailyChallenge := mkDailyChallenge 0 0 0 false.

(** *** Events *)

Inductive Event : Type :=
| BikeNFTMinted (player : address) (tokenId : Z) (bikeType : BikeType) (name : string)
| GameStarted (player : address) (sessionId bikeTokenId : Z) (gameMode : GameMode)
| GameCompleted (player : address) (sessionId score rewards : Z) (gameMode : GameMode)
| DailyChallengeCreated (challengeDate targetScore rewardAmount : Z)
| DailyChallengeCompleted (player : address) (challengeDate score reward : Z)
| TokensTransferred (from to : address) (amount : Z)
| RewardsClaimed (player : address) (amount : Z).

(** *** Storage

    [self_address] is [address(this)].  [erc20_balances] and
    [erc20_allowances] are the ledgers of the ERC-20 contracts the game
    calls (keyed by token contract first), [nft_owners], [owner] and
    [paused] the state inherited from ERC721, Ownable and Pausable; the
    other fields are the state variables of the contract.  The event log
    is kept newest first.  The [tournaments] mapping and
    [nextTournamentId] are declared by the contract but no function
    reads or writes them. *)

Record World : Type := mkWorld {
  self_address : address;
  usdc : address;
  raceToken : address;
  owner : address;
  paused : bool;
  erc20_balances : gmap (address * address) Z;
  erc20_allowances : gmap (address * address * address) Z;
  nft_owners : gmap Z address;
  _tokenIdCounter : Z;
  bikeNFTs : gmap Z BikeNFT;
  gameSessions : gmap Z GameSession;
  playerSessions : gmap address (list Z);
  ownedBikes : gmap address (list Z);
  playerRewards : gmap address Z;
  dailyChallenges : gmap Z DailyChallenge;
  completedDailyChallenges : gmap (address * Z) bool;
  challengeCompleted : gmap (Z * address) bool;
  challengeBestScores : gmap (Z * address) Z;
  nextSessionId : Z;
  totalPrizePool : Z;
  currentChallengeDate : Z;
  events : list Event
}.

Definition set_raceToken (v : address) (w : World) : World :=
  {| self_address := self_address w; usdc := usdc w; raceToken := v; owner := owner w;
     paused := paused w; erc20_balances := erc20_balances w; erc20_allowances :=
     erc20_allowances w; nft_owners := nft_owners w; _tokenIdCounter := _tokenIdCounter w;
     bikeNFTs := bikeNFTs w; gameSessions := gameSessions w; playerSessions :=
     playerSessions w; ownedBikes := ownedBikes w; playerRewards := playerRewards w;
     dailyChallenges := dailyChallenges w; completedDailyChallenges :=
     completedDailyChallenges w; challengeCompleted := challengeCompleted w;
     challengeBestScores := challengeBestScores w; nextSessionId := nextSessionId w;
     totalPrizePool := totalPrizePool w; currentChallengeDate := currentChallengeDate w;
     events := events w |}.

Definition set_paused (v : bool) (w : World) : World :=
  {| self_address := self_address w; usdc := usdc w; raceToken := raceToken w; owner :=
     owner w; paused := v; erc20_balances := erc20_balances w; erc20_allowances :=
     erc20_allowances w; nft_owners := nft_owners w; _tokenIdCounter := _tokenIdCounter w;
     bikeNFTs := bikeNFTs w; gameSessions := gameSessions w; playerSessions :=
     playerSessions w; ownedBikes := ownedBikes w; playerRewards := playerRewards w;
     dailyChallenges := dailyChallenges w; completedDailyChallenges :=
     completedDailyChallenges w; challengeCompleted := challengeCompleted w;
     challengeBestScores := challengeBestScores w; nextSessionId := nextSessionId w;
     totalPrizePool := totalPrizePool w; currentChallengeDate := currentChallengeDate w;
     events := events w |}.

Definition set_erc20_balances (v : gmap (address * address) Z) (w : World) : World :=
  {| self_address := self_address w; usdc := usdc w; raceToken := raceToken w; owner :=
     owner w; paused := paused w; erc20_balances := v; erc20_allowances := erc20_allowances
     w; nft_owners := nft_owners w; _tokenIdCounter := _tokenIdCounter w; bikeNFTs :=
     bikeNFTs w; gameSessions := gameSessions w; playerSessions := playerSessions w;
     ownedBikes := ownedBikes w; playerRewards := playerRewards w; dailyChallenges :=
     dailyChallenges w; completedDailyChallenges := completedDailyChallenges w;
     challengeCompleted := challengeCompleted w; challengeBestScores := challengeBestScores
     w; nextSessionId := nextSessionId w; totalPrizePool := totalPrizePool w;
     currentChallengeDate := currentChallengeDate w; events := events w |}.

Definition set_erc20_allowances (v : gmap (address * address * address) Z) (w : World) : World :=
  {| self_address := self_address w; usdc := usdc w; raceToken := raceToken w; owner :=
     owner w; paused := paused w; erc20_balances := erc20_balances w; erc20_allowances := v;
     nft_owners := nft_owners w; _tokenIdCounter := _tokenIdCounter w; bikeNFTs := bikeNFTs
     w; gameSessions := gameSessions w; playerSessions := playerSessions w; ownedBikes :=
     ownedBikes w; playerRewards := playerRewards w; dailyChallenges := dailyChallenges w;
     completedDailyChallenges := completedDailyChallenges w; challengeCompleted :=
     challengeCompleted w; challengeBestScores := challengeBestScores w; nextSessionId :=
     nextSessionId w; totalPrizePool := totalPrizePool w; currentChallengeDate :=
     currentChallengeDate w; events := events w |}.

Definition set_nft_owners (v : gmap Z address) (w : World) : World :=
  {| self_address := self_address w; usdc := usdc w; raceToken := raceToken w; owner :=
     owner w; paused := paused w; erc20_balances := erc20_balances w; erc20_allowances :=
     erc20_allowances w; nft_owners := v; _tokenIdCounter := _tokenIdCounter w; bikeNFTs :=
     bikeNFTs w; gameSessions := gameSessions w; playerSessions := playerSessions w;
     ownedBikes := ownedBikes w; playerRewards := playerRewards w; dailyChallenges :=
     dailyChallenges w; completedDailyChallenges := completedDailyChallenges w;
     challengeCompleted := challengeCompleted w; challengeBestScores := challengeBestScores
     w; nextSessionId := nextSessionId w; totalPrizePool := totalPrizePool w;
     currentChallengeDate := currentChallengeDate w; events := events w |}.

Definition set_tokenIdCounter (v : Z) (w : World) : World :=
  {| self_address := self_address w; usdc := usdc w; raceToken := raceToken w; owner :=
     owner w; paused := paused w; erc20_balances := erc20_balances w; erc20_allowances :=
     erc20_allowances w; nft_owners := nft_owners w; _tokenIdCounter := v; bikeNFTs :=
     bikeNFTs w; gameSessions := gameSessions w; playerSessions := playerSessions w;
     ownedBikes := ownedBikes w; playerRewards := playerRewards w; dailyChallenges :=
     dailyChallenges w; completedDailyChallenges := completedDailyChallenges w;
     challengeCompleted := challengeCompleted w; challengeBestScores := challengeBestScores
     w; nextSessionId := nextSessionId w; totalPrizePool := totalPrizePool w;
     currentChallengeDate := currentChallengeDate w; events := events w |}.

Definition set_bikeNFTs (v : gmap Z BikeNFT) (w : World) : World :=
  {| self_address := self_address w; usdc := usdc w; raceToken := raceToken w; owner :=
     owner w; paused := paused w; erc20_balances := erc20_balances w; erc20_allowances :=
     erc20_allowances w; nft_owners := nft_owners w; _tokenIdCounter := _tokenIdCounter w;
     bikeNFTs := v; gameSessions := gameSessions w; playerSessions := playerSessions w;
     ownedBikes := ownedBikes w; playerRewards := playerRewards w; dailyChallenges :=
     dailyChallenges w; completedDailyChallenges := completedDailyChallenges w;
     challengeCompleted := challengeCompleted w; challengeBestScores := challengeBestScores
     w; nextSessionId := nextSessionId w; totalPrizePool := totalPrizePool w;
     currentChallengeDate := currentChallengeDate w; events := events w |}.

Definition set_gameSessions (v : gmap Z GameSession) (w : World) : World :=
  {| self_address := self_address w; usdc := usdc w; raceToken := raceToken w; owner :=
     owner w; paused := paused w; erc20_balances := erc20_balances w; erc20_allowances :=
     erc20_allowances w; nft_owners := nft_owners w; _tokenIdCounter := _tokenIdCounter w;
     bikeNFTs := bikeNFTs w; gameSessions := v; playerSessions := playerSessions w;
     ownedBikes := ownedBikes w; playerRewards := playerRewards w; dailyChallenges :=
     dailyChallenges w; completedDailyChallenges := completedDailyChallenges w;
     challengeCompleted := challengeCompleted w; challengeBestScores := challengeBestScores
     w; nextSessionId := nextSessionId w; totalPrizePool := totalPrizePool w;
     currentChallengeDate := currentChallengeDate w; events := events w |}.

Definition set_playerSessions (v : gmap address (list Z)) (w : World) : World :=
  {| self_address := self_address w; usdc := usdc w; raceToken := raceToken w; owner :=
     owner w; paused := paused w; erc20_balances := erc20_balances w; erc20_allowances :=
     erc20_allowances w; nft_owners := nft_owners w; _tokenIdCounter := _tokenIdCounter w;
     bikeNFTs := bikeNFTs w; gameSessions := gameSessions w; playerSessions := v; ownedBikes
     := ownedBikes w; playerRewards := playerRewards w; dailyChallenges := dailyChallenges
     w; completedDailyChallenges := completedDailyChallenges w; challengeCompleted :=
     challengeCompleted w; challengeBestScores := challengeBestScores w; nextSessionId :=
     nextSessionId w; totalPrizePool := totalPrizePool w; currentChallengeDate :=
     currentChallengeDate w; events := events w |}.

Definition set_ownedBikes (v : gmap address (list Z)) (w : World) : World :=
  {| self_address := self_address w; usdc := usdc w; raceToken := raceToken w; owner :=
     owner w; paused := paused w; erc20_balances := erc20_balances w; erc20_allowances :=
     erc20_allowances w; nft_owners := nft_owners w; _tokenIdCounter := _tokenIdCounter w;
     bikeNFTs := bikeNFTs w; gameSessions := gameSessions w; playerSessions :=
     playerSessions w; ownedBikes := v; playerRewards := playerRewards w; dailyChallenges :=
     dailyChallenges w; completedDailyChallenges := completedDailyChallenges w;
     challengeCompleted := challengeCompleted w; challengeBestScores := challengeBestScores
     w; nextSessionId := nextSessionId w; totalPrizePool := totalPrizePool w;
     currentChallengeDate := currentChallengeDate w; events := events w |}.

Definition set_playerRewards (v : gmap address Z) (w : World) : World :=
  {| self_address := self_address w; usdc := usdc w; raceToken := raceToken w; owner :=
     owner w; paused := paused w; erc20_balances := erc20_balances w; erc20_allowances :=
     erc20_allowances w; nft_owners := nft_owners w; _tokenIdCounter := _tokenIdCounter w;
     bikeNFTs := bikeNFTs w; gameSessions := gameSessions w; playerSessions :=
     playerSessions w; ownedBikes := ownedBikes w; playerRewards := v; dailyChallenges :=
     dailyChallenges w; completedDailyChallenges := completedDailyChallenges w;
     challengeCompleted := challengeCompleted w; challengeBestScores := challengeBestScores
     w; nextSessionId := nextSessionId w; totalPrizePool := totalPrizePool w;
     currentChallengeDate := currentChallengeDate w; events := events w |}.

Definition set_dailyChallenges (v : gmap Z DailyChallenge) (w : World) : World :=
  {| self_address := self_address w; usdc := usdc w; raceToken := raceToken w; owner :=
     owner w; paused := paused w; erc20_balances := erc20_balances w; erc20_allowances :=
     erc20_allowances w; nft_owners := nft_owners w; _tokenIdCounter := _tokenIdCounter w;
     bikeNFTs := bikeNFTs w; gameSessions := gameSessions w; playerSessions :=
     playerSessions w; ownedBikes := ownedBikes w; playerRewards := playerRewards w;
     dailyChallenges := v; completedDailyChallenges := completedDailyChallenges w;
     challengeCompleted := challengeCompleted w; challengeBestScores := challengeBestScores
     w; nextSessionId := nextSessionId w; totalPrizePool := totalPrizePool w;
     currentChallengeDate := currentChallengeDate w; events := events w |}.

Definition set_completedDailyChallenges (v : gmap (address * Z) bool) (w : World) : World :=
  {| self_address := self_address w; usdc := usdc w; raceToken := raceToken w; owner :=
     owner w; paused := paused w; erc20_balances := erc20_balances w; erc20_allowances :=
     erc20_allowances w; nft_owners := nft_owners w; _tokenIdCounter := _tokenIdCounter w;
     bikeNFTs := bikeNFTs w; gameSessions := gameSessions w; playerSessions :=
     playerSessions w; ownedBikes := ownedBikes w; playerRewards := playerRewards w;
     dailyChallenges := dailyChallenges w; completedDailyChallenges := v; challengeCompleted
     := challengeCompleted w; challengeBestScores := challengeBestScores w; nextSessionId :=
     nextSessionId w; totalPrizePool := totalPrizePool w; currentChallengeDate :=
     currentChallengeDate w; events := events w |}.

Definition set_challengeCompleted (v : gmap (Z * address) bool) (w : World) : World :=
  {| self_address := self_address w; usdc := usdc w; raceToken := raceToken w; owner :=
     owner w; paused := paused w; erc20_balances := erc20_balances w; erc20_allowances :=
     erc20_allowances w; nft_owners := nft_owners w; _tokenIdCounter := _tokenIdCounter w;
     bikeNFTs := bikeNFTs w; gameSessions := gameSessions w; playerSessions :=
     playerSessions w; ownedBikes := ownedBikes w; playerRewards := playerRewards w;
     dailyChallenges := dailyChallenges w; completedDailyChallenges :=
     completedDailyChallenges w; challengeCompleted := v; challengeBestScores :=
     challengeBestScores w; nextSessionId := nextSessionId w; totalPrizePool :=
     totalPrizePool w; currentChallengeDate := currentChallengeDate w; events := events w |}.

Definition set_challengeBestScores (v : gmap (Z * address) Z) (w : World) : World :=
  {| self_address := self_address w; usdc := usdc w; raceToken := raceToken w; owner :=
     owner w; paused := paused w; erc20_balances := erc20_balances w; erc20_allowances :=
     erc20_allowances w; nft_owners := nft_owners w; _tokenIdCounter := _tokenIdCounter w;
     bikeNFTs := bikeNFTs w; gameSessions := gameSessions w; playerSessions :=
     playerSessions w; ownedBikes := ownedBikes w; playerRewards := playerRewards w;
     dailyChallenges := dailyChallenges w; completedDailyChallenges :=
     completedDailyChallenges w; challengeCompleted := challengeCompleted w;
     challengeBestScores := v; nextSessionId := nextSessionId w; totalPrizePool :=
     totalPrizePool w; currentChallengeDate := currentChallengeDate w; events := events w |}.

Definition set_nextSessionId (v : Z) (w : World) : World :=
  {| self_address := self_address w; usdc := usdc w; raceToken := raceToken w; owner :=
     owner w; paused := paused w; erc20_balances := erc20_balances w; erc20_allowances :=
     erc20_allowances w; nft_owners := nft_owners w; _tokenIdCounter := _tokenIdCounter w;
     bikeNFTs := bikeNFTs w; gameSessions := gameSessions w; playerSessions :=
     playerSessions w; ownedBikes := ownedBikes w; playerRewards := playerRewards w;
     dailyChallenges := dailyChallenges w; completedDailyChallenges :=
     completedDailyChallenges w; challengeCompleted := challengeCompleted w;
     challengeBestScores := challengeBestScores w; nextSessionId := v; totalPrizePool :=
     totalPrizePool w; currentChallengeDate := currentChallengeDate w; events := events w |}.

Definition set_totalPrizePool (v : Z) (w : World) : World :=
  {| self_address := self_address w; usdc := usdc w; raceToken := raceToken w; owner :=
     owner w; paused := paused w; erc20_balances := erc20_balances w; erc20_allowances :=
     erc20_allowances w; nft_owners := nft_owners w; _tokenIdCounter := _tokenIdCounter w;
     bikeNFTs := bikeNFTs w; gameSessions := gameSessions w; playerSessions :=
     playerSessions w; ownedBikes := ownedBikes w; playerRewards := playerRewards w;
     dailyChallenges := dailyChallenges w; completedDailyChallenges :=
     completedDailyChallenges w; challengeCompleted := challengeCompleted w;
     challengeBestScores := challengeBestScores w; nextSessionId := nextSessionId w;
     totalPrizePool := v; currentChallengeDate := currentChallengeDate w; events := events w |}.

Definition set_currentChallengeDate (v : Z) (w : World) : World :=
  {| self_address := self_address w; usdc := usdc w; raceToken := raceToken w; owner :=
     owner w; paused := paused w; erc20_balances := erc20_balances w; erc20_allowances :=
     erc20_allowances w; nft_owners := nft_owners w; _tokenIdCounter := _tokenIdCounter w;
     bikeNFTs := bikeNFTs w; gameSessions := gameSessions w; playerSessions :=
     playerSessions w; ownedBikes := ownedBikes w; playerRewards := playerRewards w;
     dailyChallenges := dailyChallenges w; completedDailyChallenges :=
     completedDailyChallenges w; challengeCompleted := challengeCompleted w;
     challengeBestScores := challengeBestScores w; nextSessionId := nextSessionId w;
     totalPrizePool := totalPrizePool w; currentChallengeDate := v; events := events w |}.

Definition set_events (v : list Event) (w : World) : World :=
  {| self_address := self_address w; usdc := usdc w; raceToken := raceToken w; owner :=
     owner w; paused := paused w; erc20_balances := erc20_balances w; erc20_allowances :=
     erc20_allowances w; nft_owners := nft_owners w; _tokenIdCounter := _tokenIdCounter w;
     bikeNFTs := bikeNFTs w; gameSessions := gameSessions w; playerSessions :=
     playerSessions w; ownedBikes := ownedBikes w; playerRewards := playerRewards w;
     dailyChallenges := dailyChallenges w; completedDailyChallenges :=
     completedDailyChallenges w; challengeCompleted := challengeCompleted w;
     challengeBestScores := challengeBestScores w; nextSessionId := nextSessionId w;
     totalPrizePool := totalPrizePool w; currentChallengeDate := currentChallengeDate w;
     events := v |}.

(** Reading a mapping: a key never written reads as the zero value. *)
Definition rd `{Countable K} {V : Type} (zero : V) (m : gmap K V) (k : K) : V :=
  default zero (m !! k).

(** *** The execution monad

    A call runs on the storage and either returns a value with the new
    storage or reverts; a revert discards every write made so far. *)

Definition M (A : Type) : Type := World -> result (A * World).

Definition ret {A : Type} (a : A) : M A := fun w => Ok (a, w).

Definition bind {A B : Type} (m : M A) (k : A -> M B) : M B :=
  fun w => match m w with
           | Ok (a, w') => k a w'
           | Revert f => Revert f
           end.

Notation "'let*' x ':=' m 'in' k" := (bind m (fun x => k))
  (at level 10, x name, m at level 100, k at level 200).
Notation "m ';;' k" := (bind m (fun _ => k))
  (at level 100, k at level 200, right associativity).

Definition revert {A : Type} (f : Failure) : M A := fun _ => Revert f.
Definition gets {A : Type} (f : World -> A) : M A := fun w => Ok (f w, w).
Definition modify (f : World -> World) : M unit := fun w => Ok (tt, f w).

Definition require (c : bool) (reason : string) : M unit :=
  if c then ret tt else revert (RequireFailed reason).

Definition ensure (c : bool) (error : string) : M unit :=
  if c then ret tt else revert (CustomError error).

Definition emit (e : Event) : M unit :=
  modify (fun w => set_events (e :: events w) w).

(** Solidity 0.8 arithmetic on [uint256]: overflow, underflow and division
    by zero revert with a panic. *)
Definition checked_add (a b : Z) : M Z :=
  if a + b <=? MAX_UINT256 then ret (a + b) else revert (Panic 17).
Definition checked_sub (a b : Z) : M Z :=
  if b <=? a then ret (a - b) else revert (Panic 17).
Definition checked_mul (a b : Z) : M Z :=
  if a * b <=? MAX_UINT256 then ret (a * b) else revert (Panic 17).
Definition checked_div (a b : Z) : M Z :=
  if b =? 0 then revert (Panic 18) else ret (a / b).

(** The transaction context of a call. *)
Record Env : Type := mkEnv {
  msg_sender : address;
  block_timestamp : Z
}.

(** *** External collaborators

    The two tokens are OpenZeppelin ERC-20 contracts ([RaceToken is ERC20]);
    [transfer] and [transferFrom] either revert or return [true]. *)

Definition erc20_balanceOf (token holder : address) (w : World) : Z :=
  rd 0 (erc20_balances w) (token, holder).

Definition erc20_allowance (token holder spender : address) (w : World) : Z :=
  rd 0 (erc20_allowances w) (token, holder, spender).

Definition erc20__transfer (token from to : address) (value : Z) : M unit :=
  ensure (negb (from =? 0)%N) "ERC20InvalidSender" ;;
  ensure (negb (to =? 0)%N) "ERC20InvalidReceiver" ;;
  let* fromBalance := gets (erc20_balanceOf token from) in
  ensure (value <=? fromBalance) "ERC20InsufficientBalance" ;;
  modify (fun w => set_erc20_balances (<[(token, from) := fromBalance - value]> (erc20_balances w)) w) ;;
  let* toBalance := gets (erc20_balanceOf token to) in
  modify (fun w => set_erc20_balances (<[(token, to) := toBalance + value]> (erc20_balances w)) w).

Definition erc20__spendAllowance (token holder spender : address) (value : Z) : M unit :=
  let* currentAllowance := gets (erc20_allowance token holder spender) in
  if currentAllowance <? MAX_UINT256 then
    ensure (value <=? currentAllowance) "ERC20InsufficientAllowance" ;;
    modify (fun w => set_erc20_allowances
                       (<[(token, holder, spender) := currentAllowance - value]> (erc20_allowances w)) w)
  else ret tt.

(** [token.transfer(to, value)] called by [caller]. *)
Definition erc20_transfer (token caller to : address) (value : Z) : M bool :=
  erc20__transfer token caller to value ;;
  ret true.

(** [token.transferFrom(from, to, value)] called by [caller]. *)
Definition erc20_transferFrom (token caller from to : address) (value : Z) : M bool :=
  erc20__spendAllowance token from caller value ;;
  erc20__transfer token from to value ;;
  ret true.

(** ERC721: [ownerOf] reverts on a token that does not exist; [_safeMint]
    gives a fresh token to a non-null receiver (the receiver is taken to
    accept it). *)
Definition _ownerOf (tokenId : Z) (w : World) : address :=
  rd 0%N (nft_owners w) tokenId.

Definition ownerOf (tokenId : Z) : M address :=
  let* o := gets (_ownerOf tokenId) in
  ensure (negb (o =? 0)%N) "ERC721NonexistentToken" ;;
  ret o.

Definition _safeMint (to : address) (tokenId : Z) : M unit :=
  ensure (negb (to =? 0)%N) "ERC721InvalidReceiver" ;;
  let* previousOwner := gets (_ownerOf tokenId) in
  ensure (previousOwner =? 0)%N "ERC721InvalidSender" ;;
  modify (fun w => set_nft_owners (<[tokenId := to]> (nft_owners w)) w).

(** Modifiers.  No modelled external call re-enters the contract, so
    [nonReentrant] never fires and is left out. *)
Definition whenNotPaused : M unit :=
  let* p := gets paused in ensure (negb p) "EnforcedPause".

Definition whenPaused : M unit :=
  let* p := gets paused in ensure p "ExpectedPause".

Definition onlyOwner (env : Env) : M unit :=
  let* o := gets owner in
  ensure (o =? msg_sender env)%N "OwnableUnauthorizedAccount".

(** *** Storage accessors *)

Definition bikeNFTs_at (tokenId : Z) (w : World) : BikeNFT :=
  rd BikeNFT_zero (bikeNFTs w) tokenId.
Definition gameSessions_at (sessionId : Z) (w : World) : GameSession :=
  rd GameSession_zero (gameSessions w) sessionId.
Definition playerRewards_at (a : address) (w : World) : Z :=
  rd 0 (playerRewards w) a.
Definition dailyChallenges_at (day : Z) (w : World) : DailyChallenge :=
  rd DailyChallenge_zero (dailyChallenges w) day.
Definition completedDailyChallenges_at (a : address) (day : Z) (w : World) : bool :=
  rd false (completedDailyChallenges w) (a, day).
Definition playerSessions_at (a : address) (w : World) : list Z :=
  rd [] (playerSessions w) a.
Definition ownedBikes_at (a : address) (w : World) : list Z :=
  rd [] (ownedBikes w) a.

Definition write_bikeNFT (tokenId : Z) (b : BikeNFT) : M unit :=
  modify (fun w => set_bikeNFTs (<[tokenId := b]> (bikeNFTs w)) w).
Definition write_gameSession (sessionId : Z) (s : GameSession) : M unit :=
  modify (fun w => set_gameSessions (<[sessionId := s]> (gameSessions w)) w).
Definition write_playerRewards (a : address) (v : Z) : M unit :=
  modify (fun w => set_playerRewards (<[a := v]> (playerRewards w)) w).
Definition write_dailyChallenge (day : Z) (c : DailyChallenge) : M unit :=
  modify (fun w => set_dailyChallenges (<[day := c]> (dailyChallenges w)) w).

(** *** Contract functions *)

Definition getCurrentDay (env : Env) : Z := block_timestamp env / 86400.

Definition getBikeBaseStats (_bikeType : BikeType) : Z * Z * Z :=
  match _bikeType with
  | SPORTS => (95, 85, 70)
  | LADY => (70, 75, 90)
  | CHOPPER => (80, 60, 85)
  end.

Definition getBikeMintPrice (_bikeType : BikeType) : Z :=
  match _bikeType with
  | SPORTS => SPORTS_BIKE_PRICE
  | LADY => LADY_BIKE_PRICE
  | CHOPPER => CHOPPER_BIKE_PRICE
  end.

Definition _createDailyChallenge (env : Env) : M unit :=
  let today := getCurrentDay env in
  let* targetScore_ := checked_add 500 (block_timestamp env mod 1000) in
  let rewardAmount_ := 50 * 10 ^ 18 in
  write_dailyChallenge today (mkDailyChallenge today targetScore_ rewardAmount_ true) ;;
  emit (DailyChallengeCreated today targetScore_ rewardAmount_).

Definition mintBike (env : Env) (_bikeType : BikeType) (_bikeName : string) : M Z :=
  whenNotPaused ;;
  let mintPrice := getBikeMintPrice _bikeType in
  let* usdc_ := gets usdc in
  let* this := gets self_address in
  let* paid := erc20_transferFrom usdc_ this (msg_sender env) this mintPrice in
  require paid "Mint fee transfer failed" ;;
  let* tokenId := gets _tokenIdCounter in
  let* next := checked_add tokenId 1 in
  modify (set_tokenIdCounter next) ;;
  let stats := getBikeBaseStats _bikeType in
  write_bikeNFT tokenId
    (mkBikeNFT _bikeType stats.1.1 stats.1.2 stats.2 (block_timestamp env) 0 0 _bikeName) ;;
  modify (fun w => set_ownedBikes
                     (<[msg_sender env := ownedBikes_at (msg_sender env) w ++ [tokenId]]> (ownedBikes w)) w) ;;
  _safeMint (msg_sender env) tokenId ;;
  emit (BikeNFTMinted (msg_sender env) tokenId _bikeType _bikeName) ;;
  ret tokenId.

Definition startGame (env : Env) (_bikeTokenId : Z) (_gameMode : GameMode) : M Z :=
  whenNotPaused ;;
  let* bikeOwner := ownerOf _bikeTokenId in
  require (bikeOwner =? msg_sender env)%N "You don't own this bike" ;;
  match _gameMode with
  | RANKED =>
      let* usdc_ := gets usdc in
      let* this := gets self_address in
      let* paid := erc20_transferFrom usdc_ this (msg_sender env) this RANKED_ENTRY_FEE in
      require paid "Entry fee transfer failed" ;;
      let prizeContribution := RANKED_ENTRY_FEE * 80 / 100 in
      let* pool := gets totalPrizePool in
      let* pool' := checked_add pool prizeContribution in
      modify (set_totalPrizePool pool')
  | DAILY_CHALLENGE =>
      let today := getCurrentDay env in
      let* challenge := gets (dailyChallenges_at today) in
      require (active challenge) "No active daily challenge" ;;
      let* done_ := gets (completedDailyChallenges_at (msg_sender env) today) in
      require (negb done_) "Already completed today's challenge"
  | PRACTICE => ret tt
  end ;;
  let* sessionId := gets nextSessionId in
  let* next := checked_add sessionId 1 in
  modify (set_nextSessionId next) ;;
  write_gameSession sessionId
    (mkGameSession (msg_sender env) _bikeTokenId 0 0 0 (block_timestamp env) false 0 _gameMode) ;;
  modify (fun w => set_playerSessions
                     (<[msg_sender env := playerSessions_at (msg_sender env) w ++ [sessionId]]>
                        (playerSessions w)) w) ;;
  let* bike := gets (bikeNFTs_at _bikeTokenId) in
  let* races := checked_add (totalRaces bike) 1 in
  write_bikeNFT _bikeTokenId
    (mkBikeNFT (bikeType bike) (speed bike) (acceleration bike) (handling bike)
               (mintTime bike) races (totalWins bike) (name bike)) ;;
  emit (GameStarted (msg_sender env) sessionId _bikeTokenId _gameMode) ;;
  ret sessionId.

(** The performance part of the reward: base, bike, score, distance and
    dodge bonuses, added in this order. *)
Definition performanceRewards (bike : BikeNFT) (score_ distance_ vehiclesDodged_ : Z) : M Z :=
  let baseReward := 10 * 10 ^ 18 in
  let* s1 := checked_add (speed bike) (acceleration bike) in
  let* s2 := checked_add s1 (handling bike) in
  let* s3 := checked_mul s2 (10 ^ 17) in
  let* bikeBonus := checked_div s3 100 in
  let* q1 := checked_div score_ 100 in
  let* scoreBonus := checked_mul q1 (10 ^ 18) in
  let* q2 := checked_div distance_ 1000 in
  let* q3 := checked_mul q2 5 in
  let* distanceBonus := checked_mul q3 (10 ^ 18) in
  let* q4 := checked_mul vehiclesDodged_ 2 in
  let* dodgeBonus := checked_mul q4 (10 ^ 18) in
  let* t1 := checked_add baseReward bikeBonus in
  let* t2 := checked_add t1 scoreBonus in
  let* t3 := checked_add t2 distanceBonus in
  checked_add t3 dodgeBonus.

(** The same amounts without the overflow checks. *)
Definition bikeBonus_value (bike : BikeNFT) : Z :=
  (speed bike + acceleration bike + handling bike) * 10 ^ 17 / 100.

Definition performance_value (bike : BikeNFT) (score_ distance_ vehiclesDodged_ : Z) : Z :=
  10 * 10 ^ 18 + bikeBonus_value bike + score_ / 100 * 10 ^ 18
  + distance_ / 1000 * 5 * 10 ^ 18 + vehiclesDodged_ * 2 * 10 ^ 18.

Definition completeGame (env : Env) (sessionId score_ distance_ vehiclesDodged_ : Z) : M unit :=
  let* session := gets (gameSessions_at sessionId) in
  require (player session =? msg_sender env)%N "Not your session" ;;
  require (negb (completed session)) "Session already completed" ;;
  write_gameSession sessionId
    (mkGameSession (player session) (bikeTokenId session) score_ distance_ vehiclesDodged_
                   (timestamp session) true (rewardsClaimed session) (gameMode session)) ;;
  let* bike := gets (bikeNFTs_at (bikeTokenId session)) in
  let* totalRewards0 := performanceRewards bike score_ distance_ vehiclesDodged_ in
  let* totalRewards :=
    match gameMode session with
    | DAILY_CHALLENGE =>
        let today := getCurrentDay env in
        let* challenge := gets (dailyChallenges_at today) in
        let* done_ := gets (completedDailyChallenges_at (msg_sender env) today) in
        if (targetScore challenge <=? score_) && negb done_ then
          modify (fun w => set_completedDailyChallenges
                             (<[(msg_sender env, today) := true]> (completedDailyChallenges w)) w) ;;
          modify (fun w => set_challengeCompleted
                             (<[(today, msg_sender env) := true]> (challengeCompleted w)) w) ;;
          modify (fun w => set_challengeBestScores
                             (<[(today, msg_sender env) := score_]> (challengeBestScores w)) w) ;;
          let* t := checked_add totalRewards0 (rewardAmount challenge) in
          emit (DailyChallengeCompleted (msg_sender env) today score_ (rewardAmount challenge)) ;;
          ret t
        else ret totalRewards0
    | PRACTICE => checked_div totalRewards0 2
    | RANKED => ret totalRewards0
    end in
  let* balance := gets (playerRewards_at (msg_sender env)) in
  let* balance' := checked_add balance totalRewards in
  write_playerRewards (msg_sender env) balance' ;;
  let* session' := gets (gameSessions_at sessionId) in
  write_gameSession sessionId
    (mkGameSession (player session') (bikeTokenId session') (score session') (distance session')
                   (vehiclesDodged session') (timestamp session') (completed session')
                   totalRewards (gameMode session')) ;;
  emit (GameCompleted (msg_sender env) sessionId score_ totalRewards (gameMode session')).

Definition claimRewards (env : Env) : M unit :=
  let* rewards := gets (playerRewards_at (msg_sender env)) in
  require (0 <? rewards) "No rewards to claim" ;;
  write_playerRewards (msg_sender env) 0 ;;
  let* raceToken_ := gets raceToken in
  let* this := gets self_address in
  let* sent := erc20_transfer raceToken_ this (msg_sender env) rewards in
  require sent "Reward transfer failed" ;;
  emit (RewardsClaimed (msg_sender env) rewards).

Definition transferTokensToPlayer (env : Env) (_to : address) (_amount : Z) : M unit :=
  let* senderBalance := gets (playerRewards_at (msg_sender env)) in
  require (_amount <=? senderBalance) "Insufficient balance" ;;
  require (negb (_to =? msg_sender env)%N) "Cannot transfer to yourself" ;;
  require (negb (_to =? 0)%N) "Invalid recipient" ;;
  let* b1 := gets (playerRewards_at (msg_sender env)) in
  let* b1' := checked_sub b1 _amount in
  write_playerRewards (msg_sender env) b1' ;;
  let* b2 := gets (playerRewards_at _to) in
  let* b2' := checked_add b2 _amount in
  write_playerRewards _to b2' ;;
  emit (TokensTransferred (msg_sender env) _to _amount).

Definition updateDailyChallenge (env : Env) : M unit :=
  let today := getCurrentDay env in
  let* current := gets currentChallengeDate in
  if current <? today then
    let* old := gets (dailyChallenges_at current) in
    write_dailyChallenge current
      (mkDailyChallenge (challengeDate old) (targetScore old) (rewardAmount old) false) ;;
    modify (set_currentChallengeDate today) ;;
    _createDailyChallenge env
  else ret tt.

Definition pause (env : Env) : M unit :=
  onlyOwner env ;; whenNotPaused ;; modify (set_paused true).

Definition unpause (env : Env) : M unit :=
  onlyOwner env ;; whenPaused ;; modify (set_paused false).

Definition withdrawFees (env : Env) : M unit :=
  onlyOwner env ;;
  let* usdc_ := gets usdc in
  let* this := gets self_address in
  let* held := gets (erc20_balanceOf usdc_ this) in
  let* pool := gets totalPrizePool in
  let* balance := checked_sub held pool in
  require (0 <? balance) "No fees to withdraw" ;;
  let* o := gets owner in
  let* sent := erc20_transfer usdc_ this o balance in
  require sent "Fee withdrawal failed".

Definition updateRaceToken (env : Env) (_raceToken : address) : M unit :=
  onlyOwner env ;; modify (set_raceToken _raceToken).

(** Storage right after deployment: [nextSessionId = 1], the token
    counter at zero, the deployer as owner, the challenge of the
    deployment day created. *)
Definition blank (this _usdc _raceToken deployer : address)
    (balances : gmap (address * address) Z)
    (allowances : gmap (address * address * address) Z) : World :=
  {| self_address := this; usdc := _usdc; raceToken := _raceToken; owner := deployer;
     paused := false; erc20_balances := balances; erc20_allowances := allowances;
     nft_owners := ∅; _tokenIdCounter := 0; bikeNFTs := ∅; gameSessions := ∅;
     playerSessions := ∅; ownedBikes := ∅; playerRewards := ∅; dailyChallenges := ∅;
     completedDailyChallenges := ∅; challengeCompleted := ∅; challengeBestScores := ∅;
     nextSessionId := 1; totalPrizePool := 0; currentChallengeDate := 0; events := [] |}.

Definition constructor (env : Env) : M unit :=
  modify (set_currentChallengeDate (getCurrentDay env)) ;;
  _createDailyChallenge env.

(** *** Transactions *)

Inductive Call : Type :=
| CallMintBike (_bikeType : BikeType) (_bikeName : string)
| CallStartGame (_bikeTokenId : Z) (_gameMode : GameMode)
| CallCompleteGame (sessionId score_ distance_ vehiclesDodged_ : Z)
| CallClaimRewards
| CallTransferTokensToPlayer (_to : address) (_amount : Z)
| CallUpdateDailyChallenge
| CallPause
| CallUnpause
| CallWithdrawFees
| CallUpdateRaceToken (_raceToken : address).

Definition exec (env : Env) (c : Call) : M unit :=
  match c with
  | CallMintBike t n => mintBike env t n ;; ret tt
  | CallStartGame b m => startGame env b m ;; ret tt
  | CallCompleteGame s sc d v => completeGame env s sc d v
  | CallClaimRewards => claimRewards env
  | CallTransferTokensToPlayer t a => transferTokensToPlayer env t a
  | CallUpdateDailyChallenge => updateDailyChallenge env
  | CallPause => pause env
  | CallUnpause => unpause env
  | CallWithdrawFees => withdrawFees env
  | CallUpdateRaceToken r => updateRaceToken env r
  end.

(** A transaction either commits the storage its call produced or, on a
    revert, leaves the storage as it was. *)
Definition transact (w : World) (tx : Env * Call) : World :=
  match exec (fst tx) (snd tx) w with
  | Ok (_, w') => w'
  | Revert _ => w
  end.

Definition run (w : World) (txs : list (Env * Call)) : World :=
  fold_left transact txs w.

(** Arguments as the ABI delivers them: [uint256] values in range and a
    sender that is neither null nor the contract itself. *)
Definition well_formed_call (c : Call) : Prop :=
  match c with
  | CallStartGame b _ => is_uint256 b
  | CallCompleteGame s sc d v => is_uint256 s /\ is_uint256 sc /\ is_uint256 d /\ is_uint256 v
  | CallTransferTokensToPlayer _ a => is_uint256 a
  | _ => True
  end.

Definition well_formed_env (w : World) (env : Env) : Prop :=
  msg_sender env <> 0%N /\ msg_sender env <> self_address w /\ is_uint256 (block_timestamp env).

Definition deployed (this _usdc _raceToken : address) (env : Env)
    (balances : gmap (address * address) Z)
    (allowances : gmap (address * address * address) Z) : World :=
  match constructor env (blank this _usdc _raceToken (msg_sender env) balances allowances) with
  | Ok (_, w) => w
  | Revert _ => blank this _usdc _raceToken (msg_sender env) balances allowances
  end.

(** *** Accounting over the ledger and the event log *)

(** Sum of all reward-ledger entries. *)
Definition ledger_total (m : gmap address Z) : Z :=
  map_fold (fun _ v acc => v + acc) 0 m.

(** Total paid out by claims: the amounts of the [RewardsClaimed] events. *)
Fixpoint claimed_total (log : list Event) : Z :=
  match log with
  | [] => 0
  | RewardsClaimed _ amount :: log' => amount + claimed_total log'
  | _ :: log' => claimed_total log'
  end.

(** Total computed by completions: the rewards of the [GameCompleted] events. *)
Fixpoint computed_total (log : list Event) : Z :=
  match log with
  | [] => 0
  | GameCompleted _ _ _ rewards _ :: log' => rewards + computed_total log'
  | _ :: log' => computed_total log'
  end.

(** Number of times the daily bonus was granted to [p] for day [d]. *)
Fixpoint daily_grants (p : address) (d : Z) (log : list Event) : nat :=
  match log with
  | [] => 0%nat
  | DailyChallengeCompleted p' d' _ _ :: log' =>
      if (p' =? p)%N && (d' =? d) then S (daily_grants p d log') else daily_grants p d log' 
  | _ :: log' => daily_grants p d log'
  end.

(** States the contract can be in: deployment followed by transactions
    whose arguments are well formed. *)
Inductive reachable : World -> Prop :=
| reachable_deployed this _usdc _raceToken env balances allowances :
    is_uint256 (block_timestamp env) ->
    reachable (deployed this _usdc _raceToken env balances allowances)
| reachable_transact w env c :
    reachable w ->
    well_formed_env w env ->
    well_formed_call c ->
    reachable (transact w (env, c)).

Definition well_formed_txs (w : World) (txs : list (Env * Call)) : Prop :=
  Forall (fun tx => well_formed_env w (fst tx) /\ well_formed_call (snd tx)) txs.


(** *** Summaries used by the properties *)

(** Inputs on which the performance reward is computed without overflow. *)
Definition performance_fits (bike : BikeNFT) (sc d v : Z) : Prop :=
  0 <= speed bike /\ 0 <= acceleration bike /\ 0 <= handling bike /\
  0 <= sc /\ 0 <= d /\ 0 <= v /\
  (speed bike + acceleration bike + handling bike) * 10 ^ 17 <= MAX_UINT256 /\
  performance_value bike sc d v <= MAX_UINT256.

(** Whether a completion of session [sessionId] with [score_] earns the
    daily bonus. *)
Definition daily_bonus_due (env : Env) (w : World) (sessionId score_ : Z) : bool :=
  match gameMode (gameSessions_at sessionId w) with
  | DAILY_CHALLENGE =>
      (targetScore (dailyChallenges_at (getCurrentDay env) w) <=? score_)
      && negb (completedDailyChallenges_at (msg_sender env) (getCurrentDay env) w)
  | _ => false
  end.

(** The amount a completion credits. *)
Definition reward_total (env : Env) (w : World) (sessionId sc d v : Z) : Z :=
  let s := gameSessions_at sessionId w in
  let perf := performance_value (bikeNFTs_at (bikeTokenId s) w) sc d v in
  match gameMode s with
  | PRACTICE => perf / 2
  | RANKED => perf
  | DAILY_CHALLENGE =>
      if daily_bonus_due env w sessionId sc
      then perf + rewardAmount (dailyChallenges_at (getCurrentDay env) w)
      else perf
  end.

(** Sessions are stored only below the session counter. *)
Definition sessions_fresh (w : World) : Prop :=
  forall sid, nextSessionId w <= sid -> gameSessions w !! sid = None.

(** Stored amounts are [uint256] values; bike attributes lie in [0, 100]. *)
Definition values_in_range (w : World) : Prop :=
  (forall p, 0 <= playerRewards_at p w <= MAX_UINT256) /\
  (forall id, 0 <= speed (bikeNFTs_at id w) <= 100 /\
              0 <= acceleration (bikeNFTs_at id w) <= 100 /\
              0 <= handling (bikeNFTs_at id w) <= 100) /\
  (forall d, 0 <= rewardAmount (dailyChallenges_at d w)).

(** Ledger entries plus claims paid out equal the rewards ever computed. *)
Definition ledger_conserved (w : World) : Prop :=
  ledger_total (playerRewards w) + claimed_total (events w) = computed_total (events w).

(** The daily bonus was granted at most once per player and day, and a
    grant left its mark. *)
Definition single_grant (w : World) : Prop :=
  forall p d,
    (daily_grants p d (events w) <= 1)%nat /\
    (daily_grants p d (events w) = 1%nat -> completedDailyChallenges_at p d w = true).

(** Calls that write the reward ledger. *)
Definition writes_ledger (c : Call) : bool :=
  match c with
  | CallCompleteGame _ _ _ _ | CallClaimRewards | CallTransferTokensToPlayer _ _ => true
  | _ => false
  end.

End BikeRacerGame.

(** ** The client service

    [CircleService] and the [GameContext] provider.  An asynchronous
    function is a computation over a trace of what the outside can
    observe (user operations submitted, pauses awaited, timers and UI
    updates) that returns a value or throws.  The chain and the relay
    answer through an oracle; its first argument is the number of
    requests made before, so that the same request can be answered
    differently at different times. *)

Module Client.

(** *** JavaScript strings *)

Definition toLowerCaseChar (c : ascii) : ascii :=
  let n := nat_of_ascii c in
  if (65 <=? n)%nat && (n <=? 90)%nat then ascii_of_nat (n + 32) else c.

Fixpoint toLowerCase (s : string) : string :=
  match s with
  | EmptyString => EmptyString
  | String c s' => String (toLowerCaseChar c) (toLowerCase s')
  end.

Fixpoint startsWith (s p : string) : bool :=
  match p, s with
  | EmptyString, _ => true
  | String _ _, EmptyString => false
  | String a p', String b s' => Ascii.eqb a b && startsWith s' p'
  end.

(** [s.includes(sub)] *)
Fixpoint includes (s sub : string) : bool :=
  startsWith s sub ||
  match s with
  | EmptyString => false
  | String _ s' => includes s' sub
  end.

(** [a || b] on strings: the empty string is falsy. *)
Definition or_else (a : option string) (b : string) : string :=
  match a with
  | Some (String c s) => String c s
  | _ => b
  end.

(** *** Enumerations and configuration *)

Definition BikeType := Z.
Definition SPORTS : BikeType := 0.
Definition LADY : BikeType := 1.
Definition CHOPPER : BikeType := 2.

Definition GameMode := Z.
Definition PRACTICE : GameMode := 0.
Definition RANKED : GameMode := 1.
Definition DAILY_CHALLENGE : GameMode := 2.

Definition sportsBikeMintPrice : Z := 1000000.
Definition ladyBikeMintPrice : Z := 3000000.
Definition chopperBikeMintPrice : Z := 5000000.

Definition getBikeMintPrice (bikeType : BikeType) : Z :=
  if bikeType =? SPORTS then sportsBikeMintPrice
  else if bikeType =? LADY then ladyBikeMintPrice
  else if bikeType =? CHOPPER then chopperBikeMintPrice
  else sportsBikeMintPrice.

(** *** User operations *)

Inductive FunctionCall : Type :=
| approve (spender : string) (amount : Z)
| mintBike_ (bikeType : BikeType) (bikeName : string)
| startGame_ (bikeTokenId : Z) (gameMode : GameMode)
| completeGame_ (sessionId score distance vehiclesDodged : Z)
| claimRewards_.

Record Call : Type := mkCall { to : string; functionCall : FunctionCall }.

(** A user operation: its calls, executed in order as one bundle, and
    the gas-sponsorship flag. *)
Record UserOperation : Type := mkUserOperation {
  calls : list Call;
  paymaster : bool
}.

(** What a settled wait yields: [receipt.receipt.transactionHash], or [None]
    when the inner receipt is missing. *)
Record Receipt : Type := mkReceipt { receipt_transactionHash : option string }.

Record TransactionResult : Type := mkTransactionResult {
  success : bool;
  transactionHash : option string;
  error : option string;
  sessionId : option Z;
  tokenId : option Z
}.

(** *** The outside world *)

Inductive Response (A : Type) : Type :=
| Returned (a : A)
| Threw (message : string).

Arguments Returned {A} a.
Arguments Threw {A} message.

(** How a wait for a receipt ends, and after how many milliseconds. *)
Inductive WaitOutcome : Type :=
| Settles (ms : Z) (r : Receipt)
| Rejects (ms : Z) (message : string)
| Pending.

Record Oracle : Type := mkOracle {
  read_balanceOf : nat -> string -> Response Z;
  read_tokenOfOwnerByIndex : nat -> string -> Z -> Response Z;
  read_totalSupply : nat -> Response Z;
  read_ownerOf : nat -> Z -> Response string;
  read_getBikeNFT : nat -> Z -> Response Z;
  read_usdcBalanceOf : nat -> string -> Response Z;
  read_nextSessionId : nat -> Response Z;
  sendUserOperation : nat -> UserOperation -> Response string;
  waitForUserOperationReceipt : nat -> string -> WaitOutcome
}.

(** Work handed to [setTimeout] without being awaited. *)
Inductive Task : Type :=
| VerifyMint (bikeType : BikeType)
| RecheckAfterTimeout.

Inductive UiUpdate : Type :=
| SetLoading (b : bool)
| SetError (e : option string)
| AddMintedBikeType (bikeType : BikeType)
| SetTimeout (task : Task) (ms : Z).

Record Trace : Type := mkTrace {
  requests : nat;
  submitted : list UserOperation;
  slept : list Z;
  ui : list UiUpdate
}.

Definition start : Trace := mkTrace 0 [] [] [].

(** *** Asynchronous computations *)

Inductive Outcome (A : Type) : Type :=
| Return (a : A)
| Throw (message : string).

Arguments Return {A} a.
Arguments Throw {A} message.

Definition Async (A : Type) : Type := Trace -> Outcome A * Trace.

Definition ret {A : Type} (a : A) : Async A := fun t => (Return a, t).
Definition throw {A : Type} (message : string) : Async A := fun t => (Throw message, t).

Definition bind {A B : Type} (m : Async A) (k : A -> Async B) : Async B :=
  fun t => match m t with
           | (Return a, t') => k a t'
           | (Throw e, t') => (Throw e, t')
           end.

Definition try_catch {A : Type} (body : Async A) (handler : string -> Async A) : Async A :=
  fun t => match body t with
           | (Return a, t') => (Return a, t')
           | (Throw e, t') => handler e t'
           end.

Definition try_finally {A : Type} (body : Async A) (final : Async unit) : Async A :=
  fun t => match body t with
           | (r, t') => match final t' with
                        | (Return _, t'') => (r, t'')
                        | (Throw e, t'') => (Throw e, t'')
                        end
           end.

Notation "'let*' x ':=' m 'in' k" := (bind m (fun x => k))
  (at level 10, x name, m at level 100, k at level 200).
Notation "m ';;' k" := (bind m (fun _ => k))
  (at level 100, k at level 200, right associativity).

(** [await] of a request to the outside. *)
Definition request {A : Type} (ask : nat -> Response A) : Async A :=
  fun t =>
    let t' := mkTrace (S (requests t)) (submitted t) (slept t) (ui t) in
    match ask (requests t) with
    | Returned a => (Return a, t')
    | Threw e => (Throw e, t')
    end.

(** [await new Promise(resolve => setTimeout(resolve, ms))] *)
Definition sleep (ms : Z) : Async unit :=
  fun t => (Return tt, mkTrace (requests t) (submitted t) (slept t ++ [ms]) (ui t)).

Definition update (u : UiUpdate) : Async unit :=
  fun t => (Return tt, mkTrace (requests t) (submitted t) (slept t) (ui t ++ [u])).

Definition run {A : Type} (m : Async A) : Outcome A * Trace := m start.


(** *** CircleService *)

Record Service : Type := mkService {
  circleSmartAccount : option string;
  bundlerClient : bool;
  gameContractAddress : string;
  usdcAddress : string
}.

Definition ok_result (hash : string) (token : option Z) : TransactionResult :=
  mkTransactionResult true (Some hash) None None token.

Definition failed_result (message : string) (hash : option string) : TransactionResult :=
  mkTransactionResult false hash (Some message) None None.

Definition receiptTimeout : string := "Receipt timeout after 60 seconds".

Definition mintTimedOut : string :=
  "Transaction was submitted but receipt confirmation timed out. The mint might still be processing. Please check your wallet or try refreshing the page in a few moments.".

Definition paymasterNotRegistered : string :=
  "⚠️ Wallet not registered with Circle's paymaster system.

For gas-free transactions, this wallet needs one-time setup:

1. Add your wallet private key to .env as OWNER_PRIVATE_KEY
2. Run: node index.js
3. Try minting again

Alternatively, you can mint by paying gas fees directly from your wallet (we can add this option if needed).".

Definition maxRetries : nat := 3.

Section Service.

Variable oracle : Oracle.
Variable service : Service.

(** [(Number(x) / 1000000).toFixed(2)], the display form of a token
    amount; the text is produced by the JavaScript runtime. *)
Variable toFixed2 : Z -> string.

(** [bundlerClient.sendUserOperation(op)]; the operation is recorded as
    submitted. *)
Definition send (op : UserOperation) : Async string :=
  fun t =>
    request (fun n => sendUserOperation oracle n op)
      (mkTrace (requests t) (submitted t ++ [op]) (slept t) (ui t)).

(** [Promise.race] of the receipt and a 60 s timer that rejects. *)
Definition receipt_within_60s (hash : string) : Async Receipt :=
  fun t =>
    let t' := mkTrace (S (requests t)) (submitted t) (slept t) (ui t) in
    match waitForUserOperationReceipt oracle (requests t) hash with
    | Settles ms r => if ms <? 60000 then (Return r, t') else (Throw receiptTimeout, t')
    | Rejects ms e => if ms <? 60000 then (Throw e, t') else (Throw receiptTimeout, t')
    | Pending => (Throw receiptTimeout, t')
    end.

(** The receipt awaited without a timer of the caller's own; a wait that
    never settles ends with the timeout error of the relay client. *)
Definition receipt_of (hash : string) : Async Receipt :=
  fun t =>
    let t' := mkTrace (S (requests t)) (submitted t) (slept t) (ui t) in
    match waitForUserOperationReceipt oracle (requests t) hash with
    | Settles _ r => (Return r, t')
    | Rejects _ e => (Throw e, t')
    | Pending => (Throw "Timed out while waiting for User Operation", t')
    end.

(** The enumerable loop of [getPlayerBikes]: [tokenOfOwnerByIndex] for
    [count] indices from [i].  The flag is [false] when a read threw;
    the identifiers pushed before stay in [tokenIds]. *)
Fixpoint enumerate (me : string) (count : nat) (i : Z) (tokenIds : list Z)
    : Async (list Z * bool) :=
  match count with
  | O => ret (tokenIds, true)
  | S count' =>
      let* r := try_catch
                  (let* tokenId := request (fun n => read_tokenOfOwnerByIndex oracle n me i) in
                   ret (Some tokenId))
                  (fun _ => ret None) in
      match r with
      | Some tokenId => enumerate me count' (i + 1) (tokenIds ++ [tokenId])
      | None => ret (tokenIds, false)
      end
  end.

(** The fallback loop: [ownerOf] for [count] identifiers from [tokenId];
    a read that throws is skipped. *)
Fixpoint scan (me : string) (count : nat) (tokenId : Z) (tokenIds : list Z)
    : Async (list Z) :=
  match count with
  | O => ret tokenIds
  | S count' =>
      let* tokenIds' :=
        try_catch
          (let* owner := request (fun n => read_ownerOf oracle n tokenId) in
           if String.eqb (toLowerCase owner) (toLowerCase me)
           then ret (tokenIds ++ [tokenId])
           else ret tokenIds)
          (fun _ => ret tokenIds) in
      scan me count' (tokenId + 1) tokenIds'
  end.

(** The fallback of [getPlayerBikes]: identifiers 1 to [totalSupply]. *)
Definition fallback (me : string) (tokenIds : list Z) : Async (list Z) :=
  try_catch
    (let* totalSupply := request (read_totalSupply oracle) in
     let maxTokens := totalSupply in
     scan me (Z.to_nat maxTokens) 1 tokenIds)
    (fun _ => ret []).

Definition getPlayerBikes : Async (list Z) :=
  try_catch
    (match circleSmartAccount service with
     | None => throw "Circle Smart Account not initialized"
     | Some me =>
         let* balance := request (fun n => read_balanceOf oracle n me) in
         let numBikes := balance in
         if numBikes =? 0 then ret []
         else
           let* r := enumerate me (Z.to_nat numBikes) 0 [] in
           if r.2 then ret r.1 else fallback me r.1
     end)
    (fun _ => ret []).

(** The loop of [getOwnedBikeTypesReliable] over the token identifiers;
    a failed read of the bike details is skipped. *)
Fixpoint collectTypes (tokenIds : list Z) (ownedTypes : gset Z) : Async (gset Z) :=
  match tokenIds with
  | [] => ret ownedTypes
  | tokenId :: rest =>
      let* ownedTypes' :=
        try_catch
          (let* bikeType := request (fun n => read_getBikeNFT oracle n tokenId) in
           ret (ownedTypes ∪ {[bikeType]}))
          (fun _ => ret ownedTypes) in
      collectTypes rest ownedTypes'
  end.

(** The body of the [try] in [getOwnedBikeTypesReliable]. *)
Definition attempt (retryCount : nat) : Async (gset Z) :=
  match circleSmartAccount service with
  | None => ret ∅
  | Some _ =>
      let* tokenIds := getPlayerBikes in
      (if (0 <? retryCount)%nat then sleep 2000 else ret tt) ;;
      collectTypes tokenIds ∅
  end.

(** The [while (retryCount < maxRetries)] loop around a [try] body, with
    [retryCount = maxRetries - remaining]. *)
Fixpoint retry (body : nat -> Async (gset Z)) (remaining : nat) : Async (gset Z) :=
  match remaining with
  | O => ret ∅
  | S remaining' =>
      let retryCount := (maxRetries - remaining)%nat in
      try_catch (body retryCount)
        (fun _ =>
           if (maxRetries <=? S retryCount)%nat then ret ∅
           else sleep 1000 ;; retry body remaining')
  end.

Definition getOwnedBikeTypesReliable : Async (gset Z) := retry attempt maxRetries.

Definition mintBike (bikeType : BikeType) (bikeName : string) : Async TransactionResult :=
  try_catch
    (match circleSmartAccount service, bundlerClient service with
     | Some me, true =>
         let mintPrice := getBikeMintPrice bikeType in
         let* balance := request (fun n => read_usdcBalanceOf oracle n me) in
         if balance <? mintPrice then
           throw ("Insufficient USDC balance. You have " ++ toFixed2 balance
                  ++ " USDC, but need " ++ toFixed2 mintPrice
                  ++ " USDC. Please fund your account at https://faucet.circle.com")
         else
           let* hash :=
             send (mkUserOperation
                     [mkCall (usdcAddress service) (approve (gameContractAddress service) mintPrice);
                      mkCall (gameContractAddress service) (mintBike_ bikeType bikeName)]
                     true) in
           try_catch
             (let* receipt := receipt_within_60s hash in
              ret (ok_result (or_else (receipt_transactionHash receipt) hash) (Some 0)))
             (fun _ => ret (failed_result mintTimedOut (Some hash)))
     | _, _ => throw "Circle Smart Account or bundler client not initialized"
     end)
    (fun message =>
       if includes message "AA33" || includes message "transfer amount exceeds allowance"
       then ret (failed_result paymasterNotRegistered None)
       else ret (failed_result message None)).

(** [completeGame] of [services/CircleService.ts]. *)
Definition completeGame (sessionId score distance vehiclesDodged : Z)
    : Async TransactionResult :=
  try_catch
    (match circleSmartAccount service, bundlerClient service with
     | Some _, true =>
         let* hash :=
           send (mkUserOperation
                   [mkCall (gameContractAddress service)
                      (completeGame_ sessionId score distance vehiclesDodged)]
                   true) in
         try_catch
           (let* receipt := receipt_within_60s hash in
            match receipt_transactionHash receipt with
            | Some h => ret (ok_result h None)
            | None => throw "TypeError"
            end)
           (fun _ => ret (ok_result hash None))
     | _, _ => throw "Circle Smart Account not initialized"
     end)
    (fun message => ret (failed_result message None)).

End Service.

(** [completeGame] of the second copy of the service, which completes
    through a session it starts itself. *)
Module SessionService.
Section Service.

Variable oracle : Oracle.
Variable service : Service.

Definition completeGameWithSession (_sessionId score distance vehiclesDodged bikeTokenId : Z)
    : Async TransactionResult :=
  try_catch
    (let* bikes := getPlayerBikes oracle service in
     let actualBikeTokenId :=
       if 0 <? bikeTokenId then bikeTokenId
       else match bikes with
            | b :: _ => b
            | [] => 1
            end in
     let* hash :=
       send oracle (mkUserOperation
                 [mkCall (gameContractAddress service) (startGame_ actualBikeTokenId PRACTICE)]
                 true) in
     receipt_of oracle hash ;;
     let* nextSessionId := request (read_nextSessionId oracle) in
     let actualSessionId := nextSessionId - 1 in
     let* completeHash :=
       send oracle (mkUserOperation
                 [mkCall (gameContractAddress service)
                    (completeGame_ actualSessionId score distance vehiclesDodged);
                  mkCall (gameContractAddress service) claimRewards_]
                 true) in
     let* receipt := receipt_of oracle completeHash in
     match receipt_transactionHash receipt with
     | Some h => ret (ok_result h None)
     | None => throw "TypeError"
     end)
    (fun message => ret (failed_result message None)).

Definition completeGame (sessionId score distance vehiclesDodged : Z) (_gameMode : GameMode)
    (bikeTokenId : Z) : Async TransactionResult :=
  try_catch
    (match circleSmartAccount service, bundlerClient service with
     | Some _, true =>
         completeGameWithSession sessionId score distance vehiclesDodged bikeTokenId
     | _, _ => throw "Circle Smart Account not initialized"
     end)
    (fun message => ret (failed_result message None)).

End Service.
End SessionService.

(** *** GameContext *)

Module GameContext.
Section Provider.

Variable oracle : Oracle.
Variable service : Service.
Variable toFixed2 : Z -> string.

(** Whether [isConnected && circleService] holds. *)
Variable isConnected : bool.

Definition mintBike (bikeType : BikeType) (bikeName : string) : Async unit :=
  if negb isConnected then update (SetError (Some "Wallet not connected"))
  else
    update (SetLoading true) ;;
    update (SetError None) ;;
    try_finally
      (try_catch
         (let* result := Client.mintBike oracle service toFixed2 bikeType bikeName in
          if success result then
            update (AddMintedBikeType bikeType) ;;
            update (SetTimeout (VerifyMint bikeType) 2000)
          else
            (if match error result with
                | Some e => includes e "timeout"
                | None => false
                end
             then update (SetTimeout RecheckAfterTimeout 10000)
             else ret tt) ;;
            throw (or_else (error result) "Failed to mint bike"))
         (fun message => update (SetError (Some message))))
      (update (SetLoading false)).

End Provider.
End GameContext.

End Client.

(** ** A concrete deployment

    One game contract, two tokens, two players.  The contract is deployed
    on day 19675, holds reward tokens, and Alice has funded and approved
    the stable token. *)

Module Scenario.

Import BikeRacerGame.

Definition game : address := 1000%N.
Definition usdcToken : address := 2000%N.
Definition raceTokenAddress : address := 3000%N.
Definition operator : address := 9%N.
Definition alice : address := 7%N.
Definition bob : address := 8%N.

Definition t0 : Z := 1700000000.

Definition at_ (who : address) (offset : Z) : Env := mkEnv who (t0 + offset).

Definition genesis : World :=
  deployed game usdcToken raceTokenAddress (at_ operator 0)
    (<[(usdcToken, alice) := 20 * 10 ^ 6]> (<[(raceTokenAddress, game) := 1000 * 10 ^ 18]> ∅))
    (<[(usdcToken, alice, game) := 20 * 10 ^ 6]> ∅).

(** Alice mints a Sports bike (token 0) and starts Practice session 1. *)
Definition minted_txs : list (Env * Call) :=
  [(at_ alice 100, CallMintBike SPORTS "Lightning Sports")].

Definition practice_txs : list (Env * Call) :=
  minted_txs ++ [(at_ alice 200, CallStartGame 0 PRACTICE)].

Definition minted : World := run genesis minted_txs.
Definition practice_started : World := run genesis practice_txs.

Definition practice_completed : World :=
  run practice_started [(at_ alice 300, CallCompleteGame 1 1000 2000 10)].

(** The same, with a contract that holds no reward tokens. *)
Definition unfunded_completed : World :=
  run (deployed game usdcToken raceTokenAddress (at_ operator 0)
         (<[(usdcToken, alice) := 20 * 10 ^ 6]> ∅)
         (<[(usdcToken, alice, game) := 20 * 10 ^ 6]> ∅))
      (practice_txs ++ [(at_ alice 300, CallCompleteGame 1 1000 2000 10)]).

(** Alice starts two Daily Challenge sessions (1 and 2) on day 19675. *)
Definition daily_txs : list (Env * Call) :=
  minted_txs ++ [(at_ alice 200, CallStartGame 0 DAILY_CHALLENGE);
                 (at_ alice 250, CallStartGame 0 DAILY_CHALLENGE)].

Definition daily_started : World := run genesis daily_txs.

(** One day later (day 19676) the challenge is rolled over. *)
Definition next_day_txs : list (Env * Call) :=
  daily_txs ++ [(at_ bob 86400, CallUpdateDailyChallenge)].

Definition next_day : World := run genesis next_day_txs.

End Scenario.

(** ** Concrete answers of the outside world *)

Module ClientScenario.

Import Client.

Definition me : string := "0xAbCd000000000000000000000000000000000001".
Definition game : string := "0xd9aECa6C00F52E17F9296a8c490D7F0FF80F6BE8".
Definition usdc : string := "0x41e94eb019c0762f9bfcf9fb1e58725bfb0e7582".

Definition connected : Service := mkService (Some me) true game usdc.

(** Display form of a token amount; its text plays no part below. *)
Definition toFixed2 (_ : Z) : string := "0.00".

(** A chain on which [me] owns the only bike, token 0 of category
    Sports, every read succeeds and every user operation settles at once. *)
Definition settled : Oracle :=
  {| read_balanceOf := fun _ _ => Returned 1;
     read_tokenOfOwnerByIndex := fun _ _ _ => Returned 0;
     read_totalSupply := fun _ => Returned 1;
     read_ownerOf := fun _ tokenId =>
       if tokenId =? 0 then Returned (toLowerCase me) else Threw "ERC721NonexistentToken";
     read_getBikeNFT := fun _ _ => Returned SPORTS;
     read_usdcBalanceOf := fun _ _ => Returned 20000000;
     read_nextSessionId := fun _ => Returned 8;
     sendUserOperation := fun _ _ => Returned "0xhash";
     waitForUserOperationReceipt := fun _ _ => Settles 3000 (mkReceipt (Some "0xtx")) |}.

(** The same chain without the enumerable index. *)
Definition no_index : Oracle :=
  {| read_balanceOf := read_balanceOf settled;
     read_tokenOfOwnerByIndex := fun _ _ _ => Threw "execution reverted";
     read_totalSupply := read_totalSupply settled;
     read_ownerOf := read_ownerOf settled;
     read_getBikeNFT := read_getBikeNFT settled;
     read_usdcBalanceOf := read_usdcBalanceOf settled;
     read_nextSessionId := read_nextSessionId settled;
     sendUserOperation := sendUserOperation settled;
     waitForUserOperationReceipt := waitForUserOperationReceipt settled |}.

(** The same chain right after the mint: the first read of the balance
    still sees no bike, later reads see it. *)
Definition lagging : Oracle :=
  {| read_balanceOf := fun n _ => if (n <? 1)%nat then Returned 0 else Returned 1;
     read_tokenOfOwnerByIndex := read_tokenOfOwnerByIndex settled;
     read_totalSupply := read_totalSupply settled;
     read_ownerOf := read_ownerOf settled;
     read_getBikeNFT := read_getBikeNFT settled;
     read_usdcBalanceOf := read_usdcBalanceOf settled;
     read_nextSessionId := read_nextSessionId settled;
     sendUserOperation := sendUserOperation settled;
     waitForUserOperationReceipt := waitForUserOperationReceipt settled |}.

(** The same chain with a relay whose receipts never arrive. *)
Definition unsettled : Oracle :=
  {| read_balanceOf := read_balanceOf settled;
     read_tokenOfOwnerByIndex := read_tokenOfOwnerByIndex settled;
     read_totalSupply := read_totalSupply settled;
     read_ownerOf := read_ownerOf settled;
     read_getBikeNFT := read_getBikeNFT settled;
     read_usdcBalanceOf := read_usdcBalanceOf settled;
     read_nextSessionId := read_nextSessionId settled;
     sendUserOperation := sendUserOperation settled;
     waitForUserOperationReceipt := fun _ _ => Pending |}.

(** An attempt body that always throws. *)
Definition failing (_ : nat) : Async (gset Z) := throw "network error".

End ClientScenario.

(** ** View functions of the contract *)

Module Views.

Import BikeRacerGame.

Definition getPlayerBikes (player : address) (w : World) : list Z := ownedBikes_at player w.

Definition getPlayerSessions (player : address) (w : World) : list Z :=
  playerSessions_at player w.

Definition getGameSession (sessionId : Z) (w : World) : GameSession :=
  gameSessions_at sessionId w.

Definition getBikeNFT (tokenId : Z) (w : World) : BikeNFT := bikeNFTs_at tokenId w.

Definition getPlayerRewards (player : address) (w : World) : Z := playerRewards_at player w.

Definition getDailyChallenge (challengeDate_ : Z) (w : World) : Z * Z * bool :=
  let challenge := dailyChallenges_at challengeDate_ w in
  (targetScore challenge, rewardAmount challenge, active challenge).

Definition hasCompletedDailyChallenge (player : address) (challengeDate_ : Z) (w : World)
    : bool :=
  completedDailyChallenges_at player challengeDate_ w.

End Views.

(** ** What the event log records

    Quantities read off the event log (newest event first), against
    which the storage is compared. *)

Module Log.

Import BikeRacerGame.

(** Number of [BikeNFTMinted] events. *)
Fixpoint mint_count (log : list Event) : nat :=
  match log with
  | [] => 0%nat
  | BikeNFTMinted _ _ _ _ :: log' => S (mint_count log')
  | _ :: log' => mint_count log'
  end.

(** Number of [GameStarted] events. *)
Fixpoint start_count (log : list Event) : nat :=
  match log with
  | [] => 0%nat
  | GameStarted _ _ _ _ :: log' => S (start_count log')
  | _ :: log' => start_count log'
  end.

(** Number of [GameStarted] events of Ranked mode. *)
Fixpoint ranked_count (log : list Event) : nat :=
  match log with
  | [] => 0%nat
  | GameStarted _ _ _ RANKED :: log' => S (ranked_count log')
  | _ :: log' => ranked_count log'
  end.

(** Number of [GameStarted] events on bike [bike]. *)
Fixpoint races_of (bike : Z) (log : list Event) : nat :=
  match log with
  | [] => 0%nat
  | GameStarted _ _ b _ :: log' =>
      if b =? bike then S (races_of bike log') else races_of bike log'
  | _ :: log' => races_of bike log'
  end.

(** Tokens minted by [p], oldest first. *)
Fixpoint minted_by (p : address) (log : list Event) : list Z :=
  match log with
  | [] => []
  | BikeNFTMinted q tokenId _ _ :: log' =>
      if (q =? p)%N then minted_by p log' ++ [tokenId] else minted_by p log'
  | _ :: log' => minted_by p log'
  end.

(** Sessions started by [p], oldest first. *)
Fixpoint started_by (p : address) (log : list Event) : list Z :=
  match log with
  | [] => []
  | GameStarted q sessionId _ _ :: log' =>
      if (q =? p)%N then started_by p log' ++ [sessionId] else started_by p log'
  | _ :: log' => started_by p log'
  end.

(** The [GameCompleted] events of session [sid]: player, score, rewards
    and mode of each. *)
Fixpoint completions_of (sid : Z) (log : list Event) : list (address * Z * Z * GameMode) :=
  match log with
  | [] => []
  | GameCompleted p s sc r m :: log' =>
      if s =? sid then (p, sc, r, m) :: completions_of sid log' else completions_of sid log'
  | _ :: log' => completions_of sid log'
  end.

(** Rewards credited to [p] by completions. *)
Fixpoint credited_to (p : address) (log : list Event) : Z :=
  match log with
  | [] => 0
  | GameCompleted q _ _ r _ :: log' =>
      (if (q =? p)%N then r else 0) + credited_to p log'
  | _ :: log' => credited_to p log'
  end.

(** Amounts paid out to [p] by claims. *)
Fixpoint claimed_by (p : address) (log : list Event) : Z :=
  match log with
  | [] => 0
  | RewardsClaimed q a :: log' => (if (q =? p)%N then a else 0) + claimed_by p log'
  | _ :: log' => claimed_by p log'
  end.

(** Credits received by [p] minus credits sent by [p] in transfers. *)
Fixpoint transferred_to (p : address) (log : list Event) : Z :=
  match log with
  | [] => 0
  | TokensTransferred from to a :: log' =>
      (if (to =? p)%N then a else 0) - (if (from =? p)%N then a else 0)
      + transferred_to p log'
  | _ :: log' => transferred_to p log'
  end.

(** *** Invariants stated against the log *)

(** The two counters count mints and starts; the prize pool holds 80% of
    the entry fee of every Ranked start. *)
Definition counters_logged (w : World) : Prop :=
  _tokenIdCounter w = Z.of_nat (mint_count (events w)) /\
  nextSessionId w = 1 + Z.of_nat (start_count (events w)) /\
  totalPrizePool w = 4000000 * Z.of_nat (ranked_count (events w)).

(** The per-player lists are the mints and starts of the player. *)
Definition indices_logged (w : World) : Prop :=
  forall p,
    ownedBikes_at p w = minted_by p (events w) /\
    playerSessions_at p w = started_by p (events w).

(** Sessions are stored exactly for the identifiers handed out, each with
    a non-null player; a session is marked completed exactly when the
    log holds its completion, which is then unique and agrees with the
    record. *)
Definition sessions_logged (w : World) : Prop :=
  forall sid,
    (gameSessions w !! sid = None <-> sid < 1 \/ nextSessionId w <= sid) /\
    (forall s, gameSessions w !! sid = Some s -> player s <> 0%N) /\
    completions_of sid (events w) =
      let s := gameSessions_at sid w in
      if completed s then [(player s, score s, rewardsClaimed s, gameMode s)] else [].

(** Bikes are stored exactly for the identifiers handed out, and only
    those have an owner; a stored bike has the base attributes of its
    category; a bike has no wins and as many races as sessions were
    started on it. *)
Definition bikes_logged (w : World) : Prop :=
  forall id,
    (nft_owners w !! id <> None -> 0 <= id < _tokenIdCounter w) /\
    (bikeNFTs w !! id = None <-> id < 0 \/ _tokenIdCounter w <= id) /\
    (bikeNFTs w !! id <> None ->
       (speed (bikeNFTs_at id w), acceleration (bikeNFTs_at id w), handling (bikeNFTs_at id w))
       = getBikeBaseStats (bikeType (bikeNFTs_at id w))) /\
    totalWins (bikeNFTs_at id w) = 0 /\
    totalRaces (bikeNFTs_at id w) = Z.of_nat (races_of id (events w)).

(** A ledger entry is what completions credited and transfers brought,
    less what transfers took and claims paid out. *)
Definition entries_logged (w : World) : Prop :=
  forall p,
    playerRewards_at p w =
      credited_to p (events w) + transferred_to p (events w) - claimed_by p (events w).

(** Exactly the challenge of [currentChallengeDate] is active; it has a
    target between 500 and 1499 and a reward of 50 units; no challenge
    is stored for a later day. *)
Definition challenge_current (w : World) : Prop :=
  forall d,
    (active (dailyChallenges_at d w) = true <-> d = currentChallengeDate w) /\
    (d = currentChallengeDate w ->
       500 <= targetScore (dailyChallenges_at d w) <= 1499 /\
       rewardAmount (dailyChallenges_at d w) = 50 * 10 ^ 18 /\
       challengeDate (dailyChallenges_at d w) = d) /\
    (currentChallengeDate w < d -> dailyChallenges w !! d = None).

(** The second completion mapping mirrors the first, and a mark comes
    with the score that earned it. *)
Definition marks_mirrored (w : World) : Prop :=
  forall p d,
    rd false (challengeCompleted w) (d, p) = completedDailyChallenges_at p d w /\
    (completedDailyChallenges_at p d w = true ->
       exists reward,
         In (DailyChallengeCompleted p d (rd 0 (challengeBestScores w) (d, p)) reward)
            (events w)).

End Log.

(** ** Computations that do not look at the pause flag *)

Module Pausing.

Import BikeRacerGame.

(** [m] runs the same whatever the pause flag is, and leaves the flag
    as it found it. *)
Definition unaffected_by_pause {A : Type} (m : M A) : Prop :=
  forall (b : bool) (w : World),
    m (set_paused b w) =
      match m w with
      | Ok (a, w') => Ok (a, set_paused b w')
      | Revert f => Revert f
      end.

End Pausing.

(** ** A longer history on the concrete deployment

    After the mint and the Practice session of [Scenario.practice_txs]:
    Alice completes the Practice session, plays a Ranked session, sends
    Bob five units of credit, Bob claims them, and Alice plays the Daily
    Challenge of the deployment day. *)

Module Tour.

Import BikeRacerGame Scenario.

Definition tour_txs : list (Env * Call) :=
  practice_txs ++
  [(at_ alice 300, CallCompleteGame 1 1000 2000 10);
   (at_ alice 400, CallStartGame 0 RANKED);
   (at_ alice 500, CallCompleteGame 2 250 3000 4);
   (at_ alice 600, CallTransferTokensToPlayer bob (5 * 10 ^ 18));
   (at_ bob 700, CallClaimRewards);
   (at_ alice 800, CallStartGame 0 DAILY_CHALLENGE);
   (at_ alice 900, CallCompleteGame 3 2000 0 0)].

Definition toured : World := run genesis tour_txs.

End Tour.

(** ** More of the client service

    The functions of [services/CircleService.ts] beside those of
    [Client].  [Date.now()] and [Math.random()] are answered by the
    runtime; a reading is indexed, like the answers of the chain, by the
    number of requests made before. *)

Module ServiceExtras.

Import Client.

(** [getBikeTypeString] and [getBikeTypeFromString] *)
Definition getBikeTypeString (bikeType : BikeType) : string :=
  if bikeType =? SPORTS then "sports"
  else if bikeType =? LADY then "lady"
  else if bikeType =? CHOPPER then "chopper"
  else "sports".

Definition getBikeTypeFromString (bikeTypeString : string) : BikeType :=
  let s := toLowerCase bikeTypeString in
  if String.eqb s "sports" then SPORTS
  else if String.eqb s "lady" then LADY
  else if String.eqb s "chopper" then CHOPPER
  else SPORTS.

Definition getBikeStatsForType (bikeType : BikeType) : Z * Z * Z :=
  if bikeType =? SPORTS then (95, 85, 70)
  else if bikeType =? LADY then (70, 75, 90)
  else if bikeType =? CHOPPER then (80, 60, 85)
  else (95, 85, 70).

Definition getDefaultBikeName (bikeType : BikeType) : string :=
  if bikeType =? SPORTS then "Lightning Sports"
  else if bikeType =? LADY then "Elegant Cruiser"
  else if bikeType =? CHOPPER then "Chrome Thunder"
  else "Unknown Bike".

(** The numbers the ABI carries for the contract's enumerations. *)
Definition BikeType_code (t : BikeRacerGame.BikeType) : BikeType :=
  match t with
  | BikeRacerGame.SPORTS => 0
  | BikeRacerGame.LADY => 1
  | BikeRacerGame.CHOPPER => 2
  end.

(** A started session as the service reports it. *)
Definition started_result (hash : string) (session : Z) : TransactionResult :=
  mkTransactionResult true (Some hash) None (Some session) None.

Section Service.

Variable oracle : Oracle.
Variable service : Service.

(** [Date.now()] and ['0x' + Math.random().toString(16).slice(2, 66)]. *)
Variable now : nat -> Z.
Variable randomHash : nat -> string.

Definition claimRewards : Async TransactionResult :=
  try_catch
    (match circleSmartAccount service, bundlerClient service with
     | Some _, true =>
         let* hash :=
           send oracle (mkUserOperation [mkCall (gameContractAddress service) claimRewards_]
                          true) in
         try_catch
           (let* receipt := receipt_within_60s oracle hash in
            match receipt_transactionHash receipt with
            | Some h => ret (ok_result h None)
            | None => throw "TypeError"
            end)
           (fun _ => ret (ok_result hash None))
     | _, _ => throw "Circle Smart Account not initialized"
     end)
    (fun message => ret (failed_result message None)).

(** [startGame], [enterTournament] and [transferTokensToPlayer] of this
    copy of the service answer without asking the chain. *)
Definition startGame (_bikeTokenId : Z) (_gameMode : GameMode) : Async TransactionResult :=
  try_catch
    (match circleSmartAccount service with
     | None => throw "Circle Smart Account not initialized"
     | Some _ =>
         fun t =>
           let sessionId := now (requests t) in
           ret (started_result (randomHash (requests t)) sessionId) t
     end)
    (fun message => ret (failed_result message None)).

Definition enterTournament (_tournamentId : Z) : Async TransactionResult :=
  try_catch
    (match circleSmartAccount service with
     | None => throw "Circle Smart Account not initialized"
     | Some _ => fun t => ret (ok_result (randomHash (requests t)) None) t
     end)
    (fun message => ret (failed_result message None)).

Definition transferTokensToPlayer (_toAddress : string) (_amount : Z)
    : Async TransactionResult :=
  try_catch
    (match circleSmartAccount service with
     | None => throw "Circle Smart Account not initialized"
     | Some _ => fun t => ret (ok_result (randomHash (requests t)) None) t
     end)
    (fun message => ret (failed_result message None)).

(** The loop of [checkBikeTypeOwnership]: the first readable bike of the
    requested category ends it; a failed read is skipped. *)
Fixpoint anyOfType (bikeType : BikeType) (tokenIds : list Z) : Async bool :=
  match tokenIds with
  | [] => ret false
  | tokenId :: rest =>
      let* found :=
        try_catch
          (let* bikeType' := request (fun n => read_getBikeNFT oracle n tokenId) in
           ret (bikeType' =? bikeType))
          (fun _ => ret false) in
      if found then ret true else anyOfType bikeType rest
  end.

Definition checkBikeTypeOwnership (bikeType : BikeType) : Async bool :=
  try_catch
    (match circleSmartAccount service with
     | None => ret false
     | Some _ =>
         let* tokenIds := getPlayerBikes oracle service in
         anyOfType bikeType tokenIds
     end)
    (fun _ => ret false).

End Service.

End ServiceExtras.

(** [startGame] of the second copy of the service. *)
Module SessionStart.

Import Client.

Section Service.

Variable oracle : Oracle.
Variable service : Service.
Variable now : nat -> Z.

(** [n.toString(16)], produced by the runtime. *)
Variable toString16 : Z -> string.

Definition startGame (bikeTokenId : Z) (gameMode : GameMode) : Async TransactionResult :=
  try_catch
    (match circleSmartAccount service with
     | None => throw "Circle Smart Account not initialized"
     | Some _ =>
         if gameMode =? PRACTICE then
           fun t =>
             let localSessionId := now (requests t) in
             ret (ServiceExtras.started_result ("0xlocal" ++ toString16 localSessionId)
                    localSessionId) t
         else if negb (bundlerClient service) then throw "Bundler client not initialized"
         else
           let* hash :=
             send oracle (mkUserOperation
                            [mkCall (gameContractAddress service)
                               (startGame_ bikeTokenId gameMode)]
                            true) in
           try_catch
             (let* receipt := receipt_within_60s oracle hash in
              try_catch
                (let* nextSessionId := request (read_nextSessionId oracle) in
                 let sessionId := nextSessionId - 1 in
                 match receipt_transactionHash receipt with
                 | Some h => ret (ServiceExtras.started_result h sessionId)
                 | None => throw "TypeError"
                 end)
                (fun _ t =>
                   let sessionId := now (requests t) in
                   match receipt_transactionHash receipt with
                   | Some h => ret (ServiceExtras.started_result h sessionId) t
                   | None => throw "TypeError" t
                   end))
             (fun _ t => ret (ServiceExtras.started_result hash (now (requests t))) t)
     end)
    (fun message => ret (failed_result message None)).

End Service.

End SessionStart.

Module ContractProps.

Import BikeRacerGame.

(** ** Properties of the contract *)

(** *** Inversion of monadic computations *)

Lemma bind_Ok_inv {A B : Type} (m : M A) (k : A -> M B) (w : World) (r : B * World) :
  bind m k w = Ok r -> exists a w1, m w = Ok (a, w1) /\ k a w1 = Ok r.
Proof.
  unfold bind. destruct (m w) as [[a w1]|f]; [eauto | discriminate].
Qed.

Lemma ret_Ok_inv {A : Type} (a b : A) (w w1 : World) :
  ret a w = Ok (b, w1) -> b = a /\ w1 = w.
Proof. unfold ret. intros H. by inversion H. Qed.

Lemma gets_Ok_inv {A : Type} (f : World -> A) (a : A) (w w1 : World) :
  gets f w = Ok (a, w1) -> a = f w /\ w1 = w.
Proof. unfold gets. intros H. by inversion H. Qed.

Lemma modify_Ok_inv (f : World -> World) (u : unit) (w w1 : World) :
  modify f w = Ok (u, w1) -> w1 = f w.
Proof. unfold modify. intros H. by inversion H. Qed.

Lemma require_Ok_inv (c : bool) (reason : string) (u : unit) (w w1 : World) :
  require c reason w = Ok (u, w1) -> c = true /\ w1 = w.
Proof. unfold require, ret, revert. destruct c; intros Hr; by inversion Hr. Qed.

Lemma ensure_Ok_inv (c : bool) (error : string) (u : unit) (w w1 : World) :
  ensure c error w = Ok (u, w1) -> c = true /\ w1 = w.
Proof. unfold ensure, ret, revert. destruct c; intros Hr; by inversion Hr. Qed.

Lemma checked_add_Ok_inv (a b x : Z) (w w1 : World) :
  checked_add a b w = Ok (x, w1) -> x = a + b /\ a + b <= MAX_UINT256 /\ w1 = w.
Proof.
  unfold checked_add, ret, revert. destruct (Z.leb_spec (a + b) MAX_UINT256); intros Hr; by inversion Hr.
Qed.

Lemma checked_sub_Ok_inv (a b x : Z) (w w1 : World) :
  checked_sub a b w = Ok (x, w1) -> x = a - b /\ b <= a /\ w1 = w.
Proof.
  unfold checked_sub, ret, revert. destruct (Z.leb_spec b a); intros Hr; by inversion Hr.
Qed.

Lemma checked_mul_Ok_inv (a b x : Z) (w w1 : World) :
  checked_mul a b w = Ok (x, w1) -> x = a * b /\ a * b <= MAX_UINT256 /\ w1 = w.
Proof.
  unfold checked_mul, ret, revert. destruct (Z.leb_spec (a * b) MAX_UINT256); intros Hr; by inversion Hr.
Qed.

Lemma checked_div_Ok_inv (a b x : Z) (w w1 : World) :
  checked_div a b w = Ok (x, w1) -> x = a / b /\ b <> 0 /\ w1 = w.
Proof.
  unfold checked_div, ret, revert. destruct (Z.eqb_spec b 0); intros Hr; by inversion Hr.
Qed.

Lemma emit_Ok_inv (e : Event) (u : unit) (w w1 : World) :
  emit e w = Ok (u, w1) -> w1 = set_events (e :: events w) w.
Proof. unfold emit. intros Hr. by apply modify_Ok_inv in Hr. Qed.

(** One step of a run: split the first bind off [H] and hand the run of
    its head to [tac]. *)
Ltac bind_step H tac :=
  let a := fresh "a" in
  let w := fresh "w" in
  let Hs := fresh "Hstep" in
  apply bind_Ok_inv in H as (a & w & Hs & H); tac Hs.

Ltac arith_step Hs :=
  let Hb := fresh "Hbound" in
  first [ apply checked_add_Ok_inv in Hs as (-> & Hb & ->)
        | apply checked_mul_Ok_inv in Hs as (-> & Hb & ->)
        | apply checked_div_Ok_inv in Hs as (-> & Hb & ->)
        | apply checked_sub_Ok_inv in Hs as (-> & Hb & ->) ].

Ltac plain_step Hs :=
  first [ apply ensure_Ok_inv in Hs as [_ ->]
        | apply gets_Ok_inv in Hs as [-> ->]
        | apply modify_Ok_inv in Hs as -> ].

(** The token calls touch only the token ledgers. *)
Lemma erc20__transfer_frame (token from to : address) (value : Z) (u : unit) (w w1 : World) :
  erc20__transfer token from to value w = Ok (u, w1) ->
  exists bal, w1 = set_erc20_balances bal w.
Proof.
  unfold erc20__transfer. intros H.
  repeat bind_step H plain_step.
  apply modify_Ok_inv in H as ->. cbn. eauto.
Qed.

Lemma erc20_transfer_frame (token caller to : address) (value : Z) (b : bool) (w w1 : World) :
  erc20_transfer token caller to value w = Ok (b, w1) ->
  b = true /\ exists bal, w1 = set_erc20_balances bal w.
Proof.
  unfold erc20_transfer. intros H.
  apply bind_Ok_inv in H as (? & ? & H1 & H).
  apply ret_Ok_inv in H as [-> ->]. split; [done|].
  by eapply erc20__transfer_frame.
Qed.

Lemma erc20_transferFrom_frame (token caller from to : address) (value : Z) (b : bool)
    (w w1 : World) :
  erc20_transferFrom token caller from to value w = Ok (b, w1) ->
  b = true /\ exists bal al, w1 = set_erc20_balances bal (set_erc20_allowances al w).
Proof.
  unfold erc20_transferFrom. intros H.
  apply bind_Ok_inv in H as (? & w2 & H1 & H).
  apply bind_Ok_inv in H as (? & w3 & H2 & H).
  apply ret_Ok_inv in H as [-> ->]. split; [done|].
  apply erc20__transfer_frame in H2 as [bal ->].
  unfold erc20__spendAllowance in H1.
  bind_step H1 plain_step.
  destruct (_ <? _).
  - bind_step H1 plain_step. apply modify_Ok_inv in H1 as ->. eauto.
  - apply ret_Ok_inv in H1 as [_ ->]. exists bal, (erc20_allowances w). by destruct w.
Qed.

(** The performance reward reads no storage; when it does not overflow
    it is [performance_value]. *)
Lemma performanceRewards_Ok_inv (bike : BikeNFT) (sc d v x : Z) (w w1 : World) :
  performanceRewards bike sc d v w = Ok (x, w1) ->
  w1 = w /\ x = performance_value bike sc d v /\ x <= MAX_UINT256.
Proof.
  unfold performanceRewards. intros H.
  repeat bind_step H arith_step.
  apply checked_add_Ok_inv in H as (-> & ? & ->).
  unfold performance_value, bikeBonus_value. split; [done|]. split; [|done]. lia.
Qed.

(** [minv H] takes a successful run [H : m w = Ok _] apart, one
    primitive at a time, naming the storage after each step. *)
Ltac minv_prim H :=
  lazymatch type of H with
  | ret _ _ = Ok _ => apply ret_Ok_inv in H as [? ?]
  | gets _ _ = Ok _ => apply gets_Ok_inv in H as [? ?]
  | modify _ _ = Ok _ => apply modify_Ok_inv in H
  | emit _ _ = Ok _ => apply emit_Ok_inv in H
  | require _ _ _ = Ok _ => apply require_Ok_inv in H as [? ?]
  | ensure _ _ _ = Ok _ => apply ensure_Ok_inv in H as [? ?]
  | checked_add _ _ _ = Ok _ => apply checked_add_Ok_inv in H as (? & ? & ?)
  | checked_sub _ _ _ = Ok _ => apply checked_sub_Ok_inv in H as (? & ? & ?)
  | checked_mul _ _ _ = Ok _ => apply checked_mul_Ok_inv in H as (? & ? & ?)
  | checked_div _ _ _ = Ok _ => apply checked_div_Ok_inv in H as (? & ? & ?)
  | write_bikeNFT _ _ _ = Ok _ => apply modify_Ok_inv in H
  | write_gameSession _ _ _ = Ok _ => apply modify_Ok_inv in H
  | write_playerRewards _ _ _ = Ok _ => apply modify_Ok_inv in H
  | write_dailyChallenge _ _ _ = Ok _ => apply modify_Ok_inv in H
  | erc20_transfer _ _ _ _ _ = Ok _ => apply erc20_transfer_frame in H as (? & ? & ?)
  | erc20_transferFrom _ _ _ _ _ _ = Ok _ =>
      apply erc20_transferFrom_frame in H as (? & ? & ? & ?)
  | performanceRewards _ _ _ _ _ = Ok _ =>
      apply performanceRewards_Ok_inv in H as (? & ? & ?)
  | revert _ _ = Ok _ => discriminate H
  | _ => idtac
  end.

Ltac minv H :=
  lazymatch type of H with
  | bind _ _ _ = Ok _ =>
      let a := fresh "a" in
      let w := fresh "w" in
      let H1 := fresh "H" in
      apply bind_Ok_inv in H as (a & w & H1 & H);
      minv H1; subst; minv H
  | (if ?c then _ else _) _ = Ok _ =>
      let E := fresh "E" in destruct c eqn:E; minv H
  | match ?m with PRACTICE => _ | RANKED => _ | DAILY_CHALLENGE => _ end _ = Ok _ =>
      let E := fresh "E" in destruct m eqn:E; minv H
  | ownerOf _ _ = Ok _ => unfold ownerOf in H; minv H
  | _safeMint _ _ _ = Ok _ => unfold _safeMint in H; minv H
  | whenNotPaused _ = Ok _ => unfold whenNotPaused in H; minv H
  | whenPaused _ = Ok _ => unfold whenPaused in H; minv H
  | onlyOwner _ _ = Ok _ => unfold onlyOwner in H; minv H
  | _createDailyChallenge _ _ = Ok _ => unfold _createDailyChallenge in H; minv H
  | _ => minv_prim H
  end.

(** Projections of updated storage. *)
Ltac wsimpl :=
  cbn [self_address usdc raceToken owner paused erc20_balances erc20_allowances nft_owners
       _tokenIdCounter bikeNFTs gameSessions playerSessions ownedBikes playerRewards
       dailyChallenges completedDailyChallenges challengeCompleted challengeBestScores
       nextSessionId totalPrizePool currentChallengeDate events
       set_raceToken set_paused set_erc20_balances set_erc20_allowances set_nft_owners
       set_tokenIdCounter set_bikeNFTs set_gameSessions set_playerSessions set_ownedBikes
       set_playerRewards set_dailyChallenges set_completedDailyChallenges
       set_challengeCompleted set_challengeBestScores set_nextSessionId set_totalPrizePool
       set_currentChallengeDate set_events fst snd] in *.

Ltac unfold_calls H :=
  cbn [exec] in H;
  unfold mintBike, startGame, completeGame, claimRewards, transferTokensToPlayer,
    updateDailyChallenge, pause, unpause, withdrawFees, updateRaceToken in H.

(** *** Running computations forward *)

Lemma bind_ret {A B : Type} (a : A) (k : A -> M B) (w : World) :
  bind (ret a) k w = k a w.
Proof. reflexivity. Qed.

Lemma bind_gets {A B : Type} (f : World -> A) (k : A -> M B) (w : World) :
  bind (gets f) k w = k (f w) w.
Proof. reflexivity. Qed.

Lemma bind_modify {B : Type} (f : World -> World) (k : unit -> M B) (w : World) :
  bind (modify f) k w = k tt (f w).
Proof. reflexivity. Qed.

Lemma bind_bind {A B C : Type} (m : M A) (k : A -> M B) (h : B -> M C) (w : World) :
  bind (bind m k) h w = bind m (fun a => bind (k a) h) w.
Proof. unfold bind. destruct (m w) as [[a w1]|f]; reflexivity. Qed.

Lemma bind_require_true {B : Type} (c : bool) (reason : string) (k : unit -> M B) (w : World) :
  c = true -> bind (require c reason) k w = k tt w.
Proof. by intros ->. Qed.

Lemma bind_require_false {B : Type} (c : bool) (reason : string) (k : unit -> M B) (w : World) :
  c = false -> bind (require c reason) k w = Revert (RequireFailed reason).
Proof. by intros ->. Qed.

Lemma bind_ensure_true {B : Type} (c : bool) (error : string) (k : unit -> M B) (w : World) :
  c = true -> bind (ensure c error) k w = k tt w.
Proof. by intros ->. Qed.

Lemma bind_checked_add {B : Type} (a b : Z) (k : Z -> M B) (w : World) :
  a + b <= MAX_UINT256 -> bind (checked_add a b) k w = k (a + b) w.
Proof.
  intros Hle. unfold bind, checked_add.
  destruct (Z.leb_spec (a + b) MAX_UINT256); [done | lia].
Qed.

Lemma bind_checked_sub {B : Type} (a b : Z) (k : Z -> M B) (w : World) :
  b <= a -> bind (checked_sub a b) k w = k (a - b) w.
Proof.
  intros Hle. unfold bind, checked_sub. destruct (Z.leb_spec b a); [done | lia].
Qed.

Lemma bind_checked_mul {B : Type} (a b : Z) (k : Z -> M B) (w : World) :
  a * b <= MAX_UINT256 -> bind (checked_mul a b) k w = k (a * b) w.
Proof.
  intros Hle. unfold bind, checked_mul.
  destruct (Z.leb_spec (a * b) MAX_UINT256); [done | lia].
Qed.

Lemma bind_checked_div {B : Type} (a b : Z) (k : Z -> M B) (w : World) :
  b <> 0 -> bind (checked_div a b) k w = k (a / b) w.
Proof.
  intros Hne. unfold bind, checked_div. destruct (Z.eqb_spec b 0); [done | done].
Qed.

(** The performance reward is computed whenever its inputs are
    non-negative and nothing overflows. *)
Lemma performanceRewards_Ok (bike : BikeNFT) (sc d v : Z) (w : World) :
  performance_fits bike sc d v ->
  performanceRewards bike sc d v w = Ok (performance_value bike sc d v, w).
Proof.
  unfold performance_fits, performance_value, bikeBonus_value.
  intros (Hs & Ha & Hh & Hsc & Hd & Hv & Hmul & Htot).
  assert (Hmax : 0 <= MAX_UINT256) by (unfold MAX_UINT256; lia).
  set (S := speed bike + acceleration bike + handling bike) in *.
  assert (0 <= S * 10 ^ 17 / 100) by (apply Z.div_pos; lia).
  assert (0 <= sc / 100) by (apply Z.div_pos; lia).
  assert (0 <= d / 1000) by (apply Z.div_pos; lia).
  unfold performanceRewards.
  rewrite bind_checked_add by lia.
  rewrite bind_checked_add by (fold S; lia).
  fold S.
  rewrite bind_checked_mul by lia.
  rewrite bind_checked_div by lia.
  rewrite bind_checked_div by lia.
  rewrite bind_checked_mul by nia.
  rewrite bind_checked_div by lia.
  rewrite bind_checked_mul by nia.
  rewrite bind_checked_mul by nia.
  rewrite bind_checked_mul by nia.
  rewrite bind_checked_mul by nia.
  rewrite bind_checked_add by nia.
  rewrite bind_checked_add by nia.
  rewrite bind_checked_add by nia.
  unfold checked_add.
  destruct (Z.leb_spec
              (10 * 10 ^ 18 + S * 10 ^ 17 / 100 + sc / 100 * 10 ^ 18 + d / 1000 * 5 * 10 ^ 18
               + v * 2 * 10 ^ 18) MAX_UINT256); [done | lia].
Qed.

(** *** Reading updated mappings *)

Lemma rd_insert_eq `{Countable K} {V : Type} (zero v : V) (m : gmap K V) (k : K) :
  rd zero (<[k := v]> m) k = v.
Proof. unfold rd. by rewrite lookup_insert_eq. Qed.

Lemma rd_insert_ne `{Countable K} {V : Type} (zero v : V) (m : gmap K V) (k k' : K) :
  k <> k' -> rd zero (<[k := v]> m) k' = rd zero m k'.
Proof. intros Hne. unfold rd. by rewrite lookup_insert_ne. Qed.

Lemma rd_empty `{Countable K} {V : Type} (zero : V) (k : K) :
  rd zero (∅ : gmap K V) k = zero.
Proof. unfold rd. by rewrite lookup_empty. Qed.

Ltac unfold_at :=
  unfold bikeNFTs_at, gameSessions_at, playerRewards_at, dailyChallenges_at,
    completedDailyChallenges_at, playerSessions_at, ownedBikes_at, erc20_balanceOf,
    erc20_allowance, _ownerOf in *.

(** *** What a completion does *)

Lemma completeGame_Ok_inv (env : Env) (sid sc d v : Z) (w w' : World) :
  completeGame env sid sc d v w = Ok (tt, w') ->
  let s := gameSessions_at sid w in
  let sender := msg_sender env in
  let today := getCurrentDay env in
  let total := reward_total env w sid sc d v in
  let due := daily_bonus_due env w sid sc in
  (player s = sender /\ completed s = false /\
   playerRewards_at sender w + total <= MAX_UINT256) /\
  (playerRewards w' = <[sender := playerRewards_at sender w + total]> (playerRewards w) /\
   gameSessions w' =
     <[sid := mkGameSession (player s) (bikeTokenId s) sc d v (timestamp s) true total
                            (gameMode s)]> (gameSessions w) /\
   events w' =
     GameCompleted sender sid sc total (gameMode s)
       :: (if due
           then [DailyChallengeCompleted sender today sc
                   (rewardAmount (dailyChallenges_at today w))]
           else []) ++ events w /\
   completedDailyChallenges w' =
     (if due then <[(sender, today) := true]> (completedDailyChallenges w)
      else completedDailyChallenges w)) /\
  (self_address w' = self_address w /\ nextSessionId w' = nextSessionId w /\
   bikeNFTs w' = bikeNFTs w /\ dailyChallenges w' = dailyChallenges w /\
   erc20_balances w' = erc20_balances w /\ raceToken w' = raceToken w).
Proof.
  intros H. unfold_calls H. minv H; subst.
  all: unfold reward_total, daily_bonus_due; unfold_at; wsimpl.
  all: repeat match goal with
         | H : (_ =? _)%N = true |- _ => apply N.eqb_eq in H
         | H : negb _ = true |- _ => apply negb_true_iff in H
         end.
  all: rewrite ?rd_insert_eq, ?insert_insert_eq in *; wsimpl.
  all: match goal with E : gameMode _ = _ |- _ => rewrite ?E in * end.
  all: try match goal with E : (_ && _) = _ |- _ => rewrite ?E in * end.
  all: repeat split; try done.
Qed.

Lemma bind_run {A B : Type} (m : M A) (k : A -> M B) (a : A) (w w1 : World) :
  m w = Ok (a, w1) -> bind m k w = k a w1.
Proof. unfold bind. by intros ->. Qed.

Lemma bind_revert {A B : Type} (m : M A) (k : A -> M B) (f : Failure) (w : World) :
  m w = Revert f -> bind m k w = Revert f.
Proof. unfold bind. by intros ->. Qed.

Ltac unfold_writes :=
  unfold write_bikeNFT, write_gameSession, write_playerRewards, write_dailyChallenge, emit in *.

(** Rewrite the steps of a run that need no side condition. *)
Ltac mrun :=
  repeat first [rewrite bind_bind | rewrite bind_gets | rewrite bind_modify | rewrite bind_ret].

Lemma completeGame_Ok (env : Env) (sid sc d v : Z) (w : World) :
  let s := gameSessions_at sid w in
  let sender := msg_sender env in
  player s = sender ->
  completed s = false ->
  performance_fits (bikeNFTs_at (bikeTokenId s) w) sc d v ->
  0 <= playerRewards_at sender w ->
  playerRewards_at sender w + reward_total env w sid sc d v <= MAX_UINT256 ->
  exists w', completeGame env sid sc d v w = Ok (tt, w').
Proof.
  intros s sender Hp Hc Hfit Hold Hsum.
  assert (Hperf : 0 <= performance_value (bikeNFTs_at (bikeTokenId s) w) sc d v).
  { destruct Hfit as (? & ? & ? & ? & ? & ? & ? & ?).
    unfold performance_value, bikeBonus_value.
    assert (0 <= (speed (bikeNFTs_at (bikeTokenId s) w) + acceleration (bikeNFTs_at (bikeTokenId s) w)
                  + handling (bikeNFTs_at (bikeTokenId s) w)) * 10 ^ 17 / 100)
      by (apply Z.div_pos; lia).
    assert (0 <= sc / 100) by (apply Z.div_pos; lia).
    assert (0 <= d / 1000) by (apply Z.div_pos; lia).
    nia. }
  assert (Hb : forall g id, bikeNFTs_at id (set_gameSessions g w) = bikeNFTs_at id w)
    by reflexivity.
  unfold completeGame. unfold_writes. mrun. fold s.
  rewrite bind_require_true by (rewrite Hp; apply N.eqb_refl).
  rewrite bind_require_true by (by rewrite Hc).
  mrun.
  erewrite bind_run; last first.
  { apply performanceRewards_Ok. rewrite Hb. exact Hfit. }
  unfold reward_total, daily_bonus_due in Hsum. fold s in Hsum.
  rewrite !Hb.
  set (perf := performance_value (bikeNFTs_at (bikeTokenId s) w) sc d v) in *.
  unfold playerRewards_at in *. subst sender.
  destruct (gameMode s) eqn:Emode.
  - rewrite bind_checked_div by lia. mrun. wsimpl.
    rewrite bind_checked_add by lia. mrun. eauto.
  - mrun. wsimpl. rewrite bind_checked_add by lia. mrun. eauto.
  - mrun. unfold dailyChallenges_at, completedDailyChallenges_at in *. wsimpl.
    destruct (_ && _).
    + mrun. rewrite bind_checked_add by lia. mrun. wsimpl.
      rewrite bind_checked_add by lia. mrun. eauto.
    + mrun. wsimpl. rewrite bind_checked_add by lia. mrun. eauto.
Qed.

(** *** What a claim does *)

(** A step that keeps the condition of a passed check. *)
Ltac keep_step Hs :=
  let Hc := fresh "Hcond" in
  first [ apply require_Ok_inv in Hs as (Hc & ->)
        | apply ensure_Ok_inv in Hs as (Hc & ->)
        | apply gets_Ok_inv in Hs as [-> ->]
        | apply modify_Ok_inv in Hs as ->
        | apply ret_Ok_inv in Hs as [-> ->]
        | idtac ].

Ltac reflect_conds :=
  repeat match goal with
         | H : negb (_ =? _)%N = true |- _ =>
             apply negb_true_iff in H; apply N.eqb_neq in H
         | H : (_ =? _)%N = true |- _ => apply N.eqb_eq in H
         | H : negb _ = true |- _ => apply negb_true_iff in H
         | H : (_ <=? _) = true |- _ => apply Z.leb_le in H
         | H : (_ <? _) = true |- _ => apply Z.ltb_lt in H
         | H : (_ <=? _) = false |- _ => apply Z.leb_gt in H
         | H : (_ <? _) = false |- _ => apply Z.ltb_ge in H
         end.

Lemma claimRewards_Ok_inv (env : Env) (w w' : World) :
  claimRewards env w = Ok (tt, w') ->
  let sender := msg_sender env in
  let r := playerRewards_at sender w in
  let held := erc20_balanceOf (raceToken w) (self_address w) w in
  (0 < r /\ r <= held /\ sender <> 0%N /\ self_address w <> 0%N) /\
  (playerRewards w' = <[sender := 0]> (playerRewards w) /\
   events w' = RewardsClaimed sender r :: events w /\
   erc20_balances w' =
     <[(raceToken w, sender) :=
         rd 0 (<[(raceToken w, self_address w) := held - r]> (erc20_balances w))
            (raceToken w, sender) + r]>
       (<[(raceToken w, self_address w) := held - r]> (erc20_balances w))) /\
  (self_address w' = self_address w /\ nextSessionId w' = nextSessionId w /\
   gameSessions w' = gameSessions w /\ bikeNFTs w' = bikeNFTs w /\
   dailyChallenges w' = dailyChallenges w /\
   completedDailyChallenges w' = completedDailyChallenges w /\ raceToken w' = raceToken w).
Proof.
  intros H. unfold claimRewards in H. unfold_writes.
  repeat bind_step H keep_step.
  apply modify_Ok_inv in H as ->.
  match goal with
  | Hs : erc20_transfer _ _ _ _ _ = Ok _ |- _ =>
      unfold erc20_transfer, erc20__transfer in Hs;
      bind_step Hs keep_step; apply ret_Ok_inv in Hs as [_ ->];
      match goal with
      | Ht : bind _ _ _ = Ok _ |- _ =>
          repeat bind_step Ht keep_step; apply modify_Ok_inv in Ht as ->
      end
  end.
  unfold_at. wsimpl. reflect_conds.
  repeat split; try done.
Qed.

Lemma bind_ensure_false {B : Type} (c : bool) (error : string) (k : unit -> M B) (w : World) :
  c = false -> bind (ensure c error) k w = Revert (CustomError error).
Proof. by intros ->. Qed.

Lemma claimRewards_nothing (env : Env) (w : World) :
  playerRewards_at (msg_sender env) w <= 0 ->
  claimRewards env w = Revert (RequireFailed "No rewards to claim").
Proof.
  intros Hzero. unfold claimRewards. mrun.
  apply bind_require_false. by apply Z.ltb_ge.
Qed.

(** The storage in which [claimRewards] calls the token: the caller's
    entry already zeroed. *)
Lemma claimRewards_transfer_fails (env : Env) (w : World) (f : Failure) :
  0 < playerRewards_at (msg_sender env) w ->
  erc20_transfer (raceToken w) (self_address w) (msg_sender env)
    (playerRewards_at (msg_sender env) w)
    (set_playerRewards (<[msg_sender env := 0]> (playerRewards w)) w) = Revert f ->
  claimRewards env w = Revert f.
Proof.
  intros Hpos Hfail. unfold claimRewards. unfold_writes. mrun.
  rewrite bind_require_true by (by apply Z.ltb_lt).
  mrun. wsimpl. by apply bind_revert.
Qed.

Lemma erc20_transfer_underfunded (token caller to : address) (value : Z) (w : World) :
  caller <> 0%N -> to <> 0%N ->
  erc20_balanceOf token caller w < value ->
  erc20_transfer token caller to value w = Revert (CustomError "ERC20InsufficientBalance").
Proof.
  intros Hc Ht Hlt. unfold erc20_transfer, erc20__transfer. mrun.
  rewrite bind_ensure_true by (by apply negb_true_iff, N.eqb_neq). mrun.
  rewrite bind_ensure_true by (by apply negb_true_iff, N.eqb_neq). mrun.
  apply bind_ensure_false. by apply Z.leb_gt.
Qed.

Lemma claimRewards_Ok (env : Env) (w : World) :
  let sender := msg_sender env in
  let r := playerRewards_at sender w in
  0 < r ->
  r <= erc20_balanceOf (raceToken w) (self_address w) w ->
  sender <> 0%N ->
  self_address w <> 0%N ->
  exists w', claimRewards env w = Ok (tt, w').
Proof.
  intros sender r Hpos Hheld Hs Ht. subst sender r.
  unfold claimRewards, erc20_transfer, erc20__transfer. unfold_writes. mrun.
  rewrite bind_require_true by (by apply Z.ltb_lt).
  mrun. wsimpl.
  rewrite bind_ensure_true by (by apply negb_true_iff, N.eqb_neq). mrun.
  rewrite bind_ensure_true by (by apply negb_true_iff, N.eqb_neq). mrun.
  rewrite bind_ensure_true by (by apply Z.leb_le).
  mrun. unfold require. mrun. eauto.
Qed.

(** *** What a credit transfer does *)

Lemma transferTokensToPlayer_Ok_inv (env : Env) (_to : address) (_amount : Z) (w w' : World) :
  transferTokensToPlayer env _to _amount w = Ok (tt, w') ->
  let sender := msg_sender env in
  (_amount <= playerRewards_at sender w /\ _to <> sender /\ _to <> 0%N /\
   playerRewards_at _to w + _amount <= MAX_UINT256) /\
  (playerRewards w' =
     <[_to := playerRewards_at _to w + _amount]>
       (<[sender := playerRewards_at sender w - _amount]> (playerRewards w)) /\
   events w' = TokensTransferred sender _to _amount :: events w) /\
  (self_address w' = self_address w /\ nextSessionId w' = nextSessionId w /\
   gameSessions w' = gameSessions w /\ bikeNFTs w' = bikeNFTs w /\
   dailyChallenges w' = dailyChallenges w /\
   completedDailyChallenges w' = completedDailyChallenges w).
Proof.
  intros H. unfold transferTokensToPlayer in H. unfold_writes.
  minv H; subst. unfold_at. wsimpl. reflect_conds.
  rewrite rd_insert_ne in * by done.
  repeat split; try done.
Qed.

Lemma transferTokensToPlayer_Ok (env : Env) (_to : address) (_amount : Z) (w : World) :
  let sender := msg_sender env in
  _amount <= playerRewards_at sender w ->
  _to <> sender ->
  _to <> 0%N ->
  playerRewards_at _to w + _amount <= MAX_UINT256 ->
  exists w', transferTokensToPlayer env _to _amount w = Ok (tt, w').
Proof.
  intros sender Hle Hne Hnz Hfit. subst sender.
  unfold transferTokensToPlayer. unfold_writes. unfold_at. mrun.
  rewrite bind_require_true by (by apply Z.leb_le).
  rewrite bind_require_true by (by apply negb_true_iff, N.eqb_neq).
  rewrite bind_require_true by (by apply negb_true_iff, N.eqb_neq).
  mrun. rewrite bind_checked_sub by done. mrun. wsimpl.
  rewrite rd_insert_ne by done.
  rewrite bind_checked_add by done. mrun. eauto.
Qed.

(** *** Calls that leave the ledger alone *)

Lemma quiet_call_frame (env : Env) (c : Call) (w w' : World) :
  exec env c w = Ok (tt, w') ->
  writes_ledger c = false ->
  self_address w' = self_address w /\
  playerRewards w' = playerRewards w /\
  completedDailyChallenges w' = completedDailyChallenges w /\
  claimed_total (events w') = claimed_total (events w) /\
  computed_total (events w') = computed_total (events w) /\
  (forall p d, daily_grants p d (events w') = daily_grants p d (events w)).
Proof.
  intros H Hq. destruct c; try discriminate Hq; unfold_calls H.
  all: minv H; subst; wsimpl; repeat split; reflexivity.
Qed.

Lemma exec_self_address (env : Env) (c : Call) (w w' : World) :
  exec env c w = Ok (tt, w') -> self_address w' = self_address w.
Proof.
  intros H. destruct c.
  3: { by apply completeGame_Ok_inv in H as (_ & _ & ? & _). }
  3: { by apply claimRewards_Ok_inv in H as (_ & _ & ? & _). }
  3: { by apply transferTokensToPlayer_Ok_inv in H as (_ & _ & ? & _). }
  all: by eapply quiet_call_frame in H as (? & _).
Qed.

Lemma transact_self_address (w : World) (tx : Env * Call) :
  self_address (transact w tx) = self_address w.
Proof.
  unfold transact. destruct (exec _ _ w) as [[[] w']|f] eqn:E; [|done].
  by eapply exec_self_address.
Qed.

(** *** Sessions live below the counter *)

Lemma startGame_Ok_inv (env : Env) (b : Z) (m : GameMode) (sid : Z) (w w' : World) :
  startGame env b m w = Ok (sid, w') ->
  sid = nextSessionId w /\
  nextSessionId w' = nextSessionId w + 1 /\
  gameSessions w' =
    <[sid := mkGameSession (msg_sender env) b 0 0 0 (block_timestamp env) false 0 m]>
      (gameSessions w) /\
  _ownerOf b w = msg_sender env /\
  (m = DAILY_CHALLENGE ->
     active (dailyChallenges_at (getCurrentDay env) w) = true /\
     completedDailyChallenges_at (msg_sender env) (getCurrentDay env) w = false).
Proof.
  intros H. unfold startGame in H. unfold_writes.
  minv H; subst; unfold_at; wsimpl; reflect_conds.
  all: repeat split; try done.
Qed.

Lemma step_sessions_fresh (env : Env) (c : Call) (w w' : World) :
  msg_sender env <> 0%N ->
  exec env c w = Ok (tt, w') ->
  sessions_fresh w -> sessions_fresh w'.
Proof.
  intros Hsender H Hinv. destruct c.
  2: { cbn [exec] in H. apply bind_Ok_inv in H as (sid & w1 & H1 & H).
       apply ret_Ok_inv in H as [_ ->].
       apply startGame_Ok_inv in H1 as (-> & Hn & Hg & _).
       intros sid Hsid. rewrite Hg, Hn in *.
       rewrite lookup_insert_ne by lia. apply Hinv. lia. }
  2: { apply completeGame_Ok_inv in H as ((Hp & _) & (_ & Hg & _) & (_ & Hn & _)).
       intros sid Hsid. rewrite Hg, Hn in *.
       destruct (decide (sessionId = sid)) as [->|Hne].
       - exfalso. apply Hsender. rewrite <- Hp.
         unfold gameSessions_at, rd. by rewrite (Hinv sid Hsid).
       - rewrite lookup_insert_ne by done. by apply Hinv. }
  all: unfold_calls H; minv H; subst; exact Hinv.
Qed.

(** *** The ledger total *)

Lemma ledger_total_empty : ledger_total ∅ = 0.
Proof. unfold ledger_total. by rewrite map_fold_empty. Qed.

Lemma ledger_total_insert_fresh (m : gmap address Z) (a : address) (v : Z) :
  m !! a = None -> ledger_total (<[a := v]> m) = v + ledger_total m.
Proof.
  intros Hnone. unfold ledger_total.
  rewrite map_fold_insert_L; [done | intros; lia | done].
Qed.

Lemma ledger_total_insert (m : gmap address Z) (a : address) (v : Z) :
  ledger_total (<[a := v]> m) = ledger_total m - rd 0 m a + v.
Proof.
  unfold rd. destruct (m !! a) as [x|] eqn:E; cbn.
  - rewrite <- (insert_delete_eq m a v).
    rewrite <- (insert_delete_id m a x E) at 2.
    rewrite !ledger_total_insert_fresh by apply lookup_delete_eq. lia.
  - rewrite ledger_total_insert_fresh by done. lia.
Qed.

(** *** Stored values stay in range *)

Lemma step_values_in_range (env : Env) (c : Call) (w w' : World) :
  well_formed_call c ->
  exec env c w = Ok (tt, w') ->
  values_in_range w -> values_in_range w'.
Proof.
  intros Hwf H (Hledger & Hbikes & Hdaily). destruct c.
  3: { destruct Hwf as (_ & Hsc & Hd & Hv).
       apply completeGame_Ok_inv in H as ((_ & _ & Hfit) & (Hr & _) & (_ & _ & Hb & Hdc & _)).
       assert (Hperf : 0 <= reward_total env w sessionId score_ distance_ vehiclesDodged_).
       { unfold reward_total, performance_value, bikeBonus_value.
         set (bike := bikeNFTs_at _ w).
         destruct (Hbikes (bikeTokenId (gameSessions_at sessionId w))) as (? & ? & ?).
         fold bike in H, H0, H1.
         unfold is_uint256 in *.
         assert (0 <= (speed bike + acceleration bike + handling bike) * 10 ^ 17 / 100)
           by (apply Z.div_pos; lia).
         assert (0 <= score_ / 100) by (apply Z.div_pos; lia).
         assert (0 <= distance_ / 1000) by (apply Z.div_pos; lia).
         pose proof (Hdaily (getCurrentDay env)).
         destruct (gameMode _); [apply Z.div_pos; nia | nia |].
         destruct (daily_bonus_due _ _ _ _); nia. }
       repeat split; unfold_at; rewrite ?Hr, ?Hb, ?Hdc;
         try apply Hbikes; try apply Hdaily.
       all: destruct (decide (p = msg_sender env)) as [->|Hne];
         [rewrite rd_insert_eq | rewrite rd_insert_ne by congruence; apply Hledger].
       all: specialize (Hledger (msg_sender env)); unfold_at; lia. }
  3: { apply claimRewards_Ok_inv in H as (_ & (Hr & _) & (_ & _ & _ & Hb & Hdc & _)).
       repeat split; unfold_at; rewrite ?Hr, ?Hb, ?Hdc;
         try apply Hbikes; try apply Hdaily.
       all: destruct (decide (p = msg_sender env)) as [->|Hne];
         [rewrite rd_insert_eq; unfold MAX_UINT256; lia
         | rewrite rd_insert_ne by congruence; apply Hledger]. }
  3: { cbn in Hwf. unfold is_uint256 in Hwf.
       apply transferTokensToPlayer_Ok_inv
         in H as ((Hle & Hne & _ & Hfit) & (Hr & _) & (_ & _ & _ & Hb & Hdc & _)).
       repeat split; unfold_at; rewrite ?Hr, ?Hb, ?Hdc;
         try apply Hbikes; try apply Hdaily.
       all: destruct (decide (p = _to)) as [->|Hne1]; [rewrite rd_insert_eq|].
       all: try (pose proof (Hledger _to); unfold_at; lia).
       all: rewrite rd_insert_ne by congruence.
       all: destruct (decide (p = msg_sender env)) as [->|Hne2];
         [rewrite rd_insert_eq | rewrite rd_insert_ne by congruence; apply Hledger].
       all: pose proof (Hledger (msg_sender env)); unfold_at; lia. }
  all: unfold_calls H; unfold_writes; minv H; subst.
  all: repeat split; unfold_at; wsimpl; intros.
  all: repeat match goal with
         | |- context [rd _ (<[?k := _]> _) ?k'] =>
             destruct (decide (k = k')) as [->|?];
             [rewrite rd_insert_eq | rewrite rd_insert_ne by done]
         end; cbn; try apply Hledger; try apply Hbikes; try apply Hdaily; try lia.
  all: destruct _bikeType; cbn; lia.
Qed.

(** *** Conservation of the ledger *)

Lemma claimed_total_app (l1 l2 : list Event) :
  claimed_total (l1 ++ l2) = claimed_total l1 + claimed_total l2.
Proof. induction l1 as [|[] l1 IH]; cbn; lia. Qed.

Lemma computed_total_app (l1 l2 : list Event) :
  computed_total (l1 ++ l2) = computed_total l1 + computed_total l2.
Proof. induction l1 as [|[] l1 IH]; cbn; lia. Qed.

Lemma step_ledger_conserved (env : Env) (c : Call) (w w' : World) :
  exec env c w = Ok (tt, w') ->
  ledger_conserved w -> ledger_conserved w'.
Proof.
  unfold ledger_conserved. intros H Hinv. destruct c.
  3: { apply completeGame_Ok_inv in H as (_ & (Hr & _ & He & _) & _).
       rewrite Hr, He, ledger_total_insert. unfold playerRewards_at. cbn.
       rewrite claimed_total_app, computed_total_app.
       destruct (daily_bonus_due _ _ _ _); cbn; lia. }
  3: { apply claimRewards_Ok_inv in H as (_ & (Hr & He & _) & _).
       rewrite Hr, He, ledger_total_insert. unfold playerRewards_at. cbn. lia. }
  3: { apply transferTokensToPlayer_Ok_inv in H as ((_ & Hne & _) & (Hr & He) & _).
       rewrite Hr, He, !ledger_total_insert. unfold playerRewards_at. cbn.
       rewrite rd_insert_ne by done. lia. }
  all: eapply quiet_call_frame in H as (_ & -> & _ & -> & -> & _); done.
Qed.

(** *** The daily bonus is granted once *)

Lemma step_single_grant (env : Env) (c : Call) (w w' : World) :
  exec env c w = Ok (tt, w') ->
  single_grant w -> single_grant w'.
Proof.
  unfold single_grant. intros H Hinv p d. destruct c.
  3: { apply completeGame_Ok_inv in H as (_ & (_ & _ & He & Hc) & _).
       unfold completedDailyChallenges_at in *. rewrite He, Hc. clear He Hc.
       unfold daily_bonus_due. cbn [daily_grants].
       destruct (gameMode _); cbn [app daily_grants]; try apply Hinv.
       unfold completedDailyChallenges_at.
       destruct (targetScore _ <=? _); cbn [andb app daily_grants]; [|apply Hinv].
       destruct (rd false (completedDailyChallenges w) (msg_sender env, getCurrentDay env))
         eqn:Emark; cbn [negb app daily_grants]; [apply Hinv|].
       destruct ((msg_sender env =? p)%N && (getCurrentDay env =? d)) eqn:Esame.
       - apply andb_true_iff in Esame as [E1%N.eqb_eq E2%Z.eqb_eq]. subst p d.
         rewrite rd_insert_eq.
         destruct (Hinv (msg_sender env) (getCurrentDay env)) as [Hle Hmark].
         assert (daily_grants (msg_sender env) (getCurrentDay env) (events w) = 0%nat) as ->.
         { destruct (daily_grants (msg_sender env) (getCurrentDay env) (events w))
             as [|[|n]] eqn:En; [done| |lia].
           rewrite Hmark in Emark by done. discriminate. }
         split; [lia | done].
       - rewrite rd_insert_ne; [apply Hinv|].
         intros [= <- <-]. rewrite N.eqb_refl, Z.eqb_refl in Esame. discriminate. }
  3: { apply claimRewards_Ok_inv in H as (_ & (_ & He & _) & (_ & _ & _ & _ & _ & Hc & _)).
       unfold completedDailyChallenges_at. rewrite He, Hc. apply Hinv. }
  3: { apply transferTokensToPlayer_Ok_inv in H as (_ & (_ & He) & (_ & _ & _ & _ & _ & Hc)).
       unfold completedDailyChallenges_at. rewrite He, Hc. apply Hinv. }
  all: eapply quiet_call_frame in H as (_ & _ & Hc & _ & _ & Hg); [|done].
  all: unfold completedDailyChallenges_at; rewrite Hg, Hc; apply Hinv.
Qed.

(** *** Every reachable state satisfies the invariants *)

Lemma constructor_Ok (env : Env) (w : World) :
  is_uint256 (block_timestamp env) ->
  constructor env w =
    Ok (tt,
        set_events
          (DailyChallengeCreated (getCurrentDay env) (500 + block_timestamp env mod 1000)
             (50 * 10 ^ 18) :: events w)
          (set_dailyChallenges
             (<[getCurrentDay env :=
                  mkDailyChallenge (getCurrentDay env) (500 + block_timestamp env mod 1000)
                    (50 * 10 ^ 18) true]> (dailyChallenges w))
             (set_currentChallengeDate (getCurrentDay env) w))).
Proof.
  intros Hts. unfold constructor, _createDailyChallenge. unfold_writes. mrun.
  rewrite bind_checked_add.
  - by mrun.
  - pose proof (Z.mod_pos_bound (block_timestamp env) 1000). unfold MAX_UINT256. lia.
Qed.

Lemma deployed_invariants this _usdc _raceToken env balances allowances :
  is_uint256 (block_timestamp env) ->
  let w := deployed this _usdc _raceToken env balances allowances in
  sessions_fresh w /\ values_in_range w /\ ledger_conserved w /\ single_grant w.
Proof.
  intros Hts. unfold deployed. rewrite constructor_Ok by done. cbn zeta.
  split; [|split; [|split]].
  - intros sid _. apply lookup_empty.
  - repeat split; unfold_at; wsimpl; cbn; rewrite ?rd_empty; cbn; try lia.
    + unfold MAX_UINT256. lia.
    + intros d. destruct (decide (getCurrentDay env = d)) as [->|?];
        [rewrite rd_insert_eq | rewrite rd_insert_ne by done; rewrite rd_empty]; cbn; lia.
  - unfold ledger_conserved. cbn. by rewrite ledger_total_empty.
  - intros p d. cbn. split; [lia | discriminate].
Qed.

Lemma reachable_invariants (w : World) :
  reachable w ->
  sessions_fresh w /\ values_in_range w /\ ledger_conserved w /\ single_grant w.
Proof.
  induction 1 as [this u r env b a Hts | w env c Hreach IH Henv Hcall].
  - by apply deployed_invariants.
  - destruct IH as (I1 & I2 & I3 & I4).
    unfold transact. cbn [fst snd].
    destruct (exec env c w) as [[[] w']|f] eqn:E; [|done].
    destruct Henv as (Hs & _).
    split; [|split; [|split]].
    + by eapply step_sessions_fresh.
    + by eapply step_values_in_range.
    + by eapply step_ledger_conserved.
    + by eapply step_single_grant.
Qed.

Lemma run_app (w : World) (txs1 txs2 : list (Env * Call)) :
  run w (txs1 ++ txs2) = run (run w txs1) txs2.
Proof. unfold run. apply fold_left_app. Qed.

Lemma run_self_address (w : World) (txs : list (Env * Call)) :
  self_address (run w txs) = self_address w.
Proof.
  revert w. induction txs as [|tx txs IH]; intros w; [done|].
  cbn. change (fold_left transact txs (transact w tx)) with (run (transact w tx) txs).
  by rewrite IH, transact_self_address.
Qed.

Lemma reachable_run (w : World) (txs : list (Env * Call)) :
  reachable w -> well_formed_txs w txs -> reachable (run w txs).
Proof.
  revert w. induction txs as [|[env c] txs IH]; intros w Hr Hwf; [done|].
  apply Forall_cons in Hwf as [[Henv Hcall] Hwf]. cbn in Henv, Hcall.
  change (run w ((env, c) :: txs)) with (run (transact w (env, c)) txs).
  apply IH.
  - by constructor.
  - eapply Forall_impl; [exact Hwf|]. intros [env' c'] [He Hc]. split; [|done].
    unfold well_formed_env in *. by rewrite transact_self_address.
Qed.

(** *** Transactions *)

Lemma transact_Revert (w : World) (env : Env) (c : Call) (f : Failure) :
  exec env c w = Revert f -> transact w (env, c) = w.
Proof. unfold transact. cbn [fst snd]. by intros ->. Qed.

Lemma transact_Ok (w w' : World) (env : Env) (c : Call) :
  exec env c w = Ok (tt, w') -> transact w (env, c) = w'.
Proof. unfold transact. cbn [fst snd]. by intros ->. Qed.

(** *** Rejected completions *)

Lemma completeGame_not_yours (env : Env) (sid sc d v : Z) (w : World) :
  player (gameSessions_at sid w) <> msg_sender env ->
  completeGame env sid sc d v w = Revert (RequireFailed "Not your session").
Proof.
  intros Hne. unfold completeGame. mrun.
  apply bind_require_false. by apply N.eqb_neq.
Qed.

Lemma completeGame_already_completed (env : Env) (sid sc d v : Z) (w : World) :
  player (gameSessions_at sid w) = msg_sender env ->
  completed (gameSessions_at sid w) = true ->
  completeGame env sid sc d v w = Revert (RequireFailed "Session already completed").
Proof.
  intros Hp Hc. unfold completeGame. mrun.
  rewrite bind_require_true by (by apply N.eqb_eq).
  apply bind_require_false. by rewrite Hc.
Qed.

Lemma completeGame_rejected (env : Env) (sid sc d v : Z) (w : World) :
  completed (gameSessions_at sid w) = true \/ player (gameSessions_at sid w) <> msg_sender env ->
  exists reason, completeGame env sid sc d v w = Revert (RequireFailed reason).
Proof.
  intros Hrej.
  destruct (decide (player (gameSessions_at sid w) = msg_sender env)) as [Hp|Hp].
  - destruct Hrej as [Hc|Hn]; [|done]. eexists. by apply completeGame_already_completed.
  - eexists. by apply completeGame_not_yours.
Qed.

(** A completed session stays completed. *)
Lemma step_completed_final (env : Env) (c : Call) (sid : Z) (w w' : World) :
  sessions_fresh w ->
  exec env c w = Ok (tt, w') ->
  completed (gameSessions_at sid w) = true ->
  completed (gameSessions_at sid w') = true.
Proof.
  intros Hfresh H Hdone. destruct c.
  2: { cbn [exec] in H. apply bind_Ok_inv in H as (sid' & w1 & H1 & H).
       apply ret_Ok_inv in H as [_ ->].
       apply startGame_Ok_inv in H1 as (-> & _ & Hg & _).
       unfold gameSessions_at in *. rewrite Hg.
       destruct (decide (nextSessionId w = sid)) as [<-|Hne].
       - unfold rd in Hdone. rewrite Hfresh in Hdone by lia. discriminate.
       - by rewrite rd_insert_ne. }
  2: { apply completeGame_Ok_inv in H as (_ & (_ & Hg & _) & _).
       unfold gameSessions_at in *. rewrite Hg.
       destruct (decide (sessionId = sid)) as [<-|Hne].
       - by rewrite rd_insert_eq.
       - by rewrite rd_insert_ne. }
  all: unfold_calls H; unfold_writes; minv H; subst; exact Hdone.
Qed.

Lemma run_completed_final (w : World) (txs : list (Env * Call)) (sid : Z) :
  reachable w ->
  well_formed_txs w txs ->
  completed (gameSessions_at sid w) = true ->
  completed (gameSessions_at sid (run w txs)) = true.
Proof.
  revert w. induction txs as [|[env c] txs IH]; intros w Hr Hwf Hdone; [done|].
  change (run w ((env, c) :: txs)) with (run (transact w (env, c)) txs).
  pose proof (reachable_run w [(env, c)] Hr) as Hr1.
  apply Forall_cons in Hwf as [[Henv Hcall] Hwf]. cbn in Henv, Hcall.
  apply IH.
  - by constructor.
  - eapply Forall_impl; [exact Hwf|]. intros [env' c'] [He Hc]. split; [|done].
    unfold well_formed_env in *. by rewrite transact_self_address.
  - unfold transact. cbn [fst snd].
    destruct (exec env c w) as [[[] w']|f] eqn:E; [|done].
    eapply step_completed_final; [|exact E|exact Hdone].
    by apply reachable_invariants.
Qed.

(** ** Claims about the contract *)

(** C3. A [completeGame] call on a session that is already completed, or
    from a caller who is not the session's player, reverts; the
    transaction leaves the whole storage (reward ledger and session
    record included) as it was.  Once a completion has succeeded, every
    later completion of the same session, by anyone and after any
    further transactions, reverts in the same way. *)
Theorem completeGame_at_most_once (env : Env) (w : World) (sid sc d v : Z) :
  (completed (gameSessions_at sid w) = true \/
   player (gameSessions_at sid w) <> msg_sender env ->
   (exists reason, completeGame env sid sc d v w = Revert (RequireFailed reason)) /\
   transact w (env, CallCompleteGame sid sc d v) = w) /\
  (reachable w ->
   well_formed_env w env ->
   well_formed_call (CallCompleteGame sid sc d v) ->
   forall w', completeGame env sid sc d v w = Ok (tt, w') ->
   forall txs env2 sc2 d2 v2,
     well_formed_txs w' txs ->
     (exists reason,
        completeGame env2 sid sc2 d2 v2 (run w' txs) = Revert (RequireFailed reason)) /\
     transact (run w' txs) (env2, CallCompleteGame sid sc2 d2 v2) = run w' txs).
Proof.
  split.
  - intros Hrej. destruct (completeGame_rejected env sid sc d v w Hrej) as [reason Hr].
    split; [eauto|]. by eapply transact_Revert.
  - intros Hreach Henv Hcall w' Hok txs env2 sc2 d2 v2 Hwf.
    assert (Hreach' : reachable w').
    { rewrite <- (transact_Ok w w' env (CallCompleteGame sid sc d v) Hok). by constructor. }
    assert (Hdone : completed (gameSessions_at sid w') = true).
    { apply completeGame_Ok_inv in Hok as (_ & (_ & Hg & _) & _).
      unfold gameSessions_at. by rewrite Hg, rd_insert_eq. }
    pose proof (run_completed_final w' txs sid Hreach' Hwf Hdone) as Hfinal.
    destruct (completeGame_rejected env2 sid sc2 d2 v2 (run w' txs) (or_introl Hfinal))
      as [reason Hr].
    split; [eauto|]. by eapply transact_Revert.
Qed.

(** *** The concrete deployment is reachable *)

Ltac solve_wf :=
  repeat first [ apply Forall_nil | apply Forall_cons; split ];
  vm_compute; repeat split; first [ discriminate | done ].

Lemma genesis_reachable : reachable Scenario.genesis.
Proof. apply reachable_deployed. solve_wf. Qed.

Lemma practice_started_reachable : reachable Scenario.practice_started.
Proof. apply reachable_run; [apply genesis_reachable | solve_wf]. Qed.

Lemma daily_started_reachable : reachable Scenario.daily_started.
Proof. apply reachable_run; [apply genesis_reachable | solve_wf]. Qed.

Lemma next_day_reachable : reachable Scenario.next_day.
Proof. apply reachable_run; [apply genesis_reachable | solve_wf]. Qed.

Lemma completeGame_at_most_once_witness :
  ((exists reason,
      completeGame (Scenario.at_ Scenario.alice 400) 1 1 1 1 Scenario.practice_completed
      = Revert (RequireFailed reason)) /\
   transact Scenario.practice_completed
     (Scenario.at_ Scenario.alice 400, CallCompleteGame 1 1 1 1)
   = Scenario.practice_completed) /\
  ((exists reason,
      completeGame (Scenario.at_ Scenario.bob 500) 1 5 5 5
        (run Scenario.practice_completed [(Scenario.at_ Scenario.alice 400, CallClaimRewards)])
      = Revert (RequireFailed reason)) /\
   transact
     (run Scenario.practice_completed [(Scenario.at_ Scenario.alice 400, CallClaimRewards)])
     (Scenario.at_ Scenario.bob 500, CallCompleteGame 1 5 5 5)
   = run Scenario.practice_completed [(Scenario.at_ Scenario.alice 400, CallClaimRewards)]).
Proof.
  split.
  - apply (proj1 (completeGame_at_most_once (Scenario.at_ Scenario.alice 400)
                    Scenario.practice_completed 1 1 1 1)).
    left. vm_compute. reflexivity.
  - apply (proj2 (completeGame_at_most_once (Scenario.at_ Scenario.alice 300)
                    Scenario.practice_started 1 1000 2000 10)).
    + apply practice_started_reachable.
    + vm_compute. repeat split; discriminate.
    + vm_compute. repeat split; discriminate.
    + vm_compute. reflexivity.
    + solve_wf.
Defined.

(** C1 (as stated, refuted).  Scenario C on the concrete deployment: the
    session is a pending Practice session of the caller on a bike with
    attributes (95, 85, 70), the completion succeeds, and the ledger
    entry grows by 25.125 units (25125000000000000000 in the 18-decimal
    scale), which is not 26 units. *)
Lemma scenario_C_credit_is_not_26 :
  let w := Scenario.practice_started in
  let env := Scenario.at_ Scenario.alice 300 in
  let s := gameSessions_at 1 w in
  let bike := bikeNFTs_at (bikeTokenId s) w in
  (player s = msg_sender env /\ completed s = false /\ gameMode s = PRACTICE /\
   (speed bike, acceleration bike, handling bike) = (95, 85, 70)) /\
  exists w',
    completeGame env 1 1000 2000 10 w = Ok (tt, w') /\
    playerRewards_at (msg_sender env) w' - playerRewards_at (msg_sender env) w
    = 25125000000000000000 /\
    playerRewards_at (msg_sender env) w' - playerRewards_at (msg_sender env) w
    <> 26 * 10 ^ 18.
Proof.
  cbn zeta. split; [by vm_compute|].
  exists Scenario.practice_completed.
  split; [by vm_compute|]. split; [by vm_compute|]. by vm_compute.
Qed.

(** C1 (amended).  Completing a pending Practice session of the caller
    with score 1000, distance 2000 and 10 vehicles dodged, on a bike
    with attributes (95, 85, 70), succeeds and credits the caller's
    ledger entry with the sum of the base reward (10 units), the bike
    bonus of the contract, the score bonus (10 units), the distance bonus
    (10 units) and the dodge bonus (20 units), halved afterwards by an
    integer division in the 18-decimal scale. *)
Theorem practice_completion_credit (env : Env) (w : World) (sid : Z) :
  let s := gameSessions_at sid w in
  let bike := bikeNFTs_at (bikeTokenId s) w in
  let sender := msg_sender env in
  let credit :=
    (10 * 10 ^ 18 + bikeBonus_value bike + 10 * 10 ^ 18 + 10 * 10 ^ 18 + 20 * 10 ^ 18) / 2 in
  player s = sender ->
  completed s = false ->
  gameMode s = PRACTICE ->
  speed bike = 95 -> acceleration bike = 85 -> handling bike = 70 ->
  0 <= playerRewards_at sender w ->
  playerRewards_at sender w + credit <= MAX_UINT256 ->
  exists w',
    completeGame env sid 1000 2000 10 w = Ok (tt, w') /\
    playerRewards_at sender w' = playerRewards_at sender w + credit.
Proof.
  intros s bike sender credit Hp Hc Hm Hs Ha Hh Hold Hfit.
  assert (Htotal : reward_total env w sid 1000 2000 10 = credit).
  { unfold reward_total. fold s. rewrite Hm. fold bike.
    unfold performance_value, credit. f_equal. }
  destruct (completeGame_Ok env sid 1000 2000 10 w) as [w' Hok]; try done.
  - fold s. fold bike. unfold performance_fits, performance_value, bikeBonus_value.
    rewrite Hs, Ha, Hh. vm_compute. repeat split; discriminate.
  - fold sender. by rewrite Htotal.
  - exists w'. split; [done|].
    apply completeGame_Ok_inv in Hok as (_ & (Hr & _) & _).
    unfold playerRewards_at at 1. rewrite Hr, rd_insert_eq. fold sender. by rewrite Htotal.
Qed.

Lemma practice_completion_credit_witness :
  exists w',
    completeGame (Scenario.at_ Scenario.alice 300) 1 1000 2000 10 Scenario.practice_started
    = Ok (tt, w') /\
    playerRewards_at Scenario.alice w'
    = playerRewards_at Scenario.alice Scenario.practice_started
      + (10 * 10 ^ 18
         + bikeBonus_value
             (bikeNFTs_at (bikeTokenId (gameSessions_at 1 Scenario.practice_started))
                Scenario.practice_started)
         + 10 * 10 ^ 18 + 10 * 10 ^ 18 + 20 * 10 ^ 18) / 2.
Proof.
  apply (practice_completion_credit (Scenario.at_ Scenario.alice 300)
           Scenario.practice_started 1).
  - vm_compute. reflexivity.
  - vm_compute. reflexivity.
  - vm_compute. reflexivity.
  - vm_compute. reflexivity.
  - vm_compute. reflexivity.
  - vm_compute. reflexivity.
  - vm_compute. discriminate.
  - vm_compute. discriminate.
Defined.

(** C2. [claimRewards] with a positive ledger entry [r] and a funded
    contract moves exactly [r] reward tokens from the contract to the
    caller and leaves the caller's entry at zero, other entries
    untouched.  With a zero entry it reverts with the nothing-to-claim
    reason.  If the token transfer fails (for one, when the contract
    holds fewer than [r] tokens) the call reverts.  A reverted
    transaction leaves the storage as it was, so the zeroing done before
    the transfer does not persist and the entry is still [r]. *)
Theorem claimRewards_drains_atomically (env : Env) (w : World) :
  let sender := msg_sender env in
  let r := playerRewards_at sender w in
  let token := raceToken w in
  let this := self_address w in
  sender <> 0%N -> this <> 0%N -> sender <> this ->
  (0 < r -> r <= erc20_balanceOf token this w ->
   exists w',
     claimRewards env w = Ok (tt, w') /\
     transact w (env, CallClaimRewards) = w' /\
     playerRewards_at sender w' = 0 /\
     erc20_balanceOf token sender w' = erc20_balanceOf token sender w + r /\
     erc20_balanceOf token this w' = erc20_balanceOf token this w - r /\
     (forall p, p <> sender -> playerRewards_at p w' = playerRewards_at p w)) /\
  (r = 0 ->
   claimRewards env w = Revert (RequireFailed "No rewards to claim") /\
   transact w (env, CallClaimRewards) = w) /\
  (0 < r ->
   forall f,
     erc20_transfer token this sender r
       (set_playerRewards (<[sender := 0]> (playerRewards w)) w) = Revert f ->
     claimRewards env w = Revert f /\
     transact w (env, CallClaimRewards) = w /\
     playerRewards_at sender (transact w (env, CallClaimRewards)) = r) /\
  (0 < r -> erc20_balanceOf token this w < r ->
   claimRewards env w = Revert (CustomError "ERC20InsufficientBalance") /\
   transact w (env, CallClaimRewards) = w /\
   playerRewards_at sender (transact w (env, CallClaimRewards)) = r).
Proof.
  intros sender r token this Hs Ht Hne.
  assert (Hfail : 0 < r -> forall f,
            erc20_transfer token this sender r
              (set_playerRewards (<[sender := 0]> (playerRewards w)) w) = Revert f ->
            claimRewards env w = Revert f /\
            transact w (env, CallClaimRewards) = w /\
            playerRewards_at sender (transact w (env, CallClaimRewards)) = r).
  { intros Hpos f Hf.
    pose proof (claimRewards_transfer_fails env w f Hpos Hf) as Hrev.
    assert (transact w (env, CallClaimRewards) = w) as Hsame by (by eapply transact_Revert).
    by rewrite Hsame. }
  split; [|split; [|split]].
  - intros Hpos Hheld.
    destruct (claimRewards_Ok env w) as [w' Hok]; try done.
    exists w'. split; [done|]. split; [by apply transact_Ok|].
    apply claimRewards_Ok_inv in Hok as (_ & (Hr & _ & Hb) & (_ & _ & _ & _ & _ & _ & Htok)).
    fold sender r token this in Hr, Hb.
    unfold playerRewards_at, erc20_balanceOf in *. rewrite Hr, Hb.
    rewrite rd_insert_eq.
    split; [done|]. split.
    { rewrite rd_insert_eq, rd_insert_ne; [done|]. intros [= E]. by apply Hne. }
    split.
    { rewrite rd_insert_ne; [by rewrite rd_insert_eq|]. intros [= E]. by apply Hne. }
    intros p Hp. by rewrite rd_insert_ne.
  - intros Hzero.
    assert (claimRewards env w = Revert (RequireFailed "No rewards to claim")) as Hrev.
    { apply claimRewards_nothing. fold sender r. lia. }
    split; [done|]. by eapply transact_Revert.
  - exact Hfail.
  - intros Hpos Hlow. apply Hfail; [done|].
    by apply erc20_transfer_underfunded.
Qed.

Lemma claimRewards_drains_atomically_witness :
  (exists w',
     claimRewards (Scenario.at_ Scenario.alice 400) Scenario.practice_completed = Ok (tt, w') /\
     transact Scenario.practice_completed (Scenario.at_ Scenario.alice 400, CallClaimRewards)
     = w' /\
     playerRewards_at Scenario.alice w' = 0 /\
     erc20_balanceOf Scenario.raceTokenAddress Scenario.alice w'
     = erc20_balanceOf Scenario.raceTokenAddress Scenario.alice Scenario.practice_completed
       + playerRewards_at Scenario.alice Scenario.practice_completed /\
     erc20_balanceOf Scenario.raceTokenAddress Scenario.game w'
     = erc20_balanceOf Scenario.raceTokenAddress Scenario.game Scenario.practice_completed
       - playerRewards_at Scenario.alice Scenario.practice_completed /\
     (forall p, p <> Scenario.alice ->
        playerRewards_at p w' = playerRewards_at p Scenario.practice_completed)) /\
  (claimRewards (Scenario.at_ Scenario.bob 400) Scenario.practice_completed
   = Revert (RequireFailed "No rewards to claim") /\
   transact Scenario.practice_completed (Scenario.at_ Scenario.bob 400, CallClaimRewards)
   = Scenario.practice_completed) /\
  (claimRewards (Scenario.at_ Scenario.alice 400) Scenario.unfunded_completed
   = Revert (CustomError "ERC20InsufficientBalance") /\
   transact Scenario.unfunded_completed (Scenario.at_ Scenario.alice 400, CallClaimRewards)
   = Scenario.unfunded_completed /\
   playerRewards_at Scenario.alice
     (transact Scenario.unfunded_completed (Scenario.at_ Scenario.alice 400, CallClaimRewards))
   = playerRewards_at Scenario.alice Scenario.unfunded_completed).
Proof.
  split; [|split].
  - apply (claimRewards_drains_atomically (Scenario.at_ Scenario.alice 400)
             Scenario.practice_completed); vm_compute; first [discriminate | reflexivity].
  - apply (claimRewards_drains_atomically (Scenario.at_ Scenario.bob 400)
             Scenario.practice_completed); vm_compute; first [discriminate | reflexivity].
  - apply (claimRewards_drains_atomically (Scenario.at_ Scenario.alice 400)
             Scenario.unfunded_completed); vm_compute; first [discriminate | reflexivity].
Defined.

(** C4. After deployment and any sequence of well-formed transactions,
    the sum of all ledger entries plus the amounts paid out by claims
    (the [RewardsClaimed] events) equals the rewards computed by
    completions (the [GameCompleted] events), and every entry is a
    [uint256] value, never negative.  A credit transfer succeeds only
    when the amount is at most the sender's entry, the receiver is not
    the sender and is not null; it debits the sender and credits the
    receiver by that amount, touches no other entry and keeps the sum;
    under those conditions it succeeds unless the receiver's entry
    would overflow. *)
Theorem ledger_conservation
    (this _usdc _raceToken : address) (env0 : Env)
    (balances : gmap (address * address) Z)
    (allowances : gmap (address * address * address) Z)
    (txs : list (Env * Call)) :
  is_uint256 (block_timestamp env0) ->
  well_formed_txs (deployed this _usdc _raceToken env0 balances allowances) txs ->
  let w := run (deployed this _usdc _raceToken env0 balances allowances) txs in
  ledger_total (playerRewards w) + claimed_total (events w) = computed_total (events w) /\
  (forall p, 0 <= playerRewards_at p w <= MAX_UINT256) /\
  (forall env _to _amount,
     let sender := msg_sender env in
     (forall w',
        transferTokensToPlayer env _to _amount w = Ok (tt, w') ->
        _amount <= playerRewards_at sender w /\ _to <> sender /\ _to <> 0%N /\
        playerRewards_at sender w' = playerRewards_at sender w - _amount /\
        playerRewards_at _to w' = playerRewards_at _to w + _amount /\
        (forall p, p <> sender -> p <> _to -> playerRewards_at p w' = playerRewards_at p w) /\
        ledger_total (playerRewards w') = ledger_total (playerRewards w)) /\
     (_amount <= playerRewards_at sender w ->
      _to <> sender ->
      _to <> 0%N ->
      playerRewards_at _to w + _amount <= MAX_UINT256 ->
      exists w', transferTokensToPlayer env _to _amount w = Ok (tt, w'))).
Proof.
  intros Hts Hwf w.
  assert (Hreach : reachable w).
  { apply reachable_run; [by apply reachable_deployed | done]. }
  destruct (reachable_invariants w Hreach) as (_ & (Hrange & _) & Hcons & _).
  split; [exact Hcons|]. split; [exact Hrange|].
  intros env _to _amount sender. split.
  - intros w' Hok.
    apply transferTokensToPlayer_Ok_inv in Hok as ((Hle & Hne & Hnz & _) & (Hr & _) & _).
    fold sender in Hle, Hne, Hr.
    repeat split; try done; unfold playerRewards_at in *; rewrite Hr.
    + by rewrite rd_insert_ne, rd_insert_eq.
    + by rewrite rd_insert_eq.
    + intros p Hp1 Hp2. by rewrite !rd_insert_ne.
    + rewrite !ledger_total_insert, rd_insert_ne by done. lia.
  - intros Hle Hne Hnz Hfit. by apply transferTokensToPlayer_Ok.
Qed.

Lemma ledger_conservation_witness :
  let w :=
    run (deployed Scenario.game Scenario.usdcToken Scenario.raceTokenAddress
           (Scenario.at_ Scenario.operator 0)
           (<[(Scenario.usdcToken, Scenario.alice) := 20 * 10 ^ 6]>
              (<[(Scenario.raceTokenAddress, Scenario.game) := 1000 * 10 ^ 18]> ∅))
           (<[(Scenario.usdcToken, Scenario.alice, Scenario.game) := 20 * 10 ^ 6]> ∅))
        (Scenario.practice_txs
           ++ [(Scenario.at_ Scenario.alice 300, CallCompleteGame 1 1000 2000 10);
               (Scenario.at_ Scenario.alice 400,
                 CallTransferTokensToPlayer Scenario.bob (5 * 10 ^ 18));
               (Scenario.at_ Scenario.bob 500, CallClaimRewards)]) in
  ledger_total (playerRewards w) + claimed_total (events w) = computed_total (events w) /\
  (forall p, 0 <= playerRewards_at p w <= MAX_UINT256) /\
  (forall env _to _amount,
     let sender := msg_sender env in
     (forall w',
        transferTokensToPlayer env _to _amount w = Ok (tt, w') ->
        _amount <= playerRewards_at sender w /\ _to <> sender /\ _to <> 0%N /\
        playerRewards_at sender w' = playerRewards_at sender w - _amount /\
        playerRewards_at _to w' = playerRewards_at _to w + _amount /\
        (forall p, p <> sender -> p <> _to -> playerRewards_at p w' = playerRewards_at p w) /\
        ledger_total (playerRewards w') = ledger_total (playerRewards w)) /\
     (_amount <= playerRewards_at sender w ->
      _to <> sender ->
      _to <> 0%N ->
      playerRewards_at _to w + _amount <= MAX_UINT256 ->
      exists w', transferTokensToPlayer env _to _amount w = Ok (tt, w'))).
Proof.
  apply (ledger_conservation Scenario.game Scenario.usdcToken Scenario.raceTokenAddress
           (Scenario.at_ Scenario.operator 0)).
  - vm_compute. split; discriminate.
  - solve_wf.
Defined.

(** *** Completion marks *)

(** No call clears a daily-challenge completion mark. *)
Lemma step_mark_final (env : Env) (c : Call) (p : address) (d : Z) (w w' : World) :
  exec env c w = Ok (tt, w') ->
  completedDailyChallenges_at p d w = true ->
  completedDailyChallenges_at p d w' = true.
Proof.
  intros H Hmark. unfold completedDailyChallenges_at in *. destruct c.
  3: { apply completeGame_Ok_inv in H as (_ & (_ & _ & _ & Hc) & _). rewrite Hc.
       destruct (daily_bonus_due _ _ _ _); [|done].
       destruct (decide ((msg_sender env, getCurrentDay env) = (p, d))) as [->|Hne].
       - by rewrite rd_insert_eq.
       - by rewrite rd_insert_ne. }
  3: { apply claimRewards_Ok_inv in H as (_ & _ & (_ & _ & _ & _ & _ & Hc & _)).
       by rewrite Hc. }
  3: { apply transferTokensToPlayer_Ok_inv in H as (_ & _ & (_ & _ & _ & _ & _ & Hc)).
       by rewrite Hc. }
  all: eapply quiet_call_frame in H as (_ & _ & Hc & _); [|done]; by rewrite Hc.
Qed.

Lemma startGame_daily_marked (env : Env) (b : Z) (w : World) :
  completedDailyChallenges_at (msg_sender env) (getCurrentDay env) w = true ->
  exists f, startGame env b DAILY_CHALLENGE w = Revert f.
Proof.
  intros Hmark. destruct (startGame env b DAILY_CHALLENGE w) as [[sid w']|f] eqn:E; [|eauto].
  apply startGame_Ok_inv in E as (_ & _ & _ & _ & Hd).
  destruct (Hd eq_refl) as [_ Hfree]. congruence.
Qed.

(** C5. After deployment and any sequence of well-formed transactions,
    the daily bonus has been granted at most once for every player and
    day, and a marked player cannot start a Daily Challenge session that
    day.  A completion of a Daily Challenge session grants the bonus
    exactly when the score reaches the target of the current day and
    the caller is not yet marked for that day; the grant sets the mark
    in the same call and adds the day's reward to the amount credited;
    otherwise marks and bonus count stay as they were.  No transaction
    clears a mark, so a later qualifying completion that day earns no
    second bonus. *)
Theorem daily_bonus_single_grant
    (this _usdc _raceToken : address) (env0 : Env)
    (balances : gmap (address * address) Z)
    (allowances : gmap (address * address * address) Z)
    (txs : list (Env * Call)) :
  is_uint256 (block_timestamp env0) ->
  well_formed_txs (deployed this _usdc _raceToken env0 balances allowances) txs ->
  let w := run (deployed this _usdc _raceToken env0 balances allowances) txs in
  (forall p d, (daily_grants p d (events w) <= 1)%nat) /\
  (forall env sid sc dist v w',
     completeGame env sid sc dist v w = Ok (tt, w') ->
     gameMode (gameSessions_at sid w) = DAILY_CHALLENGE ->
     let sender := msg_sender env in
     let today := getCurrentDay env in
     let challenge := dailyChallenges_at today w in
     let perf := performance_value (bikeNFTs_at (bikeTokenId (gameSessions_at sid w)) w)
                   sc dist v in
     if (targetScore challenge <=? sc) && negb (completedDailyChallenges_at sender today w)
     then
       completedDailyChallenges_at sender today w' = true /\
       playerRewards_at sender w' = playerRewards_at sender w + (perf + rewardAmount challenge) /\
       daily_grants sender today (events w') = 1%nat
     else
       completedDailyChallenges w' = completedDailyChallenges w /\
       playerRewards_at sender w' = playerRewards_at sender w + perf /\
       daily_grants sender today (events w') = daily_grants sender today (events w)) /\
  (forall env b,
     completedDailyChallenges_at (msg_sender env) (getCurrentDay env) w = true ->
     exists f, startGame env b DAILY_CHALLENGE w = Revert f) /\
  (forall tx p d,
     completedDailyChallenges_at p d w = true ->
     completedDailyChallenges_at p d (transact w tx) = true).
Proof.
  intros Hts Hwf w.
  assert (Hreach : reachable w).
  { apply reachable_run; [by apply reachable_deployed | done]. }
  destruct (reachable_invariants w Hreach) as (_ & _ & _ & Hgrant).
  split; [intros p d; apply Hgrant|]. split; [|split].
  - intros env sid sc dist v w' Hok Hmode sender today challenge perf.
    apply completeGame_Ok_inv in Hok as (_ & (Hr & _ & He & Hc) & _).
    unfold daily_bonus_due, reward_total, daily_bonus_due in *. rewrite Hmode in *.
    fold sender today challenge perf in Hr, He, Hc.
    unfold playerRewards_at at 1 3. rewrite Hr, rd_insert_eq.
    unfold completedDailyChallenges_at at 2. rewrite Hc, He.
    destruct (targetScore challenge <=? sc); cbn [andb]; [|done].
    destruct (completedDailyChallenges_at sender today w) eqn:Emark; cbn [negb]; [done|].
    rewrite rd_insert_eq. split; [done|]. split; [done|].
    cbn [app daily_grants]. rewrite N.eqb_refl, Z.eqb_refl. cbn [andb].
    destruct (Hgrant sender today) as [Hle Hmark].
    destruct (daily_grants sender today (events w)) as [|[|n]]; [done| |lia].
    rewrite Hmark in Emark by done. discriminate.
  - intros env b. apply startGame_daily_marked.
  - intros [env c] p d Hmark. unfold transact. cbn [fst snd].
    destruct (exec env c w) as [[[] w']|f] eqn:E; [|done].
    by eapply step_mark_final.
Qed.

Lemma daily_bonus_single_grant_witness :
  let w :=
    run (deployed Scenario.game Scenario.usdcToken Scenario.raceTokenAddress
           (Scenario.at_ Scenario.operator 0)
           (<[(Scenario.usdcToken, Scenario.alice) := 20 * 10 ^ 6]>
              (<[(Scenario.raceTokenAddress, Scenario.game) := 1000 * 10 ^ 18]> ∅))
           (<[(Scenario.usdcToken, Scenario.alice, Scenario.game) := 20 * 10 ^ 6]> ∅))
        (Scenario.daily_txs
           ++ [(Scenario.at_ Scenario.alice 300, CallCompleteGame 1 600 0 0);
               (Scenario.at_ Scenario.alice 400, CallCompleteGame 2 700 0 0)]) in
  (daily_grants Scenario.alice 19675 (events w) <= 1)%nat /\
  (exists f, startGame (Scenario.at_ Scenario.alice 500) 0 DAILY_CHALLENGE w = Revert f) /\
  completedDailyChallenges_at Scenario.alice 19675
    (transact w (Scenario.at_ Scenario.bob 86400, CallUpdateDailyChallenge)) = true.
Proof.
  cbn zeta.
  destruct (daily_bonus_single_grant Scenario.game Scenario.usdcToken
              Scenario.raceTokenAddress (Scenario.at_ Scenario.operator 0)
              (<[(Scenario.usdcToken, Scenario.alice) := 20 * 10 ^ 6]>
                 (<[(Scenario.raceTokenAddress, Scenario.game) := 1000 * 10 ^ 18]> ∅))
              (<[(Scenario.usdcToken, Scenario.alice, Scenario.game) := 20 * 10 ^ 6]> ∅)
              (Scenario.daily_txs
                 ++ [(Scenario.at_ Scenario.alice 300, CallCompleteGame 1 600 0 0);
                     (Scenario.at_ Scenario.alice 400, CallCompleteGame 2 700 0 0)]))
    as (Hgrants & _ & Hstart & Hmark).
  - vm_compute. split; discriminate.
  - solve_wf.
  - split; [apply Hgrants|]. split.
    + apply Hstart. vm_compute. reflexivity.
    + apply Hmark. vm_compute. reflexivity.
Defined.

(** Two qualifying Daily Challenge completions by the same player on the
    same day: the first carries the bonus, the second does not. *)
Example two_qualifying_completions :
  let w1 := run Scenario.daily_started [(Scenario.at_ Scenario.alice 300, CallCompleteGame 1 600 0 0)] in
  let w2 := run w1 [(Scenario.at_ Scenario.alice 400, CallCompleteGame 2 700 0 0)] in
  targetScore (dailyChallenges_at 19675 Scenario.daily_started) = 500 /\
  events w2 =
    GameCompleted Scenario.alice 2 700 (17 * 10 ^ 18 + 25 * 10 ^ 16) DAILY_CHALLENGE
      :: GameCompleted Scenario.alice 1 600 (66 * 10 ^ 18 + 25 * 10 ^ 16) DAILY_CHALLENGE
      :: DailyChallengeCompleted Scenario.alice 19675 600 (50 * 10 ^ 18)
      :: events Scenario.daily_started /\
  daily_grants Scenario.alice 19675 (events w2) = 1%nat.
Proof. by vm_compute. Qed.

(** C10. A Daily Challenge session started on day [d] and completed on
    day [d + 1] is judged against day [d + 1]: the score is compared
    with the target of the challenge stored for day [d + 1], a grant
    marks the caller for day [d + 1] and adds that day's reward, and no
    mark of day [d] changes. *)
Theorem daily_bonus_uses_completion_day
    (env : Env) (w w' : World) (sid sc dist v d : Z) :
  let s := gameSessions_at sid w in
  let sender := msg_sender env in
  gameMode s = DAILY_CHALLENGE ->
  timestamp s / 86400 = d ->
  getCurrentDay env = d + 1 ->
  completeGame env sid sc dist v w = Ok (tt, w') ->
  let perf := performance_value (bikeNFTs_at (bikeTokenId s) w) sc dist v in
  let next := dailyChallenges_at (d + 1) w in
  (forall p, completedDailyChallenges_at p d w' = completedDailyChallenges_at p d w) /\
  if (targetScore next <=? sc) && negb (completedDailyChallenges_at sender (d + 1) w)
  then
    completedDailyChallenges_at sender (d + 1) w' = true /\
    playerRewards_at sender w' = playerRewards_at sender w + (perf + rewardAmount next) /\
    events w' =
      GameCompleted sender sid sc (perf + rewardAmount next) DAILY_CHALLENGE
        :: DailyChallengeCompleted sender (d + 1) sc (rewardAmount next) :: events w
  else
    completedDailyChallenges w' = completedDailyChallenges w /\
    playerRewards_at sender w' = playerRewards_at sender w + perf /\
    events w' = GameCompleted sender sid sc perf DAILY_CHALLENGE :: events w.
Proof.
  intros s sender Hmode Hstart Hday Hok perf next.
  apply completeGame_Ok_inv in Hok as (_ & (Hr & _ & He & Hc) & _).
  unfold daily_bonus_due, reward_total, daily_bonus_due in *.
  fold s in Hr, He, Hc. rewrite Hmode, Hday in *.
  fold sender perf next in Hr, He, Hc.
  unfold playerRewards_at at 1 3. rewrite Hr, rd_insert_eq. rewrite He.
  unfold completedDailyChallenges_at at 1 2 4. rewrite Hc.
  destruct ((targetScore next <=? sc) && negb (completedDailyChallenges_at sender (d + 1) w)).
  - split; [|by rewrite rd_insert_eq].
    intros p. rewrite rd_insert_ne; [done|]. intros [= _ E]. lia.
  - done.
Qed.

Lemma daily_bonus_uses_completion_day_witness :
  let w := Scenario.next_day in
  let w' := run w [(Scenario.at_ Scenario.alice 86500, CallCompleteGame 1 950 0 0)] in
  (forall p, completedDailyChallenges_at p 19675 w' = completedDailyChallenges_at p 19675 w) /\
  completedDailyChallenges_at Scenario.alice 19676 w' = true /\
  playerRewards_at Scenario.alice w'
  = playerRewards_at Scenario.alice w
    + (performance_value (bikeNFTs_at (bikeTokenId (gameSessions_at 1 w)) w) 950 0 0
       + rewardAmount (dailyChallenges_at 19676 w)) /\
  events w' =
    GameCompleted Scenario.alice 1 950
      (performance_value (bikeNFTs_at (bikeTokenId (gameSessions_at 1 w)) w) 950 0 0
       + rewardAmount (dailyChallenges_at 19676 w)) DAILY_CHALLENGE
      :: DailyChallengeCompleted Scenario.alice 19676 950
           (rewardAmount (dailyChallenges_at 19676 w))
      :: events w.
Proof.
  cbn zeta.
  pose proof (daily_bonus_uses_completion_day (Scenario.at_ Scenario.alice 86500)
                Scenario.next_day
                (run Scenario.next_day
                   [(Scenario.at_ Scenario.alice 86500, CallCompleteGame 1 950 0 0)])
                1 950 0 0 19675) as H.
  cbn zeta in H.
  assert (E : (targetScore (dailyChallenges_at (19675 + 1) Scenario.next_day) <=? 950)
              && negb (completedDailyChallenges_at
                         (msg_sender (Scenario.at_ Scenario.alice 86500)) (19675 + 1)
                         Scenario.next_day) = true) by (vm_compute; reflexivity).
  rewrite E in H.
  apply H; vm_compute; reflexivity.
Defined.

(** The same session completed on day [d + 1] with a score that reaches
    the target of day [d] (500) but not that of day [d + 1] (900) earns
    no bonus. *)
Example start_day_target_is_not_used :
  let w := Scenario.next_day in
  let w' := run w [(Scenario.at_ Scenario.alice 86500, CallCompleteGame 1 600 0 0)] in
  timestamp (gameSessions_at 1 w) / 86400 = 19675 /\
  targetScore (dailyChallenges_at 19675 w) = 500 /\
  targetScore (dailyChallenges_at 19676 w) = 900 /\
  events w' =
    GameCompleted Scenario.alice 1 600 (16 * 10 ^ 18 + 25 * 10 ^ 16) DAILY_CHALLENGE :: events w /\
  completedDailyChallenges w' = completedDailyChallenges w.
Proof. by vm_compute. Qed.

(** *** Minting *)

Lemma mintBike_Ok_inv (env : Env) (ty : BikeType) (nm : string) (id : Z) (w w' : World) :
  mintBike env ty nm w = Ok (id, w') ->
  id = _tokenIdCounter w /\ _ownerOf id w' = msg_sender env.
Proof.
  intros H. unfold mintBike in H. unfold_writes.
  minv H; subst. unfold_at. wsimpl. by rewrite rd_insert_eq.
Qed.

Lemma deployed_tokenIdCounter this u r env b a :
  _tokenIdCounter (deployed this u r env b a) = 0.
Proof.
  unfold deployed. destruct (constructor env _) as [[[] w]|f] eqn:E; [|done].
  unfold constructor in E. minv E; by subst.
Qed.

End ContractProps.

(** ** Properties of the client *)

Module ClientProps.

Import Client.

(** *** The enumeration of owned bikes *)

Section Enumeration.

Variable oracle : Oracle.
Variable service : Service.

Lemma scan_returns (me : string) (count : nat) (tokenId : Z) (tokenIds : list Z) (t : Trace) :
  exists ids t',
    scan oracle me count tokenId tokenIds t = (Return ids, t') /\
    (forall x, x ∈ ids -> x ∈ tokenIds \/ tokenId <= x < tokenId + Z.of_nat count) /\
    submitted t' = submitted t /\ slept t' = slept t /\ ui t' = ui t.
Proof.
  revert tokenId tokenIds t. induction count as [|count IH]; intros tokenId tokenIds t.
  - exists tokenIds, t. cbn. repeat split; auto.
  - cbn [scan]. unfold bind at 1, try_catch, bind, request, ret.
    destruct (read_ownerOf oracle (requests t) tokenId) as [owner|e]; cbn.
    + destruct (String.eqb _ _).
      * destruct (IH (tokenId + 1) (tokenIds ++ [tokenId])
                    (mkTrace (S (requests t)) (submitted t) (slept t) (ui t)))
          as (ids & t' & -> & Hin & Hs & Hp & Hu).
        exists ids, t'. repeat split; try done.
        intros x Hx. destruct (Hin x Hx) as [[Hacc|Hnew%list_elem_of_singleton]%elem_of_app|Hr];
          [by left | right; lia | right; lia].
      * destruct (IH (tokenId + 1) tokenIds
                    (mkTrace (S (requests t)) (submitted t) (slept t) (ui t)))
          as (ids & t' & -> & Hin & Hs & Hp & Hu).
        exists ids, t'. repeat split; try done.
        intros x Hx. destruct (Hin x Hx) as [Hacc|Hr]; [by left | right; lia].
    + destruct (IH (tokenId + 1) tokenIds
                  (mkTrace (S (requests t)) (submitted t) (slept t) (ui t)))
        as (ids & t' & -> & Hin & Hs & Hp & Hu).
      exists ids, t'. repeat split; try done.
      intros x Hx. destruct (Hin x Hx) as [Hacc|Hr]; [by left | right; lia].
Qed.

(** The fallback adds no identifier below 1. *)
Lemma fallback_returns (me : string) (tokenIds : list Z) (t : Trace) :
  exists ids t',
    fallback oracle me tokenIds t = (Return ids, t') /\
    (forall x, x ∈ ids -> x ∈ tokenIds \/ 1 <= x) /\
    submitted t' = submitted t /\ slept t' = slept t /\ ui t' = ui t.
Proof.
  unfold fallback, try_catch, bind, request.
  destruct (read_totalSupply oracle (requests t)) as [supply|e]; cbn.
  - destruct (scan_returns me (Z.to_nat supply) 1 tokenIds
                (mkTrace (S (requests t)) (submitted t) (slept t) (ui t)))
      as (ids & t' & -> & Hin & Hs & Hp & Hu).
    exists ids, t'. repeat split; try done.
    intros x Hx. destruct (Hin x Hx) as [Hacc|Hr]; [by left | right; lia].
  - eexists [], _. repeat split; try done. intros x Hx. by apply elem_of_nil in Hx.
Qed.

Lemma enumerate_returns (me : string) (count : nat) (i : Z) (tokenIds : list Z) (t : Trace) :
  exists r t',
    enumerate oracle me count i tokenIds t = (Return r, t') /\
    submitted t' = submitted t /\ slept t' = slept t /\ ui t' = ui t.
Proof.
  revert i tokenIds t. induction count as [|count IH]; intros i tokenIds t.
  - by exists (tokenIds, true), t.
  - cbn [enumerate]. unfold bind at 1, try_catch, bind, request, ret.
    destruct (read_tokenOfOwnerByIndex oracle (requests t) me i) as [tokenId|e]; cbn.
    + destruct (IH (i + 1) (tokenIds ++ [tokenId])
                  (mkTrace (S (requests t)) (submitted t) (slept t) (ui t)))
        as (r & t' & -> & Hs & Hp & Hu).
      by exists r, t'.
    + by eexists (tokenIds, false), _.
Qed.

(** Without the index the enumerable loop stops at once, empty-handed. *)
Lemma enumerate_no_index (me : string) (count : nat) (t : Trace) :
  (forall n i, exists e, read_tokenOfOwnerByIndex oracle n me i = Threw e) ->
  count <> 0%nat ->
  enumerate oracle me count 0 [] t
  = (Return ([], false), mkTrace (S (requests t)) (submitted t) (slept t) (ui t)).
Proof.
  intros Hno Hcount. destruct count as [|count]; [done|].
  cbn [enumerate]. unfold bind at 1, try_catch, bind, request, ret.
  destruct (Hno (requests t) 0) as [e ->]. done.
Qed.

(** [getPlayerBikes] never throws, submits nothing and does not pause. *)
Lemma getPlayerBikes_returns (t : Trace) :
  exists ids t',
    getPlayerBikes oracle service t = (Return ids, t') /\
    submitted t' = submitted t /\ slept t' = slept t /\ ui t' = ui t.
Proof.
  unfold getPlayerBikes, try_catch.
  destruct (circleSmartAccount service) as [me|]; [|by eexists [], _].
  unfold bind at 1, request.
  destruct (read_balanceOf oracle (requests t) me) as [balance|e]; [|by eexists [], _].
  destruct (balance =? 0); [by eexists [], _|].
  unfold bind.
  destruct (enumerate_returns me (Z.to_nat balance) 0 []
              (mkTrace (S (requests t)) (submitted t) (slept t) (ui t)))
    as ([ids ok] & t1 & -> & Hs & Hp & Hu).
  cbn [fst snd]. destruct ok.
  - by exists ids, t1.
  - destruct (fallback_returns me ids t1) as (ids' & t2 & -> & _ & Hs' & Hp' & Hu').
    exists ids', t2. cbn in *. repeat split; congruence.
Qed.

Lemma collectTypes_returns (tokenIds : list Z) (ownedTypes : gset Z) (t : Trace) :
  exists s t',
    collectTypes oracle tokenIds ownedTypes t = (Return s, t') /\
    submitted t' = submitted t /\ slept t' = slept t /\ ui t' = ui t.
Proof.
  revert ownedTypes t. induction tokenIds as [|tokenId rest IH]; intros ownedTypes t.
  - by exists ownedTypes, t.
  - cbn [collectTypes]. unfold bind at 1, try_catch, bind, request, ret.
    destruct (read_getBikeNFT oracle (requests t) tokenId) as [bikeType|e]; cbn.
    + destruct (IH (ownedTypes ∪ {[bikeType]})
                  (mkTrace (S (requests t)) (submitted t) (slept t) (ui t)))
        as (s & t' & -> & ?). by exists s, t'.
    + destruct (IH ownedTypes (mkTrace (S (requests t)) (submitted t) (slept t) (ui t)))
        as (s & t' & -> & ?). by exists s, t'.
Qed.

(** A first attempt whose enumeration is empty ends with the empty set,
    in the trace the enumeration left. *)
Lemma attempt_empty (me : string) (t t1 : Trace) :
  circleSmartAccount service = Some me ->
  getPlayerBikes oracle service t = (Return [], t1) ->
  attempt oracle service 0 t = (Return ∅, t1).
Proof.
  intros Hme Hbikes. unfold attempt. rewrite Hme. unfold bind. by rewrite Hbikes.
Qed.

(** The retry loop, for any body: at most three attempts; an attempt
    that returns ends the loop with its result; a failed attempt is
    followed by a pause of 1000 ms and the next attempt, and after the
    third failure the empty set is returned. *)
Lemma retry_policy (body : nat -> Async (gset Z)) (t : Trace) :
  retry body maxRetries t =
  match body 0%nat t with
  | (Return s, t1) => (Return s, t1)
  | (Throw _, t1) =>
      match body 1%nat (sleep 1000 t1).2 with
      | (Return s, t2) => (Return s, t2)
      | (Throw _, t2) =>
          match body 2%nat (sleep 1000 t2).2 with
          | (Return s, t3) => (Return s, t3)
          | (Throw _, t3) => (Return ∅, t3)
          end
      end
  end.
Proof.
  unfold maxRetries. cbn [retry Nat.sub Nat.leb]. unfold try_catch, bind, sleep, ret. cbn.
  destruct (body 0%nat t) as [[s|e] t1]; [done|].
  destruct (body 1%nat _) as [[s|e1] t2]; [done|].
  by destruct (body 2%nat _) as [[s|e2] t3].
Qed.

End Enumeration.

(** *** Claims about the client *)

(** C9. The contract numbers bikes from 0: the token counter is 0 after
    deployment and a mint gives the caller the token whose identifier is
    the counter.  The client's fallback enumeration reads [ownerOf] for
    the identifiers 1 to [totalSupply] only, so it never adds
    identifier 0; when the enumerable index is unavailable the result of
    [getPlayerBikes] does not contain 0, whoever owns that token. *)
Theorem fallback_scan_misses_token_zero (oracle : Oracle) (service : Service) (me : string)
    (t : Trace) :
  (forall this u r env b a, BikeRacerGame._tokenIdCounter (BikeRacerGame.deployed this u r env b a) = 0) /\
  (forall env ty nm w id w',
     BikeRacerGame.mintBike env ty nm w = Ok (id, w') ->
     id = BikeRacerGame._tokenIdCounter w /\
     BikeRacerGame._ownerOf id w' = BikeRacerGame.msg_sender env) /\
  (forall tokenIds,
     0 ∉ tokenIds ->
     exists ids t', fallback oracle me tokenIds t = (Return ids, t') /\ 0 ∉ ids) /\
  (circleSmartAccount service = Some me ->
   (forall n i, exists e, read_tokenOfOwnerByIndex oracle n me i = Threw e) ->
   exists ids t', getPlayerBikes oracle service t = (Return ids, t') /\ 0 ∉ ids).
Proof.
  split; [|split; [|split]].
  - intros. apply ContractProps.deployed_tokenIdCounter.
  - intros env ty nm w id w' Hmint. by apply ContractProps.mintBike_Ok_inv in Hmint.
  - intros tokenIds Hfresh.
    destruct (fallback_returns oracle me tokenIds t) as (ids & t' & Hf & Hin & _).
    exists ids, t'. split; [done|]. intros H0. destruct (Hin 0 H0) as [?|?]; [done | lia].
  - intros Hme Hno. unfold getPlayerBikes, try_catch. rewrite Hme.
    unfold bind at 1, request.
    destruct (read_balanceOf oracle (requests t) me) as [balance|e];
      [|eexists [], _; split; [done | apply not_elem_of_nil]].
    destruct (balance =? 0) eqn:Ez;
      [eexists [], _; split; [done | apply not_elem_of_nil]|].
    unfold bind.
    destruct (Z.to_nat balance) as [|count] eqn:Ecount.
    + cbn. eexists [], _. split; [done | apply not_elem_of_nil].
    + rewrite enumerate_no_index by done. cbn [fst snd requests submitted slept ui].
      destruct (fallback_returns oracle me []
                  (mkTrace (S (S (requests t))) (submitted t) (slept t) (ui t)))
        as (ids & t' & -> & Hin & _).
      exists ids, t'. split; [done|]. intros H0.
      destruct (Hin 0 H0) as [Hnil|?]; [by apply elem_of_nil in Hnil | lia].
Qed.

Lemma fallback_scan_misses_token_zero_witness :
  read_ownerOf ClientScenario.no_index 3 0 = Returned (toLowerCase ClientScenario.me) /\
  exists ids t',
    getPlayerBikes ClientScenario.no_index ClientScenario.connected Client.start
    = (Return ids, t') /\ 0 ∉ ids.
Proof.
  split; [reflexivity|].
  apply (fallback_scan_misses_token_zero ClientScenario.no_index ClientScenario.connected
           ClientScenario.me Client.start).
  - reflexivity.
  - intros n i. exists "execution reverted"%string. reflexivity.
Defined.

(** On the chain without the index, where [me] owns token 0, the
    enumeration comes back empty. *)
Example token_zero_is_lost :
  run (getPlayerBikes ClientScenario.no_index ClientScenario.connected)
  = (Return [], mkTrace 4 [] [] []).
Proof. reflexivity. Qed.

(** C8 (as stated, refuted).  Right after a mint the first enumeration
    is empty; [getOwnedBikeTypesReliable] reports the empty set after
    that single enumeration (one chain read) and without any pause,
    although a second enumeration would have found the bike. *)
Lemma empty_enumeration_is_not_retried :
  run (getPlayerBikes ClientScenario.lagging ClientScenario.connected)
  = (Return [], mkTrace 1 [] [] []) /\
  run (getOwnedBikeTypesReliable ClientScenario.lagging ClientScenario.connected)
  = (Return ∅, mkTrace 1 [] [] []) /\
  getPlayerBikes ClientScenario.lagging ClientScenario.connected (mkTrace 1 [] [] [])
  = (Return [0], mkTrace 3 [] [] []).
Proof. by vm_compute. Qed.

(** C8 (amended).  [getOwnedBikeTypesReliable] runs its attempt in a
    loop of at most three attempts.  An attempt that returns ends the
    call with its result; one whose enumeration is empty returns the
    empty set, so an empty result is reported at once, without retry or
    pause.  Only an attempt that throws is followed by a pause of
    1000 ms and another attempt, and after the third failed attempt the
    empty set is reported.  An attempt after the first pauses 2000 ms
    between its enumeration and the reading of the categories. *)
Theorem owned_types_retry_policy (oracle : Oracle) (service : Service)
    (body : nat -> Async (gset Z)) (t : Trace) :
  getOwnedBikeTypesReliable oracle service = retry (attempt oracle service) maxRetries /\
  retry body maxRetries t =
    match body 0%nat t with
    | (Return s, t1) => (Return s, t1)
    | (Throw _, t1) =>
        match body 1%nat (sleep 1000 t1).2 with
        | (Return s, t2) => (Return s, t2)
        | (Throw _, t2) =>
            match body 2%nat (sleep 1000 t2).2 with
            | (Return s, t3) => (Return s, t3)
            | (Throw _, t3) => (Return ∅, t3)
            end
        end
    end /\
  (forall me t1,
     circleSmartAccount service = Some me ->
     getPlayerBikes oracle service t = (Return [], t1) ->
     getOwnedBikeTypesReliable oracle service t = (Return ∅, t1)) /\
  (forall me retryCount tokenIds t1,
     circleSmartAccount service = Some me ->
     (0 < retryCount)%nat ->
     getPlayerBikes oracle service t = (Return tokenIds, t1) ->
     attempt oracle service retryCount t
     = collectTypes oracle tokenIds ∅ (sleep 2000 t1).2).
Proof.
  split; [done|]. split; [apply retry_policy|]. split.
  - intros me t1 Hme Hbikes. unfold getOwnedBikeTypesReliable.
    rewrite retry_policy. by rewrite (attempt_empty oracle service me t t1).
  - intros me retryCount tokenIds t1 Hme Hpos Hbikes. unfold attempt. rewrite Hme.
    unfold bind at 1. rewrite Hbikes.
    apply Nat.ltb_lt in Hpos as ->. reflexivity.
Qed.

Lemma owned_types_retry_policy_witness :
  getOwnedBikeTypesReliable ClientScenario.lagging ClientScenario.connected Client.start
  = (Return ∅, mkTrace 1 [] [] []).
Proof.
  apply (owned_types_retry_policy ClientScenario.lagging ClientScenario.connected
           ClientScenario.failing Client.start) with (me := ClientScenario.me).
  - reflexivity.
  - reflexivity.
Defined.

(** The retry budget at work on a body that always throws: three
    attempts, two pauses of 1000 ms, then the empty set. *)
Example three_failed_attempts :
  run (retry ClientScenario.failing maxRetries) = (Return ∅, mkTrace 0 [] [1000; 1000] []).
Proof. reflexivity. Qed.





(** *** The mint flow on a timeout *)

(** The message reported for a mint whose receipt did not arrive in
    time does not contain the word the provider looks for. *)
Lemma mintTimedOut_lacks_timeout : includes mintTimedOut "timeout" = false.
Proof. by vm_compute. Qed.

(** Whenever the mint was submitted and the wait for its receipt fails
    or runs out of time, the provider reports the error and schedules
    nothing; the mint operation is submitted once. *)
Lemma mint_without_receipt (oracle : Oracle) (service : Service)
    (toFixed2 : Z -> string) (me hash : string) (balance : Z)
    (bikeType : BikeType) (bikeName : string) (t : Trace) :
  let mintOp :=
    mkUserOperation
      [mkCall (usdcAddress service)
         (approve (gameContractAddress service) (getBikeMintPrice bikeType));
       mkCall (gameContractAddress service) (mintBike_ bikeType bikeName)] true in
  circleSmartAccount service = Some me ->
  bundlerClient service = true ->
  read_usdcBalanceOf oracle (requests t) me = Returned balance ->
  getBikeMintPrice bikeType <= balance ->
  sendUserOperation oracle (S (requests t)) mintOp = Returned hash ->
  (match waitForUserOperationReceipt oracle (S (S (requests t))) hash with
   | Settles ms _ => 60000 <= ms
   | _ => True
   end) ->
  Client.mintBike oracle service toFixed2 bikeType bikeName t
  = (Return (failed_result mintTimedOut (Some hash)),
     mkTrace (S (S (S (requests t)))) (submitted t ++ [mintOp]) (slept t) (ui t)) /\
  GameContext.mintBike oracle service toFixed2 true bikeType bikeName t
  = (Return tt,
     mkTrace (S (S (S (requests t)))) (submitted t ++ [mintOp]) (slept t)
       (ui t ++ [SetLoading true; SetError None; SetError (Some mintTimedOut);
                 SetLoading false])).
Proof.
  intros mintOp Hme Hb Hbal Hle Hsend Hwait.
  assert (Hservice :
            forall u,
              Client.mintBike oracle service toFixed2 bikeType bikeName
                (mkTrace (requests t) (submitted t) (slept t) u)
              = (Return (failed_result mintTimedOut (Some hash)),
                 mkTrace (S (S (S (requests t)))) (submitted t ++ [mintOp]) (slept t) u)).
  { intros u. unfold Client.mintBike, try_catch. rewrite Hme, Hb.
    unfold bind at 1, request. cbn [requests submitted slept ui]. rewrite Hbal.
    destruct (Z.ltb_spec balance (getBikeMintPrice bikeType)) as [Hlt|_]; [lia|].
    unfold bind, send, request, receipt_within_60s, ret. cbn [requests submitted slept ui].
    fold mintOp. rewrite Hsend. cbn [requests submitted slept ui].
    destruct (waitForUserOperationReceipt oracle (S (S (requests t))) hash) as [ms r|ms e|].
    - destruct (Z.ltb_spec ms 60000); [lia | done].
    - by destruct (ms <? 60000).
    - done. }
  split.
  - destruct t as [n sub sl u]. apply Hservice.
  - unfold GameContext.mintBike. cbn [negb].
    unfold bind at 1 2, update, try_finally, try_catch. cbn [requests submitted slept ui].
    unfold bind at 1. rewrite Hservice. cbn [success error failed_result].
    rewrite mintTimedOut_lacks_timeout.
    unfold bind, ret, throw, or_else, update. cbn.
    by rewrite <- !app_assoc.
Qed.

(** C7 (the code at the failing input).  The mint is submitted and its
    receipt never arrives.  The service reports a failure that carries
    the transaction hash and the timed-out message; that message does
    not contain "timeout", so the provider sets the error and schedules
    no re-check (no timer appears among its updates).  The mint
    operation was submitted once. *)
Theorem mint_timeout_schedules_no_recheck :
  let mintOp :=
    mkUserOperation
      [mkCall ClientScenario.usdc (approve ClientScenario.game 1000000);
       mkCall ClientScenario.game (mintBike_ SPORTS "Lightning Sports")] true in
  run (Client.mintBike ClientScenario.unsettled ClientScenario.connected
         ClientScenario.toFixed2 SPORTS "Lightning Sports")
  = (Return (failed_result mintTimedOut (Some "0xhash"%string)), mkTrace 3 [mintOp] [] []) /\
  includes mintTimedOut "timeout" = false /\
  run (GameContext.mintBike ClientScenario.unsettled ClientScenario.connected
         ClientScenario.toFixed2 true SPORTS "Lightning Sports")
  = (Return tt,
     mkTrace 3 [mintOp] []
       [SetLoading true; SetError None; SetError (Some mintTimedOut); SetLoading false]).
Proof.
  cbn zeta. split; [|split; [apply mintTimedOut_lacks_timeout|]].
  - apply (mint_without_receipt ClientScenario.unsettled ClientScenario.connected
             ClientScenario.toFixed2 ClientScenario.me "0xhash" 20000000 SPORTS
             "Lightning Sports" Client.start); by vm_compute.
  - apply (mint_without_receipt ClientScenario.unsettled ClientScenario.connected
             ClientScenario.toFixed2 ClientScenario.me "0xhash" 20000000 SPORTS
             "Lightning Sports" Client.start); by vm_compute.
Qed.

(** Had the message contained the word, the re-check would have been
    scheduled: an error text with "timeout" in it takes that branch. *)
Example timeout_word_is_what_schedules :
  includes receiptTimeout "timeout" = true.
Proof. by vm_compute. Qed.

End ClientProps.

Module ContractExtras.

Import BikeRacerGame ContractProps Log.

(** ** The storage against the event log *)

(** Every successful call, taken apart into the storage it leaves. *)
Ltac step_cases H c :=
  destruct c; unfold_calls H; unfold_writes; minv H; subst; wsimpl.

Lemma deployed_eq this _usdc _raceToken env balances allowances :
  is_uint256 (block_timestamp env) ->
  deployed this _usdc _raceToken env balances allowances =
    set_events
      [DailyChallengeCreated (getCurrentDay env) (500 + block_timestamp env mod 1000)
         (50 * 10 ^ 18)]
      (set_dailyChallenges
         (<[getCurrentDay env :=
              mkDailyChallenge (getCurrentDay env) (500 + block_timestamp env mod 1000)
                (50 * 10 ^ 18) true]> ∅)
         (set_currentChallengeDate (getCurrentDay env)
            (blank this _usdc _raceToken (msg_sender env) balances allowances))).
Proof. intros Hts. unfold deployed. by rewrite constructor_Ok. Qed.

(** An invariant of deployment and of every successful call holds in
    every reachable state. *)
Lemma reachable_ind_step (P : World -> Prop) :
  (forall this u r env b a,
     is_uint256 (block_timestamp env) -> P (deployed this u r env b a)) ->
  (forall w env c w',
     reachable w -> well_formed_env w env -> well_formed_call c ->
     exec env c w = Ok (tt, w') -> P w -> P w') ->
  forall w, reachable w -> P w.
Proof.
  intros Hd Hs w. induction 1 as [this u r env b a Hts | w env c Hreach IH Henv Hcall].
  - by apply Hd.
  - unfold transact. cbn [fst snd].
    destruct (exec env c w) as [[[] w']|f] eqn:E; [|done].
    by eapply Hs.
Qed.

Lemma reachable_counters_logged (w : World) : reachable w -> counters_logged w.
Proof.
  apply reachable_ind_step.
  - intros. rewrite deployed_eq by done. by cbv.
  - intros w0 env c w' _ _ _ H (Ht & Hn & Hp). unfold counters_logged.
    step_cases H c; cbn [mint_count start_count ranked_count].
    all: rewrite ?Nat2Z.inj_succ; repeat split; try lia.
    all: try (change (RANKED_ENTRY_FEE * 80 / 100) with 4000000; lia).
Qed.


Lemma reachable_indices_logged (w : World) : reachable w -> indices_logged w.
Proof.
  apply reachable_ind_step.
  - intros. rewrite deployed_eq by done. intros p. by cbv.
  - intros w0 env c w' _ _ _ H Hinv p. destruct (Hinv p) as [Hb Hs].
    destruct (Hinv (msg_sender env)) as [Hb' Hs'].
    step_cases H c; unfold_at; wsimpl; cbn [minted_by started_by].
    all: try (split; assumption).
    all: destruct (N.eqb_spec (msg_sender env) p) as [->|Hne];
      rewrite ?rd_insert_eq, ?rd_insert_ne by done.
    all: split; congruence.
Qed.

Lemma reachable_sessions_logged (w : World) : reachable w -> sessions_logged w.
Proof.
  apply reachable_ind_step.
  - intros. rewrite deployed_eq by done. intros sid. wsimpl. unfold_at. wsimpl.
    cbn [blank gameSessions nextSessionId completions_of]. rewrite rd_empty, lookup_empty. cbn.
    repeat split; try done. lia.
  - intros w0 env c w' Hreach (Hs0 & _) _ H Hinv sid. destruct (Hinv sid) as (HA & HB & HC).
    apply reachable_counters_logged in Hreach as (_ & Hnext & _).
    assert (Hpos : 1 <= nextSessionId w0) by lia. clear Hnext.
    cbn zeta in *.
    step_cases H c; unfold_at; wsimpl; cbn [completions_of].
    all: try (split; [assumption | split; assumption]).
    all: rewrite ?rd_insert_eq; cbn [completed player score rewardsClaimed gameMode].
    all: rewrite ?insert_insert_eq.
    all: match goal with
         | |- context [<[?k := _]> _ !! ?k2] =>
             destruct (Z.eqb_spec k k2) as [<-|Hne];
             [rewrite ?rd_insert_eq, ?lookup_insert_eq
             |rewrite ?rd_insert_ne, ?lookup_insert_ne by done]
         end.
    all: cbn [completed player score rewardsClaimed gameMode app completions_of].
    all: rewrite ?Z.eqb_refl.
    all: try match goal with
           | Hne : ?a <> ?b |- context [?a =? ?b] =>
               destruct (Z.eqb_spec a b) as [?|_]; [done|]
           end.
    all: try (split; [assumption | split; assumption]).
    all: try match goal with
           | |- context [nextSessionId _ + 1] =>
               split; [|split; [exact HB | exact HC]];
               rewrite HA; lia
           end.
    all: try (split; [split; [done | lia] |];
              split; [intros s [= <-]; exact Hs0 |];
              assert (Hnone : gameSessions w0 !! nextSessionId w0 = None) by (apply HA; lia);
              unfold rd in HC; rewrite Hnone in HC; exact HC).
    all: reflect_conds.
    all: cbn [player score rewardsClaimed gameMode completed].
    all: try match goal with
         | Hp : player (rd GameSession_zero (gameSessions ?w1) ?k) = msg_sender _,
           Hc : completed (rd GameSession_zero (gameSessions ?w1) ?k) = false |- _ =>
             assert (Hsome : gameSessions w1 !! k <> None)
               by (intros Hn; unfold rd in Hp; rewrite Hn in Hp; cbn in Hp; congruence);
             split; [split; [done | intros Hr; by apply HA in Hr] |];
             split; [intros s [= <-]; cbn; congruence |];
             rewrite HC, Hc, Hp
         end.
    all: done.
Qed.

Lemma rd_lookup_None `{Countable K} {V : Type} (zero : V) (m : gmap K V) (k : K) :
  m !! k = None -> rd zero m k = zero.
Proof. intros Hn. unfold rd. by rewrite Hn. Qed.

Lemma rd_lookup_Some `{Countable K} {V : Type} (zero v : V) (m : gmap K V) (k : K) :
  m !! k = Some v -> rd zero m k = v.
Proof. intros Hn. unfold rd. by rewrite Hn. Qed.

Lemma rd_nonzero `{Countable K} {V : Type} (zero : V) (m : gmap K V) (k : K) :
  rd zero m k <> zero -> m !! k <> None.
Proof. intros Hne Hn. apply Hne. by apply rd_lookup_None. Qed.

Lemma reachable_bikes_logged (w : World) : reachable w -> bikes_logged w.
Proof.
  apply reachable_ind_step.
  - intros. rewrite deployed_eq by done. intros id. unfold_at. wsimpl.
    cbn [blank nft_owners bikeNFTs _tokenIdCounter races_of]. rewrite !lookup_empty. cbn.
    repeat split; try done. lia.
  - intros w0 env c w' Hreach (Hs0 & _) _ H Hinv id.
    destruct (Hinv id) as (HO & HA & HS & HW & HR).
    apply reachable_counters_logged in Hreach as (Hcnt & _ & _).
    assert (Hpos : 0 <= _tokenIdCounter w0) by lia. clear Hcnt.
    step_cases H c; unfold_at; wsimpl; cbn [races_of].
    all: try (split; [assumption | split; [assumption | split; [assumption | split; assumption]]]).
    all: reflect_conds.
    all: match goal with
         | |- context [<[?k := _]> (bikeNFTs _) !! ?k2] =>
             destruct (Z.eqb_spec k k2) as [<-|Hne];
             [rewrite ?rd_insert_eq, ?lookup_insert_eq
             |rewrite ?rd_insert_ne, ?lookup_insert_ne by done]
         end.
    all: cbn [speed acceleration handling bikeType totalWins totalRaces].
    all: try (split; [assumption | split; [assumption | split; [assumption | split; assumption]]]).
    1: { (* a mint creates the bike of the counter *)
      assert (Hnone : bikeNFTs w0 !! _tokenIdCounter w0 = None) by (apply HA; lia).
      unfold rd in HR. rewrite Hnone in HR. cbn in HR.
      repeat split; try done; try lia. by destruct _bikeType. }
    1: { split; [intros Ho; apply HO in Ho; lia|].
      split; [rewrite HA; lia|]. by repeat split. }
    all: rewrite ?Z.eqb_refl.
    all: try match goal with
           | Hne : ?a <> ?b |- context [?a =? ?b] =>
               destruct (Z.eqb_spec a b) as [?|_]; [done|]
           end.
    all: try (split; [assumption | split; [assumption | split; [assumption | split; assumption]]]).
    all: match goal with
         | Ho : rd _ (nft_owners ?w1) ?b <> _ |- _ =>
             assert (Hown : nft_owners w1 !! b <> None);
             [by apply (rd_nonzero _ _ _ Ho)|];
             assert (Hsome : bikeNFTs w1 !! b <> None);
             [intros Hn; apply HA in Hn; apply HO in Hown; lia|]
         end.
    all: split; [assumption|].
    all: split; [split; [done | intros Hr; by apply HA in Hr]|].
    all: split; [intros _; by apply HS|].
    all: split; [assumption|].
    all: rewrite Nat2Z.inj_succ; lia.
Qed.

Lemma reachable_entries_logged (w : World) : reachable w -> entries_logged w.
Proof.
  apply reachable_ind_step.
  - intros. rewrite deployed_eq by done. intros p. by cbv.
  - intros w0 env c w' _ _ _ H Hinv p.
    pose proof (Hinv p) as Hp. pose proof (Hinv (msg_sender env)) as Hs.
    step_cases H c; unfold_at; wsimpl;
      cbn [credited_to transferred_to claimed_by]; try assumption.
    all: reflect_conds.
    all: repeat match goal with
           | |- context [rd _ (<[?k := _]> _) ?k2] =>
               destruct (N.eqb_spec k k2) as [<-|?];
               [rewrite ?rd_insert_eq | rewrite ?rd_insert_ne by done]
           end.
    all: rewrite ?N.eqb_refl.
    all: repeat match goal with
           | Hne : ?a <> ?b |- context [(?a =? ?b)%N] =>
               destruct (N.eqb_spec a b) as [?|_]; [done|]
           end.
    all: try lia.
    all: done.
Qed.

Lemma reachable_challenge_current (w : World) : reachable w -> challenge_current w.
Proof.
  apply reachable_ind_step.
  - intros this u r env b a Hts. rewrite deployed_eq by done. intros d. unfold_at. wsimpl.
    pose proof (Z.mod_pos_bound (block_timestamp env) 1000).
    destruct (Z.eqb_spec (getCurrentDay env) d) as [<-|Hne].
    + rewrite rd_insert_eq. cbn. repeat split; try done; lia.
    + rewrite rd_insert_ne, rd_empty by done. rewrite lookup_insert_ne by done. cbn.
      repeat split; try done; try congruence.
  - intros w0 env c w' _ _ _ H Hinv d.
    pose proof (Hinv d) as (HA & HT & HF).
    pose proof (Hinv (currentChallengeDate w0)) as (HA' & HT' & HF').
    step_cases H c; unfold_at; wsimpl;
      try (split; [assumption | split; assumption]).
    reflect_conds.
    pose proof (Z.mod_pos_bound (block_timestamp env) 1000).
    destruct (Z.eqb_spec (getCurrentDay env) d) as [<-|Hne].
    { rewrite rd_insert_eq. cbn. repeat split; try done; lia. }
    rewrite rd_insert_ne, !lookup_insert_ne by lia.
    destruct (Z.eqb_spec (currentChallengeDate w0) d) as [<-|Hne'].
    { rewrite rd_insert_eq. cbn. repeat split; try done; try lia. }
    rewrite rd_insert_ne, lookup_insert_ne by done.
    split; [|split; [done | intros; apply HF; lia]].
    split; [|done]. intros Ha. apply HA in Ha. congruence.
Qed.

Lemma reachable_marks_mirrored (w : World) : reachable w -> marks_mirrored w.
Proof.
  apply reachable_ind_step.
  - intros this u r env b a Hts. rewrite deployed_eq by done. intros p d.
    unfold_at. wsimpl. cbn [blank challengeCompleted completedDailyChallenges].
    rewrite !rd_empty. by split.
  - intros w0 env c w' _ _ _ H Hinv p d.
    pose proof (Hinv p d) as (HM & HE).
    step_cases H c; unfold_at; wsimpl.
    all: try (split; [assumption | intros Hm; destruct (HE Hm) as [r Hr]; exists r;
                       cbn [In]; tauto]).
    destruct (decide ((msg_sender env, getCurrentDay env) = (p, d))) as [[= <- <-]|Hne].
    + rewrite !rd_insert_eq. split; [done|]. intros _. eexists. cbn [In]. eauto.
    + rewrite !rd_insert_ne by congruence.
      split; [assumption|]. intros Hm. destruct (HE Hm) as [r Hr]. exists r.
      cbn [In]. tauto.
Qed.

(** *** The longer history is reachable *)

Lemma toured_reachable : reachable Tour.toured.
Proof. apply reachable_run; [apply genesis_reachable | solve_wf]. Qed.

(** ** Further properties of the contract *)

(** X1. In every reachable state the token counter is the number of
    mints logged, the session counter is one more than the number of
    starts logged, and the prize pool holds 4 USDC (80% of the entry
    fee) for every Ranked start logged: no call lowers any of them. *)
Theorem counters_follow_log (w : World) :
  reachable w ->
  _tokenIdCounter w = Z.of_nat (mint_count (events w)) /\
  nextSessionId w = 1 + Z.of_nat (start_count (events w)) /\
  totalPrizePool w = 4000000 * Z.of_nat (ranked_count (events w)).
Proof. intros Hr. exact (reachable_counters_logged w Hr). Qed.

Lemma counters_follow_log_witness :
  _tokenIdCounter Tour.toured = Z.of_nat (mint_count (events Tour.toured)) /\
  nextSessionId Tour.toured = 1 + Z.of_nat (start_count (events Tour.toured)) /\
  totalPrizePool Tour.toured = 4000000 * Z.of_nat (ranked_count (events Tour.toured)).
Proof. apply (counters_follow_log Tour.toured). apply toured_reachable. Defined.

(** X2. In every reachable state [getPlayerBikes] returns the tokens the
    player minted and [getPlayerSessions] the sessions the player
    started, each in the order of the log. *)
Theorem player_lists_follow_log (w : World) (p : address) :
  reachable w ->
  Views.getPlayerBikes p w = minted_by p (events w) /\
  Views.getPlayerSessions p w = started_by p (events w).
Proof. intros Hr. exact (reachable_indices_logged w Hr p). Qed.

Lemma player_lists_follow_log_witness :
  Views.getPlayerBikes Scenario.alice Tour.toured
  = minted_by Scenario.alice (events Tour.toured) /\
  Views.getPlayerSessions Scenario.alice Tour.toured
  = started_by Scenario.alice (events Tour.toured).
Proof.
  apply (player_lists_follow_log Tour.toured Scenario.alice). apply toured_reachable.
Defined.

(** X3. In every reachable state a session is stored, with a non-null
    player, exactly for the identifiers from 1 up to the session
    counter; any other identifier reads as the blank session and cannot
    be completed by anyone.  The log holds one completion of a session
    marked completed, carrying the player, score, rewards and mode of
    the record, and none of a session not so marked. *)
Theorem sessions_follow_log (w : World) (sid : Z) :
  reachable w ->
  let s := Views.getGameSession sid w in
  (1 <= sid < nextSessionId w -> gameSessions w !! sid = Some s /\ player s <> 0%N) /\
  (sid < 1 \/ nextSessionId w <= sid ->
     s = GameSession_zero /\
     forall env sc d v,
       msg_sender env <> 0%N ->
       completeGame env sid sc d v w = Revert (RequireFailed "Not your session")) /\
  completions_of sid (events w) =
    if completed s then [(player s, score s, rewardsClaimed s, gameMode s)] else [].
Proof.
  intros Hr s. destruct (reachable_sessions_logged w Hr sid) as (HA & HB & HC).
  subst s. unfold Views.getGameSession. split; [|split; [|exact HC]].
  - intros Hin.
    assert (Hsome : gameSessions w !! sid <> None) by (intros Hn; apply HA in Hn; lia).
    unfold gameSessions_at, rd.
    destruct (gameSessions w !! sid) as [s|] eqn:E; [|done]. cbn. split; [done|]. by apply HB.
  - intros Hout. apply HA in Hout.
    assert (Hz : gameSessions_at sid w = GameSession_zero) by (by apply rd_lookup_None).
    split; [done|]. intros env sc d v Hs.
    apply completeGame_not_yours. rewrite Hz. cbn. congruence.
Qed.

Lemma sessions_follow_log_witness :
  let s := Views.getGameSession 2 Tour.toured in
  (1 <= 2 < nextSessionId Tour.toured ->
     gameSessions Tour.toured !! 2 = Some s /\ player s <> 0%N) /\
  (2 < 1 \/ nextSessionId Tour.toured <= 2 ->
     s = GameSession_zero /\
     forall env sc d v,
       msg_sender env <> 0%N ->
       completeGame env 2 sc d v Tour.toured = Revert (RequireFailed "Not your session")) /\
  completions_of 2 (events Tour.toured) =
    if completed s then [(player s, score s, rewardsClaimed s, gameMode s)] else [].
Proof. apply (sessions_follow_log Tour.toured 2). apply toured_reachable. Defined.

(** X4. In every reachable state a bike is stored exactly for the token
    identifiers below the token counter, with the base attributes of its
    category, which make its reward bonus at most 0.25 units; any other
    identifier reads as the blank bike and has no owner.  No bike ever
    has a win, and the race count of a bike is the number of sessions
    started on it. *)
Theorem bikes_follow_log (w : World) (id : Z) :
  reachable w ->
  let b := Views.getBikeNFT id w in
  (0 <= id < _tokenIdCounter w ->
     (speed b, acceleration b, handling b) = getBikeBaseStats (bikeType b) /\
     bikeBonus_value b <= 25 * 10 ^ 16) /\
  (id < 0 \/ _tokenIdCounter w <= id -> b = BikeNFT_zero /\ _ownerOf id w = 0%N) /\
  totalWins b = 0 /\
  totalRaces b = Z.of_nat (races_of id (events w)).
Proof.
  intros Hr b. destruct (reachable_bikes_logged w Hr id) as (HO & HA & HS & HW & HR).
  subst b. unfold Views.getBikeNFT. split; [|split; [|by split]].
  - intros Hin. assert (Hsome : bikeNFTs w !! id <> None) by (intros Hn; apply HA in Hn; lia).
    specialize (HS Hsome). split; [done|].
    unfold bikeBonus_value. revert HS.
    destruct (bikeType (bikeNFTs_at id w)); cbn; intros [= -> -> ->]; vm_compute; discriminate.
  - intros Hout. split.
    + apply rd_lookup_None. by apply HA.
    + apply rd_lookup_None. destruct (decide (nft_owners w !! id = None)) as [E|E]; [done|].
      apply HO in E. lia.
Qed.

Lemma bikes_follow_log_witness :
  let b := Views.getBikeNFT 0 Tour.toured in
  (0 <= 0 < _tokenIdCounter Tour.toured ->
     (speed b, acceleration b, handling b) = getBikeBaseStats (bikeType b) /\
     bikeBonus_value b <= 25 * 10 ^ 16) /\
  (0 < 0 \/ _tokenIdCounter Tour.toured <= 0 ->
     b = BikeNFT_zero /\ _ownerOf 0 Tour.toured = 0%N) /\
  totalWins b = 0 /\
  totalRaces b = Z.of_nat (races_of 0 (events Tour.toured)).
Proof. apply (bikes_follow_log Tour.toured 0). apply toured_reachable. Defined.

(** X5. In every reachable state the ledger entry of a player is what
    the logged completions credited to the player, plus the credits
    received and minus the credits sent in logged transfers, minus what
    the logged claims paid out to the player. *)
Theorem ledger_entry_follows_log (w : World) (p : address) :
  reachable w ->
  Views.getPlayerRewards p w =
    credited_to p (events w) + transferred_to p (events w) - claimed_by p (events w).
Proof. intros Hr. exact (reachable_entries_logged w Hr p). Qed.

Lemma ledger_entry_follows_log_witness :
  Views.getPlayerRewards Scenario.alice Tour.toured =
    credited_to Scenario.alice (events Tour.toured)
    + transferred_to Scenario.alice (events Tour.toured)
    - claimed_by Scenario.alice (events Tour.toured).
Proof.
  apply (ledger_entry_follows_log Tour.toured Scenario.alice). apply toured_reachable.
Defined.

(** X6. In every reachable state exactly one daily challenge is active,
    the one of [currentChallengeDate]; its target lies between 500 and
    1499 and its reward is 50 units; no challenge exists for a later
    day. *)
Theorem one_active_challenge (w : World) (d : Z) :
  reachable w ->
  let c := Views.getDailyChallenge d w in
  (c.2 = true <-> d = currentChallengeDate w) /\
  (d = currentChallengeDate w -> 500 <= c.1.1 <= 1499 /\ c.1.2 = 50 * 10 ^ 18) /\
  (currentChallengeDate w < d -> c = (0, 0, false)).
Proof.
  intros Hr c. destruct (reachable_challenge_current w Hr d) as (HA & HT & HF).
  subst c. unfold Views.getDailyChallenge. cbn [fst snd].
  split; [exact HA|]. split.
  - intros Hd. destruct (HT Hd) as (? & ? & _). by split.
  - intros Hd. unfold dailyChallenges_at. by rewrite (rd_lookup_None _ _ _ (HF Hd)).
Qed.

Lemma one_active_challenge_witness :
  let c := Views.getDailyChallenge 19676 Scenario.next_day in
  (c.2 = true <-> 19676 = currentChallengeDate Scenario.next_day) /\
  (19676 = currentChallengeDate Scenario.next_day ->
     500 <= c.1.1 <= 1499 /\ c.1.2 = 50 * 10 ^ 18) /\
  (currentChallengeDate Scenario.next_day < 19676 -> c = (0, 0, false)).
Proof. apply (one_active_challenge Scenario.next_day 19676). apply next_day_reachable. Defined.

(** X7. In every reachable state the two completion mappings agree
    ([challengeCompleted] mirrors [completedDailyChallenges]), and for a
    marked player and day the stored best score is the score of a logged
    [DailyChallengeCompleted] event of that player and day. *)
Theorem completion_marks_mirrored (w : World) (p : address) (d : Z) :
  reachable w ->
  rd false (challengeCompleted w) (d, p) = Views.hasCompletedDailyChallenge p d w /\
  (Views.hasCompletedDailyChallenge p d w = true ->
     exists reward,
       In (DailyChallengeCompleted p d (rd 0 (challengeBestScores w) (d, p)) reward)
          (events w)).
Proof. intros Hr. exact (reachable_marks_mirrored w Hr p d). Qed.

Lemma completion_marks_mirrored_witness :
  rd false (challengeCompleted Tour.toured) (19675, Scenario.alice)
  = Views.hasCompletedDailyChallenge Scenario.alice 19675 Tour.toured /\
  (Views.hasCompletedDailyChallenge Scenario.alice 19675 Tour.toured = true ->
     exists reward,
       In (DailyChallengeCompleted Scenario.alice 19675
             (rd 0 (challengeBestScores Tour.toured) (19675, Scenario.alice)) reward)
          (events Tour.toured)).
Proof.
  apply (completion_marks_mirrored Tour.toured Scenario.alice 19675). apply toured_reachable.
Defined.

(** ** Token movements *)

(** What a successful [transferFrom] checked and wrote. *)
Lemma erc20_transferFrom_Ok_inv (token caller from to : address) (value : Z) (b : bool)
    (w w1 : World) :
  erc20_transferFrom token caller from to value w = Ok (b, w1) ->
  let held := erc20_balanceOf token from w in
  let allowed := erc20_allowance token from caller w in
  (from <> 0%N /\ to <> 0%N /\ value <= held /\ (allowed < MAX_UINT256 -> value <= allowed)) /\
  w1 = set_erc20_balances
         (<[(token, to) :=
              rd 0 (<[(token, from) := held - value]> (erc20_balances w)) (token, to) + value]>
            (<[(token, from) := held - value]> (erc20_balances w)))
         (set_erc20_allowances
            (if allowed <? MAX_UINT256
             then <[(token, from, caller) := allowed - value]> (erc20_allowances w)
             else erc20_allowances w) w).
Proof.
  unfold erc20_transferFrom, erc20__spendAllowance, erc20__transfer. intros H.
  apply bind_Ok_inv in H as (? & w2 & Ha & H).
  apply bind_Ok_inv in H as (? & w3 & Ht & H). apply ret_Ok_inv in H as [_ ->].
  apply bind_Ok_inv in Ha as (? & ? & Hg & Ha). apply gets_Ok_inv in Hg as [-> ->].
  unfold_at. cbn zeta.
  destruct (rd 0 (erc20_allowances w) (token, from, caller) <? MAX_UINT256) eqn:Elt.
  - bind_step Ha keep_step. apply modify_Ok_inv in Ha as ->.
    repeat bind_step Ht keep_step. apply modify_Ok_inv in Ht as ->.
    unfold_at. wsimpl. reflect_conds. repeat split; try done.
  - apply ret_Ok_inv in Ha as [_ ->].
    repeat bind_step Ht keep_step. apply modify_Ok_inv in Ht as ->.
    unfold_at. wsimpl. reflect_conds. repeat split; try done. lia.
Qed.

(** A [transferFrom] within balance and allowance succeeds. *)
Lemma erc20_transferFrom_Ok (token caller from to : address) (value : Z) (w : World) :
  from <> 0%N -> to <> 0%N ->
  value <= erc20_balanceOf token from w ->
  value <= erc20_allowance token from caller w ->
  exists w1, erc20_transferFrom token caller from to value w = Ok (true, w1).
Proof.
  intros Hf Ht Hb Ha.
  unfold erc20_transferFrom, erc20__spendAllowance, erc20__transfer. unfold_at. mrun.
  destruct (_ <? MAX_UINT256).
  - mrun. rewrite bind_ensure_true by (by apply Z.leb_le). mrun. wsimpl.
    rewrite bind_ensure_true by (by apply negb_true_iff, N.eqb_neq). mrun.
    rewrite bind_ensure_true by (by apply negb_true_iff, N.eqb_neq). mrun.
    rewrite bind_ensure_true by (by apply Z.leb_le). mrun. eauto.
  - mrun.
    rewrite bind_ensure_true by (by apply negb_true_iff, N.eqb_neq). mrun.
    rewrite bind_ensure_true by (by apply negb_true_iff, N.eqb_neq). mrun.
    rewrite bind_ensure_true by (by apply Z.leb_le). mrun. eauto.
Qed.

(** [xinv H] takes a successful run apart like [minv], keeping what the
    token calls checked and wrote. *)
Ltac xinv H :=
  lazymatch type of H with
  | bind _ _ _ = Ok _ =>
      let a := fresh "a" in
      let w := fresh "w" in
      let H1 := fresh "H" in
      apply bind_Ok_inv in H as (a & w & H1 & H);
      xinv H1; subst; wsimpl; xinv H
  | (if ?c then _ else _) _ = Ok _ =>
      let E := fresh "E" in destruct c eqn:E; xinv H
  | match ?m with PRACTICE => _ | RANKED => _ | DAILY_CHALLENGE => _ end _ = Ok _ =>
      let E := fresh "E" in destruct m eqn:E; xinv H
  | erc20_transferFrom _ _ _ _ _ _ = Ok _ =>
      let Hpay := fresh "Hpay" in
      apply erc20_transferFrom_Ok_inv in H as (Hpay & ?)
  | _ => minv H
  end.

(** ** Minting *)





(** ** Starting a session *)

(** What a successful start checked and the storage it left. *)
Lemma startGame_effects_inv (env : Env) (b : Z) (m : GameMode) (sid : Z) (w w' : World) :
  startGame env b m w = Ok (sid, w') ->
  let sender := msg_sender env in
  let this := self_address w in
  let held := erc20_balanceOf (usdc w) sender w in
  let allowed := erc20_allowance (usdc w) sender this w in
  let bike := bikeNFTs_at b w in
  (paused w = false /\ _ownerOf b w = sender /\ sender <> 0%N /\
   nextSessionId w + 1 <= MAX_UINT256 /\ totalRaces bike + 1 <= MAX_UINT256) /\
  match m with
  | PRACTICE => True
  | RANKED =>
      this <> 0%N /\ RANKED_ENTRY_FEE <= held /\
      (allowed < MAX_UINT256 -> RANKED_ENTRY_FEE <= allowed) /\
      totalPrizePool w + 4000000 <= MAX_UINT256
  | DAILY_CHALLENGE =>
      active (dailyChallenges_at (getCurrentDay env) w) = true /\
      completedDailyChallenges_at sender (getCurrentDay env) w = false
  end /\
  sid = nextSessionId w /\
  w' = set_events (GameStarted sender sid b m :: events w)
         (set_bikeNFTs
            (<[b := mkBikeNFT (bikeType bike) (speed bike) (acceleration bike) (handling bike)
                      (mintTime bike) (totalRaces bike + 1) (totalWins bike) (name bike)]>
               (bikeNFTs w))
            (set_playerSessions
               (<[sender := playerSessions_at sender w ++ [sid]]> (playerSessions w))
               (set_gameSessions
                  (<[sid := mkGameSession sender b 0 0 0 (block_timestamp env) false 0 m]>
                     (gameSessions w))
                  (set_nextSessionId (sid + 1)
                     match m with
                     | RANKED =>
                         set_totalPrizePool (totalPrizePool w + 4000000)
                           (set_erc20_balances
                              (<[(usdc w, this) :=
                                   rd 0 (<[(usdc w, sender) := held - RANKED_ENTRY_FEE]>
                                           (erc20_balances w)) (usdc w, this)
                                   + RANKED_ENTRY_FEE]>
                                 (<[(usdc w, sender) := held - RANKED_ENTRY_FEE]>
                                    (erc20_balances w)))
                              (set_erc20_allowances
                                 (if allowed <? MAX_UINT256
                                  then <[(usdc w, sender, this) := allowed - RANKED_ENTRY_FEE]>
                                         (erc20_allowances w)
                                  else erc20_allowances w) w))
                     | _ => w
                     end)))).
Proof.
  intros H. unfold startGame in H. unfold_writes. xinv H; subst.
  all: unfold_at; wsimpl; reflect_conds.
  all: try destruct Hpay as (? & ? & ? & ?).
  all: repeat split; try done; try congruence.

Qed.

(** A start that passes the checks of its mode succeeds. *)
Lemma startGame_Ok (env : Env) (b : Z) (m : GameMode) (w : World) :
  let sender := msg_sender env in
  let this := self_address w in
  paused w = false ->
  _ownerOf b w = sender ->
  sender <> 0%N ->
  nextSessionId w + 1 <= MAX_UINT256 ->
  totalRaces (bikeNFTs_at b w) + 1 <= MAX_UINT256 ->
  match m with
  | PRACTICE => True
  | RANKED =>
      this <> 0%N /\ RANKED_ENTRY_FEE <= erc20_balanceOf (usdc w) sender w /\
      RANKED_ENTRY_FEE <= erc20_allowance (usdc w) sender this w /\
      totalPrizePool w + 4000000 <= MAX_UINT256
  | DAILY_CHALLENGE =>
      active (dailyChallenges_at (getCurrentDay env) w) = true /\
      completedDailyChallenges_at sender (getCurrentDay env) w = false
  end ->
  exists w', startGame env b m w = Ok (nextSessionId w, w').
Proof.
  intros sender this Hp Ho Hs Hn Hr Hm. subst sender this.
  unfold startGame, whenNotPaused, ownerOf. unfold_writes. mrun.
  rewrite bind_ensure_true by (by rewrite Hp). mrun.
  rewrite bind_ensure_true by (rewrite Ho; by apply negb_true_iff, N.eqb_neq). mrun.
  rewrite bind_require_true by (by apply N.eqb_eq). mrun.
  destruct m.
  - mrun. rewrite bind_checked_add by done. mrun. wsimpl.
    unfold bikeNFTs_at in *. wsimpl.
    rewrite bind_checked_add by done. mrun. eauto.
  - destruct Hm as (Ht & Hb & Ha & Hpool).
    destruct (erc20_transferFrom_Ok (usdc w) (self_address w) (msg_sender env) (self_address w)
                RANKED_ENTRY_FEE w Hs Ht Hb Ha) as [w1 Hpay].
    pose proof Hpay as Hpay'. apply erc20_transferFrom_Ok_inv in Hpay' as (_ & Hw1).
    mrun. erewrite bind_run by exact Hpay. unfold require at 1. mrun.
    rewrite Hw1. wsimpl.
    rewrite bind_checked_add by exact Hpool. mrun. wsimpl.
    rewrite bind_checked_add by done. mrun. wsimpl.
    unfold bikeNFTs_at in *. wsimpl.
    rewrite bind_checked_add by done. mrun. eauto.
  - destruct Hm as (Hact & Hdone). mrun.
    rewrite bind_require_true by done. mrun.
    rewrite bind_require_true by (by rewrite Hdone). mrun.
    rewrite bind_checked_add by done. mrun. wsimpl.
    unfold bikeNFTs_at in *. wsimpl.
    rewrite bind_checked_add by done. mrun. eauto.
Qed.

(** A call that reverts leaves the storage of the transaction as it was. *)
Lemma startGame_Revert_transact (env : Env) (b : Z) (m : GameMode) (w : World) (f : Failure) :
  startGame env b m w = Revert f -> transact w (env, CallStartGame b m) = w.
Proof. intros E. unfold transact. cbn [fst snd exec]. unfold bind. by rewrite E. Qed.

(** X9. A start on a bike the caller owns, with the contract not paused
    and the checks of the mode passed, succeeds in every mode: it
    returns the current session counter and advances it, stores a
    pending session of the caller on that bike and in that mode with
    zero score and rewards, appends the identifier to the caller's
    sessions, raises the race count of the bike by one and credits no
    reward; outside Ranked mode no token balance, allowance or prize
    pool changes. *)
Theorem startGame_opens_session (env : Env) (b : Z) (m : GameMode) (w : World) :
  let sender := msg_sender env in
  let this := self_address w in
  let sid := nextSessionId w in
  paused w = false ->
  _ownerOf b w = sender ->
  sender <> 0%N ->
  sid + 1 <= MAX_UINT256 ->
  totalRaces (bikeNFTs_at b w) + 1 <= MAX_UINT256 ->
  match m with
  | PRACTICE => True
  | RANKED =>
      this <> 0%N /\ RANKED_ENTRY_FEE <= erc20_balanceOf (usdc w) sender w /\
      RANKED_ENTRY_FEE <= erc20_allowance (usdc w) sender this w /\
      totalPrizePool w + 4000000 <= MAX_UINT256
  | DAILY_CHALLENGE =>
      active (dailyChallenges_at (getCurrentDay env) w) = true /\
      completedDailyChallenges_at sender (getCurrentDay env) w = false
  end ->
  exists w',
    startGame env b m w = Ok (sid, w') /\
    nextSessionId w' = sid + 1 /\
    Views.getGameSession sid w' = mkGameSession sender b 0 0 0 (block_timestamp env) false 0 m /\
    Views.getPlayerSessions sender w' = Views.getPlayerSessions sender w ++ [sid] /\
    totalRaces (Views.getBikeNFT b w') = totalRaces (Views.getBikeNFT b w) + 1 /\
    playerRewards w' = playerRewards w /\
    (m <> RANKED ->
       erc20_balances w' = erc20_balances w /\ erc20_allowances w' = erc20_allowances w /\
       totalPrizePool w' = totalPrizePool w).
Proof.
  intros sender this sid Hp Ho Hs Hn Hr Hm.
  destruct (startGame_Ok env b m w Hp Ho Hs Hn Hr Hm) as [w' Hok].
  exists w'. split; [exact Hok|].
  apply startGame_effects_inv in Hok as (_ & _ & _ & ->).
  unfold Views.getGameSession, Views.getPlayerSessions, Views.getBikeNFT. unfold_at. wsimpl.
  rewrite !rd_insert_eq. cbn [totalRaces].
  repeat split; try done; destruct m; done.
Qed.

Lemma startGame_opens_session_witness :
  exists w',
    startGame (Scenario.at_ Scenario.alice 200) 0 DAILY_CHALLENGE Scenario.minted = Ok (1, w') /\
    nextSessionId w' = 2 /\
    Views.getGameSession 1 w'
    = mkGameSession Scenario.alice 0 0 0 0 1700000200 false 0 DAILY_CHALLENGE /\
    Views.getPlayerSessions Scenario.alice w' = [1] /\
    totalRaces (Views.getBikeNFT 0 w') = 1 /\
    playerRewards w' = playerRewards Scenario.minted /\
    (DAILY_CHALLENGE <> RANKED ->
       erc20_balances w' = erc20_balances Scenario.minted /\
       erc20_allowances w' = erc20_allowances Scenario.minted /\
       totalPrizePool w' = totalPrizePool Scenario.minted).
Proof.
  apply (startGame_opens_session (Scenario.at_ Scenario.alice 200) 0 DAILY_CHALLENGE
           Scenario.minted).
  all: vm_compute; first [reflexivity | discriminate | (split; reflexivity)].
Defined.

(** X10. A Ranked start that succeeds moves the entry fee of 5 USDC from
    the caller to the contract, lowers a finite allowance by the fee and
    adds 4 USDC to the prize pool; it succeeds whenever the caller owns
    the bike, the contract is not paused, and balance and allowance
    cover the fee.  With a balance or an allowance below the fee the
    start reverts and the transaction changes nothing: no session is
    created. *)
Theorem ranked_start_escrows_fee (env : Env) (b : Z) (w : World) :
  msg_sender env <> self_address w ->
  let sender := msg_sender env in
  let this := self_address w in
  let held := erc20_balanceOf (usdc w) sender w in
  let allowed := erc20_allowance (usdc w) sender this w in
  (paused w = false -> _ownerOf b w = sender -> sender <> 0%N -> this <> 0%N ->
   RANKED_ENTRY_FEE <= held -> RANKED_ENTRY_FEE <= allowed ->
   nextSessionId w + 1 <= MAX_UINT256 ->
   totalRaces (bikeNFTs_at b w) + 1 <= MAX_UINT256 ->
   totalPrizePool w + 4000000 <= MAX_UINT256 ->
   exists w',
     startGame env b RANKED w = Ok (nextSessionId w, w') /\
     erc20_balanceOf (usdc w) sender w' = held - 5000000 /\
     erc20_balanceOf (usdc w) this w' = erc20_balanceOf (usdc w) this w + 5000000 /\
     erc20_allowance (usdc w) sender this w'
     = (if allowed <? MAX_UINT256 then allowed - 5000000 else allowed) /\
     totalPrizePool w' = totalPrizePool w + 4000000) /\
  (held < RANKED_ENTRY_FEE \/ allowed < RANKED_ENTRY_FEE ->
   (exists f, startGame env b RANKED w = Revert f) /\
   transact w (env, CallStartGame b RANKED) = w).
Proof.
  intros Hself sender this held allowed. split.
  - intros Hp Ho Hs Ht Hb Ha Hn Hr Hpool.
    destruct (startGame_Ok env b RANKED w Hp Ho Hs Hn Hr (conj Ht (conj Hb (conj Ha Hpool))))
      as [w' Hok].
    exists w'. split; [exact Hok|].
    apply startGame_effects_inv in Hok as (_ & _ & _ & ->).
    subst sender this held allowed. unfold_at. wsimpl.
    rewrite rd_insert_ne by congruence. rewrite !rd_insert_eq.
    rewrite (rd_insert_ne _ _ _ (usdc w, msg_sender env) (usdc w, self_address w))
      by congruence.
    change RANKED_ENTRY_FEE with 5000000.
    repeat split; try done.
    destruct (_ <? MAX_UINT256); [by rewrite rd_insert_eq | done].
  - intros Hbad.
    destruct (startGame env b RANKED w) as [[sid w']|f] eqn:E.
    + exfalso. apply startGame_effects_inv in E as (_ & (_ & Hb & Ha & _) & _).
      fold sender this held allowed in Hb, Ha.
      assert (RANKED_ENTRY_FEE < MAX_UINT256) by done.
      destruct Hbad as [Hlow|Hlow]; lia.
    + split; [eauto|]. by eapply startGame_Revert_transact.
Qed.

Lemma ranked_start_escrows_fee_witness :
  (exists w',
     startGame (Scenario.at_ Scenario.alice 400) 0 RANKED Scenario.practice_completed
     = Ok (2, w') /\
     erc20_balanceOf Scenario.usdcToken Scenario.alice w' = 19000000 - 5000000 /\
     erc20_balanceOf Scenario.usdcToken Scenario.game w' = 1000000 + 5000000 /\
     erc20_allowance Scenario.usdcToken Scenario.alice Scenario.game w' = 19000000 - 5000000 /\
     totalPrizePool w' = 0 + 4000000) /\
  ((exists f, startGame (Scenario.at_ Scenario.alice 400) 0 RANKED
                (run Scenario.practice_completed
                   [(Scenario.at_ Scenario.alice 310, CallStartGame 0 RANKED);
                    (Scenario.at_ Scenario.alice 320, CallStartGame 0 RANKED);
                    (Scenario.at_ Scenario.alice 330, CallStartGame 0 RANKED)]) = Revert f) /\
   transact (run Scenario.practice_completed
               [(Scenario.at_ Scenario.alice 310, CallStartGame 0 RANKED);
                (Scenario.at_ Scenario.alice 320, CallStartGame 0 RANKED);
                (Scenario.at_ Scenario.alice 330, CallStartGame 0 RANKED)])
     (Scenario.at_ Scenario.alice 400, CallStartGame 0 RANKED)
   = run Scenario.practice_completed
       [(Scenario.at_ Scenario.alice 310, CallStartGame 0 RANKED);
        (Scenario.at_ Scenario.alice 320, CallStartGame 0 RANKED);
        (Scenario.at_ Scenario.alice 330, CallStartGame 0 RANKED)]).
Proof.
  split.
  - apply (proj1 (ranked_start_escrows_fee (Scenario.at_ Scenario.alice 400) 0
                    Scenario.practice_completed ltac:(vm_compute; discriminate))).
    all: vm_compute; first [reflexivity | discriminate].
  - apply (proj2 (ranked_start_escrows_fee (Scenario.at_ Scenario.alice 400) 0
                    (run Scenario.practice_completed
                       [(Scenario.at_ Scenario.alice 310, CallStartGame 0 RANKED);
                        (Scenario.at_ Scenario.alice 320, CallStartGame 0 RANKED);
                        (Scenario.at_ Scenario.alice 330, CallStartGame 0 RANKED)])
                    ltac:(vm_compute; discriminate))).
    left. vm_compute. reflexivity.
Defined.

(** X11. Only the owner of a bike can start a session on it, and only
    while the contract is not paused: otherwise the start reverts in
    every mode and the transaction changes nothing. *)
Theorem startGame_requires_owner (env : Env) (b : Z) (m : GameMode) (w : World) :
  _ownerOf b w <> msg_sender env \/ paused w = true ->
  (exists f, startGame env b m w = Revert f) /\
  transact w (env, CallStartGame b m) = w.
Proof.
  intros Hbad.
  destruct (startGame env b m w) as [[sid w']|f] eqn:E.
  - exfalso. apply startGame_effects_inv in E as ((Hp & Ho & _) & _).
    destruct Hbad as [Hno|Hpaused]; congruence.
  - split; [eauto|]. by eapply startGame_Revert_transact.
Qed.

Lemma startGame_requires_owner_witness :
  (exists f, startGame (Scenario.at_ Scenario.bob 400) 0 PRACTICE Scenario.minted = Revert f) /\
  transact Scenario.minted (Scenario.at_ Scenario.bob 400, CallStartGame 0 PRACTICE)
  = Scenario.minted.
Proof.
  apply (startGame_requires_owner (Scenario.at_ Scenario.bob 400) 0 PRACTICE Scenario.minted).
  left. vm_compute. discriminate.
Defined.

(** ** The daily challenge *)

Lemma updateDailyChallenge_rolls (env : Env) (w : World) :
  currentChallengeDate w < getCurrentDay env ->
  let old := dailyChallenges_at (currentChallengeDate w) w in
  let today := getCurrentDay env in
  let target := 500 + block_timestamp env mod 1000 in
  updateDailyChallenge env w =
    Ok (tt,
        set_events (DailyChallengeCreated today target (50 * 10 ^ 18) :: events w)
          (set_dailyChallenges
             (<[today := mkDailyChallenge today target (50 * 10 ^ 18) true]>
                (<[currentChallengeDate w :=
                     mkDailyChallenge (challengeDate old) (targetScore old) (rewardAmount old)
                       false]> (dailyChallenges w)))
             (set_currentChallengeDate today w))).
Proof.
  intros Hlt old today target. subst old today target.
  unfold updateDailyChallenge, _createDailyChallenge. unfold_writes. mrun.
  apply Z.ltb_lt in Hlt. rewrite Hlt. mrun. wsimpl.
  rewrite bind_checked_add.
  - by mrun.
  - pose proof (Z.mod_pos_bound (block_timestamp env) 1000). unfold MAX_UINT256. lia.
Qed.

Lemma updateDailyChallenge_same_day (env : Env) (w : World) :
  getCurrentDay env <= currentChallengeDate w ->
  updateDailyChallenge env w = Ok (tt, w).
Proof.
  intros Hle. unfold updateDailyChallenge. mrun.
  apply Z.ltb_ge in Hle. by rewrite Hle.
Qed.

Lemma run_mark_final (w : World) (txs : list (Env * Call)) (p : address) (d : Z) :
  completedDailyChallenges_at p d w = true ->
  completedDailyChallenges_at p d (run w txs) = true.
Proof.
  revert w. induction txs as [|[env c] txs IH]; intros w Hmark; [done|].
  change (run w ((env, c) :: txs)) with (run (transact w (env, c)) txs).
  apply IH. unfold transact. cbn [fst snd].
  destruct (exec env c w) as [[[] w']|f] eqn:E; [|done].
  by eapply step_mark_final.
Qed.

(** X12. In a reachable state a Daily Challenge session can be started
    only on the day of [currentChallengeDate]: on any other day the
    start reverts, whoever calls and whatever the bike, and the
    transaction changes nothing. *)
Theorem daily_start_needs_current_challenge (env : Env) (b : Z) (w : World) :
  reachable w ->
  getCurrentDay env <> currentChallengeDate w ->
  (exists f, startGame env b DAILY_CHALLENGE w = Revert f) /\
  transact w (env, CallStartGame b DAILY_CHALLENGE) = w.
Proof.
  intros Hr Hday.
  destruct (startGame env b DAILY_CHALLENGE w) as [[sid w']|f] eqn:E.
  - exfalso. apply startGame_effects_inv in E as (_ & (Hact & _) & _).
    destruct (reachable_challenge_current w Hr (getCurrentDay env)) as (HA & _).
    by apply HA in Hact.
  - split; [eauto|]. by eapply startGame_Revert_transact.
Qed.

Lemma daily_start_needs_current_challenge_witness :
  (exists f, startGame (Scenario.at_ Scenario.alice 86500) 0 DAILY_CHALLENGE
               Scenario.daily_started = Revert f) /\
  transact Scenario.daily_started
    (Scenario.at_ Scenario.alice 86500, CallStartGame 0 DAILY_CHALLENGE)
  = Scenario.daily_started.
Proof.
  apply (daily_start_needs_current_challenge (Scenario.at_ Scenario.alice 86500) 0
           Scenario.daily_started daily_started_reachable).
  vm_compute. discriminate.
Defined.

(** X13. [updateDailyChallenge], which anyone may call, changes nothing
    while the day of the block is not later than [currentChallengeDate].
    On a later day it always succeeds: it makes that day current, stores
    an active challenge for it with target 500 plus the block time
    modulo 1000 and reward 50 units, logs its creation, and leaves the
    challenge of the previous current day inactive with its target and
    reward unchanged; no completion mark and no ledger entry changes. *)
Theorem updateDailyChallenge_rolls_over (env : Env) (w : World) :
  let today := getCurrentDay env in
  let before := currentChallengeDate w in
  let w1 := transact w (env, CallUpdateDailyChallenge) in
  (today <= before -> w1 = w) /\
  (before < today ->
     currentChallengeDate w1 = today /\
     Views.getDailyChallenge today w1
     = (500 + block_timestamp env mod 1000, 50 * 10 ^ 18, true) /\
     Views.getDailyChallenge before w1
     = (targetScore (dailyChallenges_at before w), rewardAmount (dailyChallenges_at before w),
        false) /\
     events w1
     = DailyChallengeCreated today (500 + block_timestamp env mod 1000) (50 * 10 ^ 18)
         :: events w /\
     completedDailyChallenges w1 = completedDailyChallenges w /\
     playerRewards w1 = playerRewards w).
Proof.
  intros today before w1. subst today before w1. split.
  - intros Hle. apply (transact_Ok w w env CallUpdateDailyChallenge).
    by apply updateDailyChallenge_same_day.
  - intros Hlt.
    rewrite (transact_Ok w _ env CallUpdateDailyChallenge (updateDailyChallenge_rolls env w Hlt)).
    unfold Views.getDailyChallenge. unfold_at. wsimpl.
    rewrite rd_insert_eq. rewrite rd_insert_ne by lia. rewrite rd_insert_eq. cbn.
    by repeat split.
Qed.

Lemma updateDailyChallenge_rolls_over_witness :
  let env := Scenario.at_ Scenario.bob 86400 in
  let w := Scenario.daily_started in
  let w1 := transact w (env, CallUpdateDailyChallenge) in
  (19676 <= 19675 -> w1 = w) /\
  (19675 < 19676 ->
     currentChallengeDate w1 = 19676 /\
     Views.getDailyChallenge 19676 w1 = (900, 50 * 10 ^ 18, true) /\
     Views.getDailyChallenge 19675 w1 = (500, 50 * 10 ^ 18, false) /\
     events w1 = DailyChallengeCreated 19676 900 (50 * 10 ^ 18) :: events w /\
     completedDailyChallenges w1 = completedDailyChallenges w /\
     playerRewards w1 = playerRewards w).
Proof.
  apply (updateDailyChallenge_rolls_over (Scenario.at_ Scenario.bob 86400)
           Scenario.daily_started).
Defined.

(** X14. A Daily Challenge session completed on a day later than
    [currentChallengeDate], before anyone has rolled the challenge over,
    is judged against a challenge that does not exist: target and reward
    read as zero, so the completion succeeds with any score, credits the
    performance reward with no bonus, logs a [DailyChallengeCompleted]
    event with reward zero and marks the caller for that day.  From then
    on, whatever transactions follow (the rollover included), the caller
    cannot start a Daily Challenge session on that day. *)
Theorem unrolled_day_completion_locks_out
    (env : Env) (w : World) (sid sc d v : Z) :
  reachable w ->
  well_formed_env w env ->
  well_formed_call (CallCompleteGame sid sc d v) ->
  let s := gameSessions_at sid w in
  let sender := msg_sender env in
  let today := getCurrentDay env in
  let perf := performance_value (bikeNFTs_at (bikeTokenId s) w) sc d v in
  player s = sender ->
  completed s = false ->
  gameMode s = DAILY_CHALLENGE ->
  currentChallengeDate w < today ->
  Views.hasCompletedDailyChallenge sender today w = false ->
  playerRewards_at sender w + perf <= MAX_UINT256 ->
  exists w',
    completeGame env sid sc d v w = Ok (tt, w') /\
    playerRewards_at sender w' = playerRewards_at sender w + perf /\
    events w' =
      GameCompleted sender sid sc perf DAILY_CHALLENGE
        :: DailyChallengeCompleted sender today sc 0 :: events w /\
    Views.hasCompletedDailyChallenge sender today w' = true /\
    forall txs env2 b,
      msg_sender env2 = sender ->
      getCurrentDay env2 = today ->
      exists f, startGame env2 b DAILY_CHALLENGE (run w' txs) = Revert f.
Proof.
  intros Hr Henv (_ & Hsc & Hd & Hv) s sender today perf Hp Hc Hmode Hday Hfree Hsum.
  destruct (reachable_invariants w Hr) as (_ & (Hledger & Hbikes & _) & _).
  destruct (reachable_challenge_current w Hr today) as (_ & _ & Hnone).
  specialize (Hnone Hday).
  assert (Hblank : dailyChallenges_at today w = DailyChallenge_zero)
    by (by apply rd_lookup_None).
  unfold is_uint256 in *.
  assert (Hdue : daily_bonus_due env w sid sc = true).
  { unfold daily_bonus_due. fold s today sender. rewrite Hmode, Hblank.
    unfold Views.hasCompletedDailyChallenge in Hfree. rewrite Hfree. cbn.
    apply andb_true_iff. split; [apply Z.leb_le; lia | done]. }
  assert (Htotal : reward_total env w sid sc d v = perf).
  { unfold reward_total. fold s. rewrite Hmode, Hdue. fold today. rewrite Hblank.
    cbn. fold perf. lia. }
  assert (Hperf0 : 0 <= perf).
  { subst perf. unfold performance_value, bikeBonus_value.
    destruct (Hbikes (bikeTokenId s)) as (? & ? & ?).
    set (bike := bikeNFTs_at (bikeTokenId s) w) in *.
    assert (0 <= (speed bike + acceleration bike + handling bike) * 10 ^ 17 / 100)
      by (apply Z.div_pos; lia).
    assert (0 <= sc / 100) by (apply Z.div_pos; lia).
    assert (0 <= d / 1000) by (apply Z.div_pos; lia).
    nia. }
  pose proof (Hledger sender) as Hentry.
  destruct (completeGame_Ok env sid sc d v w) as [w' Hok]; try done.
  { destruct (Hbikes (bikeTokenId s)) as (? & ? & ?). fold s.
    repeat split; try lia. unfold MAX_UINT256. nia. }
  { exact (proj1 Hentry). }
  { change (playerRewards_at sender w + reward_total env w sid sc d v <= MAX_UINT256).
    rewrite Htotal. exact Hsum. }
  exists w'. split; [exact Hok|].
  apply completeGame_Ok_inv in Hok as (_ & (Hrw & _ & He & Hcd) & _).
  fold s sender today in Hrw, He, Hcd. rewrite Htotal, Hdue, Hblank, Hmode in *.
  assert (Hmark : Views.hasCompletedDailyChallenge sender today w' = true).
  { unfold Views.hasCompletedDailyChallenge, completedDailyChallenges_at.
    by rewrite Hcd, rd_insert_eq. }
  split; [unfold playerRewards_at at 1; by rewrite Hrw, rd_insert_eq|].
  split; [exact He|]. split; [exact Hmark|].
  intros txs env2 b Hsame Hsameday.
  apply startGame_daily_marked. rewrite Hsame, Hsameday.
  by apply run_mark_final.
Qed.

Lemma unrolled_day_completion_locks_out_witness :
  exists w',
    completeGame (Scenario.at_ Scenario.alice 86500) 1 0 0 0 Scenario.daily_started
    = Ok (tt, w') /\
    playerRewards_at Scenario.alice w'
    = playerRewards_at Scenario.alice Scenario.daily_started + 10250000000000000000 /\
    events w' =
      GameCompleted Scenario.alice 1 0 10250000000000000000 DAILY_CHALLENGE
        :: DailyChallengeCompleted Scenario.alice 19676 0 0 :: events Scenario.daily_started /\
    Views.hasCompletedDailyChallenge Scenario.alice 19676 w' = true /\
    forall txs env2 b,
      msg_sender env2 = Scenario.alice ->
      getCurrentDay env2 = 19676 ->
      exists f, startGame env2 b DAILY_CHALLENGE (run w' txs) = Revert f.
Proof.
  apply (unrolled_day_completion_locks_out (Scenario.at_ Scenario.alice 86500)
           Scenario.daily_started 1 0 0 0 daily_started_reachable).
  all: vm_compute; first [reflexivity | discriminate | (repeat split; discriminate)].
Defined.

(** ** Session records *)

(** One call keeps a stored session stored, with its player, bike, start
    time and mode, and keeps a completed session as it is. *)
Lemma step_session_fixed (env : Env) (c : Call) (sid : Z) (w w' : World) :
  sessions_fresh w ->
  exec env c w = Ok (tt, w') ->
  gameSessions w !! sid <> None ->
  let s := gameSessions_at sid w in
  let s' := gameSessions_at sid w' in
  gameSessions w' !! sid <> None /\
  player s' = player s /\ bikeTokenId s' = bikeTokenId s /\
  timestamp s' = timestamp s /\ gameMode s' = gameMode s /\
  (completed s = true -> s' = s).
Proof.
  intros Hfresh H Hsome. cbn zeta. destruct c.
  2: { cbn [exec] in H. apply bind_Ok_inv in H as (sid' & w1 & H1 & H).
       apply ret_Ok_inv in H as [_ ->].
       apply startGame_Ok_inv in H1 as (-> & _ & Hg & _).
       unfold gameSessions_at. rewrite Hg.
       destruct (decide (nextSessionId w = sid)) as [<-|Hne].
       - exfalso. apply Hsome, Hfresh. lia.
       - rewrite lookup_insert_ne, rd_insert_ne by done. by repeat split. }
  2: { apply completeGame_Ok_inv in H as ((_ & Hpending & _) & (_ & Hg & _) & _).
       unfold gameSessions_at in *. rewrite Hg.
       destruct (decide (sessionId = sid)) as [<-|Hne].
       - rewrite lookup_insert_eq, rd_insert_eq. cbn. repeat split; try done. congruence.
       - rewrite lookup_insert_ne, rd_insert_ne by done. by repeat split. }
  all: unfold_calls H; unfold_writes; minv H; subst; by repeat split.
Qed.

(** X15. Once a session exists, no sequence of well-formed transactions
    changes its player, its bike, its start time or its mode, and once
    it is completed nothing in its record changes any more: score,
    distance, dodges and rewards stay as the completion stored them. *)
Theorem session_record_is_fixed (w : World) (txs : list (Env * Call)) (sid : Z) :
  reachable w ->
  well_formed_txs w txs ->
  1 <= sid < nextSessionId w ->
  let s := Views.getGameSession sid w in
  let s' := Views.getGameSession sid (run w txs) in
  player s' = player s /\ bikeTokenId s' = bikeTokenId s /\
  timestamp s' = timestamp s /\ gameMode s' = gameMode s /\
  (completed s = true -> s' = s).
Proof.
  intros Hr Hwf Hin. unfold Views.getGameSession.
  assert (Hsome : gameSessions w !! sid <> None).
  { destruct (reachable_sessions_logged w Hr sid) as (HA & _).
    intros Hn. apply HA in Hn. lia. }
  clear Hin. revert w Hr Hwf Hsome.
  induction txs as [|[env c] txs IH]; intros w Hr Hwf Hsome; [done|].
  change (run w ((env, c) :: txs)) with (run (transact w (env, c)) txs).
  apply Forall_cons in Hwf as [[Henv Hcall] Hwf]. cbn in Henv, Hcall.
  assert (Hwf' : well_formed_txs (transact w (env, c)) txs).
  { eapply Forall_impl; [exact Hwf|]. intros [env' c'] [He Hc]. split; [|done].
    unfold well_formed_env in *. by rewrite transact_self_address. }
  assert (Hr' : reachable (transact w (env, c))) by (by constructor).
  assert (Hstep : gameSessions (transact w (env, c)) !! sid <> None /\
                  player (gameSessions_at sid (transact w (env, c)))
                  = player (gameSessions_at sid w) /\
                  bikeTokenId (gameSessions_at sid (transact w (env, c)))
                  = bikeTokenId (gameSessions_at sid w) /\
                  timestamp (gameSessions_at sid (transact w (env, c)))
                  = timestamp (gameSessions_at sid w) /\
                  gameMode (gameSessions_at sid (transact w (env, c)))
                  = gameMode (gameSessions_at sid w) /\
                  (completed (gameSessions_at sid w) = true ->
                   gameSessions_at sid (transact w (env, c)) = gameSessions_at sid w)).
  { unfold transact. cbn [fst snd].
    destruct (exec env c w) as [[[] w']|f] eqn:E; [|by repeat split].
    eapply step_session_fixed; [|exact E|exact Hsome].
    by apply reachable_invariants. }
  destruct Hstep as (Hsome' & Hp & Hb & Ht & Hm & Hc).
  destruct (IH _ Hr' Hwf' Hsome') as (Hp' & Hb' & Ht' & Hm' & Hc').
  repeat split; try congruence.
  intros Hdone. rewrite Hc', (Hc Hdone); [done|]. by rewrite (Hc Hdone).
Qed.

Lemma session_record_is_fixed_witness :
  let w := Scenario.practice_completed in
  let txs := [(Scenario.at_ Scenario.alice 400, CallStartGame 0 RANKED);
              (Scenario.at_ Scenario.alice 500, CallCompleteGame 1 9 9 9);
              (Scenario.at_ Scenario.alice 600, CallClaimRewards)] in
  let s := Views.getGameSession 1 w in
  let s' := Views.getGameSession 1 (run w txs) in
  player s' = player s /\ bikeTokenId s' = bikeTokenId s /\
  timestamp s' = timestamp s /\ gameMode s' = gameMode s /\
  (completed s = true -> s' = s).
Proof.
  apply (session_record_is_fixed Scenario.practice_completed
           [(Scenario.at_ Scenario.alice 400, CallStartGame 0 RANKED);
            (Scenario.at_ Scenario.alice 500, CallCompleteGame 1 9 9 9);
            (Scenario.at_ Scenario.alice 600, CallClaimRewards)] 1).
  - apply (reachable_run Scenario.practice_started
             [(Scenario.at_ Scenario.alice 300, CallCompleteGame 1 1000 2000 10)]
             practice_started_reachable).
    solve_wf.
  - solve_wf.
  - vm_compute. split; first [discriminate | reflexivity].
Defined.

(** ** Pausing and administration *)

Section Unaffected.

Import Pausing.

Lemma unaffected_ret {A : Type} (a : A) : unaffected_by_pause (ret a).
Proof. by intros b w. Qed.

Lemma unaffected_revert {A : Type} (f : Failure) : unaffected_by_pause (@revert A f).
Proof. by intros b w. Qed.

Lemma unaffected_bind {A B : Type} (m : M A) (k : A -> M B) :
  unaffected_by_pause m -> (forall a, unaffected_by_pause (k a)) ->
  unaffected_by_pause (bind m k).
Proof.
  intros Hm Hk b w. unfold bind. rewrite Hm.
  destruct (m w) as [[a w1]|f]; [apply Hk | done].
Qed.

Lemma unaffected_gets {A : Type} (f : World -> A) :
  (forall b w, f (set_paused b w) = f w) -> unaffected_by_pause (gets f).
Proof. intros Hf b w. unfold gets. by rewrite Hf. Qed.

Lemma unaffected_modify (g : World -> World) :
  (forall b w, g (set_paused b w) = set_paused b (g w)) -> unaffected_by_pause (modify g).
Proof. intros Hg b w. unfold modify. by rewrite Hg. Qed.

Lemma unaffected_require (c : bool) (reason : string) : unaffected_by_pause (require c reason).
Proof. by destruct c. Qed.

Lemma unaffected_ensure (c : bool) (error : string) : unaffected_by_pause (ensure c error).
Proof. by destruct c. Qed.

Lemma unaffected_checked_add (x y : Z) : unaffected_by_pause (checked_add x y).
Proof. unfold checked_add. intros b w. by destruct (_ <=? _). Qed.

Lemma unaffected_checked_sub (x y : Z) : unaffected_by_pause (checked_sub x y).
Proof. unfold checked_sub. intros b w. by destruct (_ <=? _). Qed.

Lemma unaffected_checked_mul (x y : Z) : unaffected_by_pause (checked_mul x y).
Proof. unfold checked_mul. intros b w. by destruct (_ <=? _). Qed.

Lemma unaffected_checked_div (x y : Z) : unaffected_by_pause (checked_div x y).
Proof. unfold checked_div. intros b w. by destruct (_ =? _). Qed.

Ltac unaffected :=
  repeat first
    [ apply unaffected_bind; [|intros ?]
    | apply unaffected_ret
    | apply unaffected_revert
    | apply unaffected_require
    | apply unaffected_ensure
    | apply unaffected_checked_add
    | apply unaffected_checked_sub
    | apply unaffected_checked_mul
    | apply unaffected_checked_div
    | apply unaffected_gets; reflexivity
    | apply unaffected_modify; reflexivity
    | match goal with
      | |- unaffected_by_pause (if ?c then _ else _) => destruct c
      | |- unaffected_by_pause (match ?m with PRACTICE => _ | RANKED => _ | DAILY_CHALLENGE => _ end) =>
          destruct m
      end ].

Lemma completeGame_unaffected (env : Env) (sid sc d v : Z) :
  unaffected_by_pause (completeGame env sid sc d v).
Proof. unfold completeGame, performanceRewards. unfold_writes. unaffected. Qed.

Lemma claimRewards_unaffected (env : Env) : unaffected_by_pause (claimRewards env).
Proof.
  unfold claimRewards, erc20_transfer, erc20__transfer. unfold_writes. unaffected.
Qed.

Lemma transferTokensToPlayer_unaffected (env : Env) (_to : address) (_amount : Z) :
  unaffected_by_pause (transferTokensToPlayer env _to _amount).
Proof. unfold transferTokensToPlayer. unfold_writes. unaffected. Qed.

Lemma updateDailyChallenge_unaffected (env : Env) :
  unaffected_by_pause (updateDailyChallenge env).
Proof.
  unfold updateDailyChallenge, _createDailyChallenge. unfold_writes. unaffected.
Qed.

End Unaffected.

(** X16. While the contract is paused every mint and every start
    reverts with [EnforcedPause].  Completions, claims, credit transfers
    and the challenge rollover do not look at the pause flag: on a
    paused contract each of them succeeds or reverts exactly as on the
    same storage unpaused, with the same effects. *)
Theorem pause_stops_mint_and_start_only (env : Env) (w : World) :
  (paused w = true ->
   (forall ty nm, mintBike env ty nm w = Revert (CustomError "EnforcedPause")) /\
   (forall b m, startGame env b m w = Revert (CustomError "EnforcedPause"))) /\
  (forall sid sc d v, Pausing.unaffected_by_pause (completeGame env sid sc d v)) /\
  Pausing.unaffected_by_pause (claimRewards env) /\
  (forall _to _amount, Pausing.unaffected_by_pause (transferTokensToPlayer env _to _amount)) /\
  Pausing.unaffected_by_pause (updateDailyChallenge env).
Proof.
  split; [|split; [|split; [|split]]].
  - intros Hp. split.
    + intros ty nm. unfold mintBike, whenNotPaused. mrun.
      apply bind_ensure_false. by rewrite Hp.
    + intros b m. unfold startGame, whenNotPaused. mrun.
      apply bind_ensure_false. by rewrite Hp.
  - intros sid sc d v. apply completeGame_unaffected.
  - apply claimRewards_unaffected.
  - intros _to _amount. apply transferTokensToPlayer_unaffected.
  - apply updateDailyChallenge_unaffected.
Qed.

Lemma pause_stops_mint_and_start_only_witness :
  let w := transact Scenario.practice_started (Scenario.at_ Scenario.operator 250, CallPause) in
  (forall ty nm,
     mintBike (Scenario.at_ Scenario.alice 300) ty nm w = Revert (CustomError "EnforcedPause")) /\
  (forall b m,
     startGame (Scenario.at_ Scenario.alice 300) b m w = Revert (CustomError "EnforcedPause")).
Proof.
  apply (proj1 (pause_stops_mint_and_start_only (Scenario.at_ Scenario.alice 300)
                  (transact Scenario.practice_started
                     (Scenario.at_ Scenario.operator 250, CallPause)))).
  vm_compute. reflexivity.
Defined.

(** A completion on the paused contract of the concrete deployment. *)
Example completion_while_paused :
  let w := transact Scenario.practice_started (Scenario.at_ Scenario.operator 250, CallPause) in
  paused w = true /\
  playerRewards_at Scenario.alice
    (transact w (Scenario.at_ Scenario.alice 300, CallCompleteGame 1 1000 2000 10))
  = 25125000000000000000.
Proof. by vm_compute. Qed.

(** X17. [pause], [unpause], [withdrawFees] and [updateRaceToken] revert
    with [OwnableUnauthorizedAccount] for every caller other than the
    owner.  Called by the owner, [pause] succeeds exactly on an unpaused
    contract and [unpause] exactly on a paused one, each changing the
    flag only, so that a pause followed by an unpause restores the
    storage; [updateRaceToken] always succeeds and replaces the reward
    token address only. *)
Theorem administration_is_owner_only (env : Env) (w : World) :
  (msg_sender env <> owner w ->
   pause env w = Revert (CustomError "OwnableUnauthorizedAccount") /\
   unpause env w = Revert (CustomError "OwnableUnauthorizedAccount") /\
   withdrawFees env w = Revert (CustomError "OwnableUnauthorizedAccount") /\
   forall r, updateRaceToken env r w = Revert (CustomError "OwnableUnauthorizedAccount")) /\
  (msg_sender env = owner w ->
   pause env w = (if paused w then Revert (CustomError "EnforcedPause")
                  else Ok (tt, set_paused true w)) /\
   unpause env w = (if paused w then Ok (tt, set_paused false w)
                    else Revert (CustomError "ExpectedPause")) /\
   (paused w = false -> unpause env (set_paused true w) = Ok (tt, w)) /\
   forall r, updateRaceToken env r w = Ok (tt, set_raceToken r w)).
Proof.
  split.
  - intros Hne.
    assert (Hno : (owner w =? msg_sender env)%N = false) by (apply N.eqb_neq; congruence).
    unfold pause, unpause, withdrawFees, updateRaceToken, onlyOwner.
    repeat split; intros; mrun; by apply bind_ensure_false.
  - intros Heq.
    assert (Hyes : (owner w =? msg_sender env)%N = true) by (apply N.eqb_eq; congruence).
    unfold pause, unpause, updateRaceToken, onlyOwner, whenNotPaused, whenPaused.
    split; [|split; [|split]].
    + mrun. rewrite bind_ensure_true by done. mrun. by destruct (paused w).
    + mrun. rewrite bind_ensure_true by done. mrun. by destruct (paused w).
    + intros Hp. mrun. wsimpl. rewrite bind_ensure_true by done. mrun. wsimpl.
      rewrite bind_ensure_true by done. mrun. destruct w. cbn in *. by subst.
    + intros r. mrun. rewrite bind_ensure_true by done. by mrun.
Qed.

Lemma administration_is_owner_only_witness :
  (pause (Scenario.at_ Scenario.alice 300) Scenario.genesis
   = Revert (CustomError "OwnableUnauthorizedAccount") /\
   unpause (Scenario.at_ Scenario.alice 300) Scenario.genesis
   = Revert (CustomError "OwnableUnauthorizedAccount") /\
   withdrawFees (Scenario.at_ Scenario.alice 300) Scenario.genesis
   = Revert (CustomError "OwnableUnauthorizedAccount") /\
   forall r, updateRaceToken (Scenario.at_ Scenario.alice 300) r Scenario.genesis
             = Revert (CustomError "OwnableUnauthorizedAccount")) /\
  (paused Scenario.genesis = false ->
   unpause (Scenario.at_ Scenario.operator 300) (set_paused true Scenario.genesis)
   = Ok (tt, Scenario.genesis)).
Proof.
  split.
  - apply (proj1 (administration_is_owner_only (Scenario.at_ Scenario.alice 300)
                    Scenario.genesis)).
    vm_compute. discriminate.
  - apply (proj2 (administration_is_owner_only (Scenario.at_ Scenario.operator 300)
                    Scenario.genesis)).
    vm_compute. reflexivity.
Defined.

(** X18. [withdrawFees] called by the owner pays the owner everything
    the contract holds in USDC above the prize pool and leaves the
    contract holding exactly the prize pool, which it does not change.
    With nothing above the pool the call
    reverts ([No fees to withdraw] when the holdings equal the pool, an
    arithmetic panic when they are below it), so a second withdrawal
    right after a first always reverts. *)
Theorem withdrawFees_leaves_prize_pool (env : Env) (w : World) :
  reachable w ->
  msg_sender env = owner w ->
  let this := self_address w in
  let held := erc20_balanceOf (usdc w) this w in
  let pool := totalPrizePool w in
  (pool < held -> this <> 0%N -> owner w <> 0%N -> owner w <> this ->
   exists w',
     withdrawFees env w = Ok (tt, w') /\
     erc20_balanceOf (usdc w) this w' = pool /\
     erc20_balanceOf (usdc w) (owner w) w'
     = erc20_balanceOf (usdc w) (owner w) w + (held - pool) /\
     totalPrizePool w' = pool /\
     playerRewards w' = playerRewards w /\
     withdrawFees env w' = Revert (RequireFailed "No fees to withdraw")) /\
  (held = pool -> withdrawFees env w = Revert (RequireFailed "No fees to withdraw")) /\
  (held < pool -> withdrawFees env w = Revert (Panic 17)).
Proof.
  intros Hr Howner this held pool. subst this held pool.
  assert (Hpool : 0 <= totalPrizePool w).
  { destruct (reachable_counters_logged w Hr) as (_ & _ & ->). lia. }
  assert (Hyes : (owner w =? msg_sender env)%N = true) by (apply N.eqb_eq; congruence).
  split; [|split].
  - intros Hlt Ht Ho Hne.
    eexists. split.
    { unfold withdrawFees, onlyOwner, erc20_transfer, erc20__transfer. mrun.
      rewrite bind_ensure_true by done. mrun.
      rewrite bind_checked_sub by lia. mrun.
      rewrite bind_require_true by (apply Z.ltb_lt; lia). mrun.
      rewrite bind_ensure_true by (by apply negb_true_iff, N.eqb_neq). mrun.
      rewrite bind_ensure_true by (by apply negb_true_iff, N.eqb_neq). mrun.
      rewrite bind_ensure_true by (apply Z.leb_le; lia). mrun.
      unfold require, ret. reflexivity. }
    unfold_at. wsimpl.
    rewrite (rd_insert_ne _ _ _ (usdc w, self_address w) (usdc w, owner w)) by congruence.
    rewrite (rd_insert_ne _ _ _ (usdc w, owner w) (usdc w, self_address w)) by congruence.
    rewrite !rd_insert_eq.
    repeat split; try done; try lia.
    unfold withdrawFees, onlyOwner. mrun. wsimpl.
    rewrite bind_ensure_true by done. mrun. unfold_at. wsimpl.
    rewrite (rd_insert_ne _ _ _ (usdc w, owner w) (usdc w, self_address w)) by congruence.
    rewrite rd_insert_eq.
    rewrite bind_checked_sub by lia. mrun.
    apply bind_require_false. apply Z.ltb_ge. lia.
  - intros Heq. unfold withdrawFees, onlyOwner. mrun.
    rewrite bind_ensure_true by done. mrun.
    rewrite bind_checked_sub by lia. mrun.
    apply bind_require_false. apply Z.ltb_ge. lia.
  - intros Hlt. unfold withdrawFees, onlyOwner. mrun.
    rewrite bind_ensure_true by done. mrun.
    unfold bind at 1. unfold checked_sub.
    destruct (Z.leb_spec (totalPrizePool w) (erc20_balanceOf (usdc w) (self_address w) w));
      [lia | done].
Qed.

Lemma withdrawFees_leaves_prize_pool_witness :
  exists w',
    withdrawFees (Scenario.at_ Scenario.operator 1000) Tour.toured = Ok (tt, w') /\
    erc20_balanceOf Scenario.usdcToken Scenario.game w' = 4000000 /\
    erc20_balanceOf Scenario.usdcToken Scenario.operator w' = 0 + (6000000 - 4000000) /\
    totalPrizePool w' = 4000000 /\
    playerRewards w' = playerRewards Tour.toured /\
    withdrawFees (Scenario.at_ Scenario.operator 1000) w'
    = Revert (RequireFailed "No fees to withdraw").
Proof.
  apply (proj1 (withdrawFees_leaves_prize_pool (Scenario.at_ Scenario.operator 1000)
                  Tour.toured toured_reachable eq_refl)).
  all: vm_compute; first [reflexivity | discriminate].
Defined.

(** ** Reported figures *)

(** X19. The player of a pending Practice or Ranked session can complete
    it at any time with any figures: in a reachable state the completion
    succeeds for every score, distance and dodge count the arithmetic
    can hold, and credits the performance reward computed from these
    reported figures (halved in Practice), which is at least 5 units
    plus one unit per reported dodge.  The contract checks none of the
    figures. *)
Theorem completion_credits_reported_figures (env : Env) (w : World) (sid sc d v : Z) :
  reachable w ->
  well_formed_env w env ->
  well_formed_call (CallCompleteGame sid sc d v) ->
  let s := gameSessions_at sid w in
  let sender := msg_sender env in
  let perf := performance_value (bikeNFTs_at (bikeTokenId s) w) sc d v in
  let credit := match gameMode s with PRACTICE => perf / 2 | _ => perf end in
  player s = sender ->
  completed s = false ->
  gameMode s <> DAILY_CHALLENGE ->
  playerRewards_at sender w + perf <= MAX_UINT256 ->
  exists w',
    completeGame env sid sc d v w = Ok (tt, w') /\
    playerRewards_at sender w' = playerRewards_at sender w + credit /\
    score (gameSessions_at sid w') = sc /\
    rewardsClaimed (gameSessions_at sid w') = credit /\
    5 * 10 ^ 18 + v * 10 ^ 18 <= credit.
Proof.
  intros Hr Henv (_ & Hsc & Hd & Hv) s sender perf credit Hp Hc Hmode Hsum.
  destruct (reachable_invariants w Hr) as (_ & (Hledger & Hbikes & _) & _).
  unfold is_uint256 in *.
  destruct (Hbikes (bikeTokenId s)) as (Hs1 & Hs2 & Hs3).
  pose proof (Hledger sender) as Hentry.
  assert (Hlow : 10 * 10 ^ 18 + v * 2 * 10 ^ 18 <= perf).
  { subst perf. unfold performance_value, bikeBonus_value.
    set (bike := bikeNFTs_at (bikeTokenId s) w) in *.
    assert (0 <= (speed bike + acceleration bike + handling bike) * 10 ^ 17 / 100)
      by (apply Z.div_pos; lia).
    assert (0 <= sc / 100) by (apply Z.div_pos; lia).
    assert (0 <= d / 1000) by (apply Z.div_pos; lia).
    nia. }
  assert (Htotal : reward_total env w sid sc d v = credit).
  { unfold reward_total. fold s perf. subst credit. by destruct (gameMode s). }
  assert (Hcredit : 5 * 10 ^ 18 + v * 10 ^ 18 <= credit /\ credit <= perf).
  { subst credit. destruct (gameMode s); try lia.
    split; [|apply Z.div_le_upper_bound; lia].
    apply Z.div_le_lower_bound; lia. }
  destruct (completeGame_Ok env sid sc d v w) as [w' Hok]; try done.
  { fold s. repeat split; try lia. unfold MAX_UINT256. nia. }
  { exact (proj1 Hentry). }
  { change (playerRewards_at sender w + reward_total env w sid sc d v <= MAX_UINT256).
    rewrite Htotal. lia. }
  exists w'. split; [exact Hok|].
  apply completeGame_Ok_inv in Hok as (_ & (Hrw & Hg & _) & _).
  fold s sender in Hrw, Hg. rewrite Htotal in *.
  unfold playerRewards_at at 1. unfold gameSessions_at at 1 2.
  rewrite Hrw, Hg, !rd_insert_eq. cbn [score rewardsClaimed].
  destruct Hcredit as [Hfloor _]. by repeat split.
Qed.

Lemma completion_credits_reported_figures_witness :
  exists w',
    completeGame (Scenario.at_ Scenario.alice 201) 1 0 0 1000000 Scenario.practice_started
    = Ok (tt, w') /\
    playerRewards_at Scenario.alice w'
    = playerRewards_at Scenario.alice Scenario.practice_started + 1000005125000000000000000 /\
    score (gameSessions_at 1 w') = 0 /\
    rewardsClaimed (gameSessions_at 1 w') = 1000005125000000000000000 /\
    5 * 10 ^ 18 + 1000000 * 10 ^ 18 <= 1000005125000000000000000.
Proof.
  apply (completion_credits_reported_figures (Scenario.at_ Scenario.alice 201)
           Scenario.practice_started 1 0 0 1000000 practice_started_reachable).
  all: vm_compute; first [reflexivity | discriminate | (repeat split; discriminate)].
Defined.

End ContractExtras.

Module ClientExtras.

Import Client ClientProps ServiceExtras.

(** ** Further properties of the client *)

(** X20. The client's tables agree with the contract's: for each bike
    category, under the number the ABI carries for it, the client
    computes the mint price the contract charges (so the balance it
    checks and the allowance it approves before a mint are exactly the
    price) and shows the base attributes the contract stores.  For any
    other number the client falls back to the Sports price and
    attributes. *)
Theorem client_tables_match_contract (t : BikeRacerGame.BikeType) (n : Z) :
  Client.getBikeMintPrice (BikeType_code t) = BikeRacerGame.getBikeMintPrice t /\
  getBikeStatsForType (BikeType_code t) = BikeRacerGame.getBikeBaseStats t /\
  ((n < 0 \/ 2 < n) ->
   Client.getBikeMintPrice n = BikeRacerGame.getBikeMintPrice BikeRacerGame.SPORTS /\
   getBikeStatsForType n = BikeRacerGame.getBikeBaseStats BikeRacerGame.SPORTS).
Proof.
  split; [by destruct t|]. split; [by destruct t|].
  intros Hout. unfold Client.getBikeMintPrice, getBikeStatsForType, SPORTS, LADY, CHOPPER.
  destruct (Z.eqb_spec n 0); [lia|].
  destruct (Z.eqb_spec n 1); [lia|].
  destruct (Z.eqb_spec n 2); [lia|]. done.
Qed.

(** X21. [getBikeTypeFromString] undoes [getBikeTypeString] on the three
    categories; every other number is shown as, and every unknown text
    is read as, Sports.  Reading ignores the case of the text. *)
Theorem bike_type_strings_round_trip (bikeType : BikeType) (s : string) :
  getBikeTypeFromString (getBikeTypeString bikeType)
  = (if (0 <=? bikeType) && (bikeType <=? 2) then bikeType else SPORTS) /\
  getBikeTypeFromString (toLowerCase s) = getBikeTypeFromString s /\
  (toLowerCase s <> "sports" -> toLowerCase s <> "lady" -> toLowerCase s <> "chopper" ->
   getBikeTypeFromString s = SPORTS).
Proof.
  split; [|split].
  - unfold getBikeTypeString, SPORTS, LADY, CHOPPER.
    destruct (Z.eqb_spec bikeType 0) as [->|?]; [done|].
    destruct (Z.eqb_spec bikeType 1) as [->|?]; [done|].
    destruct (Z.eqb_spec bikeType 2) as [->|?]; [done|].
    cbn. destruct (Z.leb_spec 0 bikeType); [|done].
    destruct (Z.leb_spec bikeType 2); [lia | done].
  - unfold getBikeTypeFromString.
    assert (Hidem : forall x, toLowerCase (toLowerCase x) = toLowerCase x).
    { induction x as [|c x IH]; [done|]. cbn [toLowerCase]. rewrite IH. f_equal.
      unfold toLowerCaseChar.
      destruct ((65 <=? nat_of_ascii c)%nat && (nat_of_ascii c <=? 90)%nat) eqn:E; [|by rewrite E].
      apply andb_true_iff in E as [E1%Nat.leb_le E2%Nat.leb_le].
      rewrite nat_ascii_embedding by lia.
      destruct (Nat.leb_spec (nat_of_ascii c + 32) 90); [lia|].
      by rewrite andb_false_r. }
    by rewrite Hidem.
  - intros H1 H2 H3. unfold getBikeTypeFromString. cbn zeta.
    apply String.eqb_neq in H1, H2, H3. by rewrite H1, H2, H3.
Qed.

(** ** Single-call operations *)

(** The hash a completion or a claim reports once the relay accepted the
    operation: the transaction hash of a receipt that arrived within 60
    seconds, otherwise the hash of the operation itself. *)
Lemma single_call_reports (oracle : Oracle) (hash : string) (t : Trace) :
  try_catch
    (let* receipt := receipt_within_60s oracle hash in
     match receipt_transactionHash receipt with
     | Some h => ret (ok_result h None)
     | None => throw "TypeError"
     end)
    (fun _ => ret (ok_result hash None)) t
  = (Return (ok_result
               match waitForUserOperationReceipt oracle (requests t) hash with
               | Settles ms (mkReceipt (Some h)) => if ms <? 60000 then h else hash
               | _ => hash
               end None),
     mkTrace (S (requests t)) (submitted t) (slept t) (ui t)).
Proof.
  unfold try_catch, bind, receipt_within_60s, ret, throw.
  destruct (waitForUserOperationReceipt oracle (requests t) hash) as [ms [[h|]]|ms e|];
    try destruct (ms <? 60000); reflexivity.
Qed.

(** X22. [completeGame] and [claimRewards] of the service submit exactly
    one user operation, gas-sponsored, holding the single contract call,
    and nothing when the account or the relay client is missing.  When
    the relay rejects the operation they report failure with its
    message.  Once the relay has accepted it they report success
    whatever happens to the receipt: with the transaction hash of a
    receipt that arrives within 60 seconds, and with the hash of the
    operation when the wait fails or times out. *)
Theorem single_call_success_once_sent (oracle : Oracle) (service : Service) (t : Trace)
    (sid sc d v : Z) :
  let result_of (call : FunctionCall) : Outcome TransactionResult * Trace :=
    let op := mkUserOperation [mkCall (gameContractAddress service) call] true in
    match circleSmartAccount service, bundlerClient service with
    | Some _, true =>
        match sendUserOperation oracle (requests t) op with
        | Threw e =>
            (Return (failed_result e None),
             mkTrace (S (requests t)) (submitted t ++ [op]) (slept t) (ui t))
        | Returned hash =>
            (Return (ok_result
                       match waitForUserOperationReceipt oracle (S (requests t)) hash with
                       | Settles ms (mkReceipt (Some h)) => if ms <? 60000 then h else hash
                       | _ => hash
                       end None),
             mkTrace (S (S (requests t))) (submitted t ++ [op]) (slept t) (ui t))
        end
    | _, _ => (Return (failed_result "Circle Smart Account not initialized" None), t)
    end in
  Client.completeGame oracle service sid sc d v t = result_of (completeGame_ sid sc d v) /\
  claimRewards oracle service t = result_of claimRewards_.
Proof.
  cbn zeta. unfold Client.completeGame, claimRewards.
  destruct (circleSmartAccount service) as [me|], (bundlerClient service); try by split.
  split.
  all: unfold try_catch at 1; unfold bind at 1; unfold send, request;
    cbn [requests submitted slept ui].
  all: match goal with |- context [sendUserOperation ?o (requests ?t0) ?op] =>
         destruct (sendUserOperation o (requests t0) op) as [hash|e] end.
  all: try (rewrite single_call_reports; cbn [requests submitted slept ui fst snd]).
  all: reflexivity.
Qed.

(** ** Minting through the service *)

(** The result [mintBike] makes of an error. *)
Lemma mintBike_unfolded (oracle : Oracle) (service : Service) (toFixed2 : Z -> string)
    (bikeType : BikeType) (bikeName : string) (t : Trace) :
  let classify (message : string) :=
    if includes message "AA33" || includes message "transfer amount exceeds allowance"
    then failed_result paymasterNotRegistered None
    else failed_result message None in
  let mintPrice := Client.getBikeMintPrice bikeType in
  let op := mkUserOperation
              [mkCall (usdcAddress service) (approve (gameContractAddress service) mintPrice);
               mkCall (gameContractAddress service) (mintBike_ bikeType bikeName)] true in
  Client.mintBike oracle service toFixed2 bikeType bikeName t =
    match circleSmartAccount service, bundlerClient service with
    | Some me, true =>
        match read_usdcBalanceOf oracle (requests t) me with
        | Threw e =>
            (Return (classify e), mkTrace (S (requests t)) (submitted t) (slept t) (ui t))
        | Returned balance =>
            if balance <? mintPrice then
              (Return (classify
                         ("Insufficient USDC balance. You have " ++ toFixed2 balance
                          ++ " USDC, but need " ++ toFixed2 mintPrice
                          ++ " USDC. Please fund your account at https://faucet.circle.com")%string),
               mkTrace (S (requests t)) (submitted t) (slept t) (ui t))
            else
              match sendUserOperation oracle (S (requests t)) op with
              | Threw e =>
                  (Return (classify e),
                   mkTrace (S (S (requests t))) (submitted t ++ [op]) (slept t) (ui t))
              | Returned hash =>
                  (Return
                     match waitForUserOperationReceipt oracle (S (S (requests t))) hash with
                     | Settles ms r =>
                         if ms <? 60000
                         then ok_result (or_else (receipt_transactionHash r) hash) (Some 0)
                         else failed_result mintTimedOut (Some hash)
                     | _ => failed_result mintTimedOut (Some hash)
                     end,
                   mkTrace (S (S (S (requests t)))) (submitted t ++ [op]) (slept t) (ui t))
              end
        end
    | _, _ =>
        (Return (failed_result "Circle Smart Account or bundler client not initialized" None), t)
    end.
Proof.
  cbn zeta. unfold Client.mintBike.
  destruct (circleSmartAccount service) as [me|], (bundlerClient service); try reflexivity.
  unfold try_catch at 1. unfold bind at 1. unfold request at 1.
  destruct (read_usdcBalanceOf oracle (requests t) me) as [balance|e];
    [|by destruct (_ || _)].
  destruct (balance <? Client.getBikeMintPrice bikeType);
    [unfold throw; by destruct (_ || _)|].
  unfold bind at 1. unfold send, request. cbn [requests submitted slept ui].
  destruct (sendUserOperation oracle (S (requests t)) _) as [hash|e];
    [|by destruct (_ || _)].
  unfold try_catch, bind, receipt_within_60s, ret. cbn [requests submitted slept ui].
  destruct (waitForUserOperationReceipt oracle (S (S (requests t))) hash) as [ms r|ms e|];
    try destruct (ms <? 60000); reflexivity.
Qed.

(** X23. [mintBike] of the service never throws and never pauses.  It
    submits at most one user operation, and only after it has read a
    USDC balance of at least the mint price on a connected service; the
    operation is gas-sponsored and holds the approval of exactly the
    price followed by the mint.  It reports success only when the relay
    accepted the operation and the receipt arrived within 60 seconds,
    and then always reports token 0, whichever token the contract
    minted. *)
Theorem mintBike_submits_one_funded_operation
    (oracle : Oracle) (service : Service) (toFixed2 : Z -> string)
    (bikeType : BikeType) (bikeName : string) (t : Trace) :
  let mintPrice := Client.getBikeMintPrice bikeType in
  let op := mkUserOperation
              [mkCall (usdcAddress service) (approve (gameContractAddress service) mintPrice);
               mkCall (gameContractAddress service) (mintBike_ bikeType bikeName)] true in
  exists res t',
    Client.mintBike oracle service toFixed2 bikeType bikeName t = (Return res, t') /\
    slept t' = slept t /\ ui t' = ui t /\
    (submitted t' = submitted t \/ submitted t' = submitted t ++ [op]) /\
    (submitted t' = submitted t ++ [op] ->
     exists me balance,
       circleSmartAccount service = Some me /\ bundlerClient service = true /\
       read_usdcBalanceOf oracle (requests t) me = Returned balance /\
       mintPrice <= balance) /\
    (success res = true ->
     tokenId res = Some 0 /\
     submitted t' = submitted t ++ [op] /\
     exists hash ms r,
       sendUserOperation oracle (S (requests t)) op = Returned hash /\
       waitForUserOperationReceipt oracle (S (S (requests t))) hash = Settles ms r /\
       ms < 60000).
Proof.
  cbn zeta. rewrite mintBike_unfolded. cbn zeta.
  assert (Hnew : forall (l : list UserOperation) x, l = l ++ [x] -> False).
  { intros l x Hl. apply (f_equal length) in Hl. rewrite length_app in Hl. cbn in Hl. lia. }
  assert (Hclass : forall m,
             success (if includes m "AA33" || includes m "transfer amount exceeds allowance"
                      then failed_result paymasterNotRegistered None
                      else failed_result m None) = true -> False).
  { intros m. destruct (_ || _); discriminate. }
  destruct (circleSmartAccount service) as [me|], (bundlerClient service).
  2-4: eexists _, _; split; [reflexivity|]; cbn;
       repeat split; try done; try (by left); by intros Hl%Hnew.
  destruct (read_usdcBalanceOf oracle (requests t) me) as [balance|e] eqn:Ebal.
  2: { eexists _, _. split; [reflexivity|]. cbn [requests submitted slept ui].
       repeat split; try done; try (by left); try (by intros Hl%Hnew).
       all: exfalso; by eapply Hclass. }
  destruct (Z.ltb_spec balance (Client.getBikeMintPrice bikeType)).
  { eexists _, _. split; [reflexivity|]. cbn [requests submitted slept ui].
    repeat split; try done; try (by left); try (by intros Hl%Hnew).
    all: exfalso; by eapply Hclass. }
  destruct (sendUserOperation oracle (S (requests t)) _) as [hash|e] eqn:Esend.
  2: { eexists _, _. split; [reflexivity|]. cbn [requests submitted slept ui].
       split; [done|]. split; [done|]. split; [by right|]. split.
       - intros _. by exists me, balance.
       - intros Hs. exfalso. by eapply Hclass. }
  eexists _, _. split; [reflexivity|]. cbn [requests submitted slept ui].
  split; [done|]. split; [done|]. split; [by right|]. split.
  { intros _. by exists me, balance. }
  destruct (waitForUserOperationReceipt oracle (S (S (requests t))) hash) as [ms r|ms e|] eqn:Ew;
    try discriminate.
  destruct (Z.ltb_spec ms 60000); [|discriminate].
  intros _. split; [done|]. split; [done|]. by exists hash, ms, r.
Qed.

(** ** Minting through the provider *)

Lemma mintBike_returns (oracle : Oracle) (service : Service) (toFixed2 : Z -> string)
    (bikeType : BikeType) (bikeName : string) (t : Trace) :
  exists res t',
    Client.mintBike oracle service toFixed2 bikeType bikeName t = (Return res, t') /\
    slept t' = slept t /\ ui t' = ui t.
Proof.
  rewrite mintBike_unfolded. cbn zeta.
  destruct (circleSmartAccount service) as [me|], (bundlerClient service);
    try by eexists _, _.
  destruct (read_usdcBalanceOf oracle (requests t) me) as [balance|e]; [|by eexists _, _].
  destruct (balance <? _); [by eexists _, _|].
  destruct (sendUserOperation oracle (S (requests t)) _) as [hash|e]; by eexists _, _.
Qed.

(** X24. [mintBike] of the provider never throws.  Without a connected
    wallet it only sets the error [Wallet not connected] and asks
    nothing.  Otherwise it sets the loading flag, clears the error, runs
    the service's mint once, and always clears the loading flag at the
    end.  It marks the category as minted, and schedules the
    verification after 2 seconds, exactly when the service reported
    success; on a failure it shows the service's error message (or
    [Failed to mint bike] when there is none). *)
Theorem provider_mint_always_settles
    (oracle : Oracle) (service : Service) (toFixed2 : Z -> string) (isConnected : bool)
    (bikeType : BikeType) (bikeName : string) (t : Trace) :
  if isConnected then
    exists res t1,
      Client.mintBike oracle service toFixed2 bikeType bikeName
        (mkTrace (requests t) (submitted t) (slept t)
           ((ui t ++ [SetLoading true]) ++ [SetError None]))
      = (Return res, t1) /\
      GameContext.mintBike oracle service toFixed2 isConnected bikeType bikeName t =
        (Return tt,
         mkTrace (requests t1) (submitted t1) (slept t)
           (ui t ++ [SetLoading true; SetError None]
            ++ (if success res
                then [AddMintedBikeType bikeType; SetTimeout (VerifyMint bikeType) 2000]
                else (if match error res with
                         | Some e => includes e "timeout"
                         | None => false
                         end
                      then [SetTimeout RecheckAfterTimeout 10000] else [])
                     ++ [SetError (Some (or_else (error res) "Failed to mint bike"))])
            ++ [SetLoading false]))
  else
    GameContext.mintBike oracle service toFixed2 isConnected bikeType bikeName t =
      (Return tt,
       mkTrace (requests t) (submitted t) (slept t)
         (ui t ++ [SetError (Some "Wallet not connected")])).
Proof.
  unfold GameContext.mintBike. destruct isConnected; [|reflexivity].
  cbn [negb]. unfold bind at 1. unfold update at 1. unfold bind at 1. unfold update at 1.
  cbn [requests submitted slept ui].
  destruct (mintBike_returns oracle service toFixed2 bikeType bikeName
              (mkTrace (requests t) (submitted t) (slept t)
                 ((ui t ++ [SetLoading true]) ++ [SetError None])))
    as (res & t1 & Hrun & Hslept & Hui).
  exists res, t1. split; [exact Hrun|].
  unfold try_finally, try_catch. unfold bind at 1. rewrite Hrun.
  cbn [requests submitted slept ui] in *.
  destruct (success res).
  - unfold bind, update. cbn. rewrite Hui, Hslept, <- !app_assoc. reflexivity.
  - destruct (match error res with Some e => includes e "timeout" | None => false end);
      unfold bind, update, ret, throw; cbn; rewrite Hui, Hslept, <- !app_assoc;
      reflexivity.
Qed.

(** ** Two ways to ask which categories are owned *)

Section Stationary.

Variable oracle : Oracle.
Variable service : Service.

(** The chain answers every read the same way at every moment. *)
Hypothesis balance_settled :
  forall n m a, read_balanceOf oracle n a = read_balanceOf oracle m a.
Hypothesis index_settled :
  forall n m a i, read_tokenOfOwnerByIndex oracle n a i = read_tokenOfOwnerByIndex oracle m a i.
Hypothesis supply_settled :
  forall n m, read_totalSupply oracle n = read_totalSupply oracle m.
Hypothesis owner_settled :
  forall n m i, read_ownerOf oracle n i = read_ownerOf oracle m i.
Hypothesis bike_settled :
  forall n m i, read_getBikeNFT oracle n i = read_getBikeNFT oracle m i.

Lemma enumerate_settled (me : string) (count : nat) (i : Z) (tokenIds : list Z) (t1 t2 : Trace) :
  (enumerate oracle me count i tokenIds t1).1 = (enumerate oracle me count i tokenIds t2).1.
Proof.
  revert i tokenIds t1 t2. induction count as [|count IH]; intros i tokenIds t1 t2; [done|].
  cbn [enumerate]. unfold bind at 1 3, try_catch, bind, request, ret.
  rewrite (index_settled (requests t1) (requests t2)).
  destruct (read_tokenOfOwnerByIndex oracle (requests t2) me i) as [tokenId|e]; cbn; [|done].
  apply IH.
Qed.

Lemma scan_settled (me : string) (count : nat) (tokenId : Z) (tokenIds : list Z) (t1 t2 : Trace) :
  (scan oracle me count tokenId tokenIds t1).1 = (scan oracle me count tokenId tokenIds t2).1.
Proof.
  revert tokenId tokenIds t1 t2.
  induction count as [|count IH]; intros tokenId tokenIds t1 t2; [done|].
  cbn [scan]. unfold bind at 1 3, try_catch, bind, request, ret.
  rewrite (owner_settled (requests t1) (requests t2)).
  destruct (read_ownerOf oracle (requests t2) tokenId) as [owner|e]; cbn.
  - destruct (String.eqb _ _); apply IH.
  - apply IH.
Qed.

Lemma getPlayerBikes_settled (t1 t2 : Trace) :
  (getPlayerBikes oracle service t1).1 = (getPlayerBikes oracle service t2).1.
Proof.
  unfold getPlayerBikes, try_catch.
  destruct (circleSmartAccount service) as [me|]; [|done].
  unfold bind at 1 3, request.
  rewrite (balance_settled (requests t1) (requests t2)).
  destruct (read_balanceOf oracle (requests t2) me) as [balance|e]; [|done].
  destruct (balance =? 0); [done|].
  unfold bind.
  pose proof (enumerate_settled me (Z.to_nat balance) 0 []
                (mkTrace (S (requests t1)) (submitted t1) (slept t1) (ui t1))
                (mkTrace (S (requests t2)) (submitted t2) (slept t2) (ui t2))) as He.
  destruct (enumerate_returns oracle me (Z.to_nat balance) 0 []
              (mkTrace (S (requests t1)) (submitted t1) (slept t1) (ui t1)))
    as ([ids1 ok1] & u1 & E1 & _).
  destruct (enumerate_returns oracle me (Z.to_nat balance) 0 []
              (mkTrace (S (requests t2)) (submitted t2) (slept t2) (ui t2)))
    as ([ids2 ok2] & u2 & E2 & _).
  rewrite E1, E2 in *. cbn in He. injection He as -> ->. cbn [fst snd].
  destruct ok2; [done|].
  unfold fallback, try_catch, bind, request.
  rewrite (supply_settled (requests u1) (requests u2)).
  destruct (read_totalSupply oracle (requests u2)) as [supply|e]; cbn; [|done].
  pose proof (scan_settled me (Z.to_nat supply) 1 ids2
                (mkTrace (S (requests u1)) (submitted u1) (slept u1) (ui u1))
                (mkTrace (S (requests u2)) (submitted u2) (slept u2) (ui u2))) as Hsc.
  destruct (scan_returns oracle me (Z.to_nat supply) 1 ids2
              (mkTrace (S (requests u1)) (submitted u1) (slept u1) (ui u1)))
    as (s1 & v1 & S1 & _).
  destruct (scan_returns oracle me (Z.to_nat supply) 1 ids2
              (mkTrace (S (requests u2)) (submitted u2) (slept u2) (ui u2)))
    as (s2 & v2 & S2 & _).
  rewrite S1, S2 in *. cbn in Hsc. by injection Hsc as ->.
Qed.

(** The set collected holds the categories of the readable bikes. *)
Lemma collectTypes_settled (tokenIds : list Z) (ownedTypes : gset Z) (t : Trace) :
  exists s t',
    collectTypes oracle tokenIds ownedTypes t = (Return s, t') /\
    forall x, x ∈ s <->
      x ∈ ownedTypes \/ exists tokenId, tokenId ∈ tokenIds /\
                                        read_getBikeNFT oracle 0 tokenId = Returned x.
Proof.
  revert ownedTypes t. induction tokenIds as [|tokenId rest IH]; intros ownedTypes t.
  - exists ownedTypes, t. split; [done|]. intros x. split; [by left|].
    intros [Hx|(i & Hi & _)]; [done|]. by apply elem_of_nil in Hi.
  - cbn [collectTypes]. unfold bind at 1, try_catch, bind, request, ret.
    rewrite (bike_settled (requests t) 0).
    destruct (read_getBikeNFT oracle 0 tokenId) as [bikeType|e] eqn:E; cbn.
    + destruct (IH (ownedTypes ∪ {[bikeType]})
                  (mkTrace (S (requests t)) (submitted t) (slept t) (ui t)))
        as (s & t' & -> & Hs).
      exists s, t'. split; [done|]. intros x. rewrite Hs. split.
      * intros [[Hx| ->%elem_of_singleton]%elem_of_union|(i & Hi & Hr)].
        -- by left.
        -- right. exists tokenId. split; [by left|done].
        -- right. exists i. split; [by right|done].
      * intros [Hx|(i & Hi & Hr)].
        -- left. apply elem_of_union. by left.
        -- apply elem_of_cons in Hi as [->|Hi].
           ++ left. apply elem_of_union. right. apply elem_of_singleton. congruence.
           ++ right. by exists i.
    + destruct (IH ownedTypes (mkTrace (S (requests t)) (submitted t) (slept t) (ui t)))
        as (s & t' & -> & Hs).
      exists s, t'. split; [done|]. intros x. rewrite Hs. split.
      * intros [Hx|(i & Hi & Hr)]; [by left|]. right. exists i. split; [by right|done].
      * intros [Hx|(i & Hi & Hr)]; [by left|].
        apply elem_of_cons in Hi as [->|Hi]; [congruence|]. right. by exists i.
Qed.

(** The loop answers whether a readable bike has the category. *)
Lemma anyOfType_settled (bikeType : BikeType) (tokenIds : list Z) (t : Trace) :
  exists b t',
    anyOfType oracle bikeType tokenIds t = (Return b, t') /\
    (b = true <->
     exists tokenId, tokenId ∈ tokenIds /\ read_getBikeNFT oracle 0 tokenId = Returned bikeType).
Proof.
  revert t. induction tokenIds as [|tokenId rest IH]; intros t.
  - exists false, t. split; [done|]. split; [done|].
    intros (i & Hi & _). by apply elem_of_nil in Hi.
  - cbn [anyOfType]. unfold bind at 1, try_catch, bind, request, ret.
    rewrite (bike_settled (requests t) 0).
    destruct (read_getBikeNFT oracle 0 tokenId) as [bikeType'|e] eqn:E; cbn.
    + destruct (Z.eqb_spec bikeType' bikeType) as [->|Hne].
      * eexists true, _. split; [done|]. split; [|done].
        intros _. exists tokenId. split; [by left|done].
      * destruct (IH (mkTrace (S (requests t)) (submitted t) (slept t) (ui t)))
          as (b & t' & -> & Hb).
        exists b, t'. split; [done|]. rewrite Hb. split.
        -- intros (i & Hi & Hr). exists i. split; [by right|done].
        -- intros (i & Hi & Hr). apply elem_of_cons in Hi as [->|Hi]; [congruence|].
           by exists i.
    + destruct (IH (mkTrace (S (requests t)) (submitted t) (slept t) (ui t)))
        as (b & t' & -> & Hb).
      exists b, t'. split; [done|]. rewrite Hb. split.
      * intros (i & Hi & Hr). exists i. split; [by right|done].
      * intros (i & Hi & Hr). apply elem_of_cons in Hi as [->|Hi]; [congruence|].
        by exists i.
Qed.

Lemma owned_types_agree (bikeType : BikeType) (t t' : Trace) :
  exists b s,
    (checkBikeTypeOwnership oracle service bikeType t).1 = Return b /\
    (getOwnedBikeTypesReliable oracle service t').1 = Return s /\
    (b = true <-> bikeType ∈ s).
Proof.
  unfold getOwnedBikeTypesReliable. rewrite retry_policy.
  unfold checkBikeTypeOwnership, attempt, try_catch.
  destruct (circleSmartAccount service) as [me|] eqn:Hme.
  2: { exists false, ∅. cbn. by repeat split. }
  unfold bind.
  pose proof (getPlayerBikes_settled t t') as Hsame.
  destruct (getPlayerBikes_returns oracle service t) as (ids & u & E1 & _).
  destruct (getPlayerBikes_returns oracle service t') as (ids' & u' & E2 & _).
  rewrite E1, E2 in *. cbn in Hsame. injection Hsame as <-.
  cbn [Nat.ltb Nat.leb]. unfold ret at 2.
  destruct (anyOfType_settled bikeType ids u) as (b & v & -> & Hb).
  destruct (collectTypes_settled ids ∅ u') as (s & v' & -> & Hs).
  exists b, s. cbn. split; [done|]. split; [done|].
  rewrite Hb, Hs. split; [by right|].
  intros [Hx|Hx]; [by apply elem_of_empty in Hx | done].
Qed.

End Stationary.

(** X25. On a chain that answers every read the same way at every
    moment, the two ways to ask which categories the player owns agree:
    [checkBikeTypeOwnership] answers [true] for a category exactly when
    that category is in the set [getOwnedBikeTypesReliable] returns.
    Neither of them throws. *)
Theorem ownership_queries_agree (oracle : Oracle) (service : Service) (bikeType : BikeType)
    (t t' : Trace) :
  (forall n m a, read_balanceOf oracle n a = read_balanceOf oracle m a) ->
  (forall n m a i,
     read_tokenOfOwnerByIndex oracle n a i = read_tokenOfOwnerByIndex oracle m a i) ->
  (forall n m, read_totalSupply oracle n = read_totalSupply oracle m) ->
  (forall n m i, read_ownerOf oracle n i = read_ownerOf oracle m i) ->
  (forall n m i, read_getBikeNFT oracle n i = read_getBikeNFT oracle m i) ->
  exists b s,
    (checkBikeTypeOwnership oracle service bikeType t).1 = Return b /\
    (getOwnedBikeTypesReliable oracle service t').1 = Return s /\
    (b = true <-> bikeType ∈ s).
Proof. intros H1 H2 H3 H4 H5. by apply owned_types_agree. Qed.

Lemma ownership_queries_agree_witness :
  exists b s,
    (checkBikeTypeOwnership ClientScenario.settled ClientScenario.connected SPORTS start).1
    = Return b /\
    (getOwnedBikeTypesReliable ClientScenario.settled ClientScenario.connected start).1
    = Return s /\
    (b = true <-> SPORTS ∈ s).
Proof.
  apply (ownership_queries_agree ClientScenario.settled ClientScenario.connected SPORTS
           start start); intros; reflexivity.
Defined.

(** The categories differ when the chain changes under the queries: on
    the chain that first sees no bike, the first query finds nothing
    and a later one finds the bike. *)
Example ownership_queries_on_moving_chain :
  (checkBikeTypeOwnership ClientScenario.lagging ClientScenario.connected SPORTS start).1
  = Return false /\
  (checkBikeTypeOwnership ClientScenario.lagging ClientScenario.connected SPORTS
     (mkTrace 1 [] [] [])).1
  = Return true.
Proof. by vm_compute. Qed.

(** ** Starting a session through the service *)


(** X27. [startGame], [enterTournament] and [transferTokensToPlayer] of
    [services/CircleService.ts] never reach the chain: each returns at
    once, with no request made and no user operation submitted, and
    reports success whenever an account is connected; the session
    identifier of such a start is the current time, not an identifier
    issued by the contract. *)
Theorem mock_calls_never_reach_chain
    (oracle : Oracle) (service : Service) (now : nat -> Z) (randomHash : nat -> string)
    (bike mode tournament amount : Z) (toAddress : string) (t : Trace) :
  let connected := match circleSmartAccount service with Some _ => true | None => false end in
  let answer (r : Outcome TransactionResult * Trace) (session : option Z) :=
    r = (Return
           (if connected
            then mkTransactionResult true (Some (randomHash (requests t))) None session None
            else failed_result "Circle Smart Account not initialized" None),
         t) in
  answer (ServiceExtras.startGame service now randomHash bike mode t)
    (if connected then Some (now (requests t)) else None) /\
  answer (enterTournament service randomHash tournament t) None /\
  answer (transferTokensToPlayer service randomHash toAddress amount t) None.
Proof.
  cbn zeta. unfold ServiceExtras.startGame, enterTournament, transferTokensToPlayer.
  by destruct (circleSmartAccount service).
Qed.

(** ** The enumerable index *)




End ClientExtras.
